(** * Smart Budget App: budget / expense aggregation and classification

    A shallow embedding of the two application variants (the SQLite-backed
    one with [database.py], and the flat-file one) restricted to the logic the
    specification documents: the 50/30/20 report, the budget-versus-actual
    table, the record store's budget upsert and expense mutations, and the
    DIME insurance estimate.

    Amounts are Python floats in the source.  Two embeddings of them are
    used, each for the statements it can carry:

    - [Binary64] computes with Rocq's primitive [float], that is IEEE 754
      binary64 with round-to-nearest-even, as Python does.  Everything said
      about a status, a ratio, a sum of expenses or the value of the
      estimate is said about this model.
    - the modules [Database], [Report] and [FlatFile] take amounts as exact
      rationals [Q].  They carry the statements in which an amount is only
      stored, copied or compared with zero, and the two statements that hold
      in exact arithmetic: the partition of the total budget by the three
      limits, and the monotonicity of the estimate. *)

From Stdlib Require Import List String Ascii Bool ZArith QArith Qpower Lqa Lia.
From Stdlib Require Import Permutation Morphisms Sorted.
From Stdlib Require Uint63.
From Stdlib Require Import Floats.
Import ListNotations.

#[local] Set Warnings "-inexact-float".

Local Open Scope string_scope.
Local Open Scope Q_scope.

(** ** Python outcomes

    A computation either returns a value or raises.  Only the exceptions the
    modelled code could raise are named. *)

Module Py.

Inductive exn : Type :=
| KeyError (key : string)
| ZeroDivisionError
| ValueError
| OverflowError.

Inductive result (A : Type) : Type :=
| Return (v : A)
| Raise (e : exn).

Arguments Return {A} v.
Arguments Raise {A} e.

Definition bind {A B : Type} (m : result A) (k : A -> result B) : result B :=
  match m with
  | Return v => k v
  | Raise e => Raise e
  end.

(** [for x in xs: acc = body(acc, x)], stopping at the first exception. *)
Fixpoint for_each {A S : Type} (body : S -> A -> result S) (xs : list A) (acc : S)
  : result S :=
  match xs with
  | [] => Return acc
  | x :: rest => bind (body acc x) (for_each body rest)
  end.

(** [[f(x) for x in xs]] where [f] may raise. *)
Fixpoint map_each {A B : Type} (f : A -> result B) (xs : list A) : result (list B) :=
  match xs with
  | [] => Return []
  | x :: rest =>
      bind (f x) (fun y => bind (map_each f rest) (fun ys => Return (y :: ys)))
  end.

(** [sum(xs)]: left to right, starting from 0. *)
Definition sum (xs : list Q) : Q := fold_left Qplus xs 0.

(** [a / b] on numbers. *)
Definition div (a b : Q) : result Q :=
  if Qeq_bool b 0 then Raise ZeroDivisionError else Return (a / b).

(** [a > b] on numbers. *)
Definition gt (a b : Q) : bool := negb (Qle_bool a b).

(** [x in xs] for a list of strings. *)
Definition mem (x : string) (xs : list string) : bool :=
  existsb (String.eqb x) xs.

End Py.

Notation "x <- m ;; k" := (Py.bind m (fun x => k))
  (at level 61, m at next level, right associativity).

(** ** Insertion-ordered dictionaries with string keys

    A Python [dict] keeps its keys in insertion order; assigning to a key that
    is already present keeps the key's position. *)

Module Dict.

Definition t : Type := list (string * Q).

Fixpoint get (d : t) (k : string) : Py.result Q :=
  match d with
  | [] => Py.Raise (Py.KeyError k)
  | (k', v) :: rest => if String.eqb k k' then Py.Return v else get rest k
  end.

(** [d[k] = v] *)
Fixpoint set (d : t) (k : string) (v : Q) : t :=
  match d with
  | [] => [(k, v)]
  | (k', v') :: rest =>
      if String.eqb k k' then (k', v) :: rest else (k', v') :: set rest k v
  end.

(** [d[k] += v]: reads [d[k]] first, so an absent key raises. *)
Definition iadd (d : t) (k : string) (v : Q) : Py.result t :=
  old <- get d k ;; Py.Return (set d k (old + v)).

Definition keys (d : t) : list string := map fst d.
Definition values (d : t) : list Q := map snd d.

End Dict.

(** ** The 50/30/20 classification

    The source classifies inline, in the loop over the expense rows; the
    [if]/[elif] chain is named [classify] here and yields the key of
    [categorized] that the row's amount is added to. *)

Definition needs : list string :=
  ["Housing"; "Utilities"; "Groceries"; "Transportation"; "Healthcare";
   "Insurance"; "Debt Payments"].
Definition wants : list string := ["Entertainment"].
Definition savings : list string := ["Savings"; "Education"].

Definition classify (category : string) : string :=
  if Py.mem category needs then "Needs"
  else if Py.mem category wants then "Wants"
  else if Py.mem category savings then "Savings"
  else "Wants".

(** Rows are mappings read through [row["category"]] and [row["amount"]]. *)

Class Row (R : Type) : Type := {
  category : R -> string;
  amount : R -> Q
}.

(** ** The record store of [database.py] *)

Module Database.

Record budget_row : Type := {
  b_id : Z;
  b_user_id : Z;
  b_month : string;
  b_category : string;
  b_amount : Q
}.

Record expense_row : Type := {
  e_id : Z;
  e_user_id : Z;
  e_month : string;
  e_category : string;
  e_amount : Q;
  e_timestamp : string
}.

(** The two tables with their AUTOINCREMENT counters (the largest id handed
    out so far).  The [users] table plays no part in what follows. *)
Record db : Type := {
  budgets : list budget_row;
  budgets_seq : Z;
  expenses : list expense_row;
  expenses_seq : Z
}.

Definition init_db : db :=
  {| budgets := []; budgets_seq := 0; expenses := []; expenses_seq := 0 |}.

Definition with_budgets (d : db) (rows : list budget_row) (seq : Z) : db :=
  {| budgets := rows; budgets_seq := seq;
     expenses := expenses d; expenses_seq := expenses_seq d |}.

Definition with_expenses (d : db) (rows : list expense_row) (seq : Z) : db :=
  {| budgets := budgets d; budgets_seq := budgets_seq d;
     expenses := rows; expenses_seq := seq |}.

(** The columns of [UNIQUE(user_id, month, category)]. *)
Definition budget_key (r : budget_row) : Z * string * string :=
  (b_user_id r, b_month r, b_category r).

Definition key_eqb (k1 k2 : Z * string * string) : bool :=
  let '(u1, m1, c1) := k1 in
  let '(u2, m2, c2) := k2 in
  (u1 =? u2)%Z && String.eqb m1 m2 && String.eqb c1 c2.

Definition conflicts (k : Z * string * string) (r : budget_row) : bool :=
  key_eqb (budget_key r) k.

Definition set_b_amount (r : budget_row) (a : Q) : budget_row :=
  {| b_id := b_id r; b_user_id := b_user_id r; b_month := b_month r;
     b_category := b_category r; b_amount := a |}.

(** [INSERT ... ON CONFLICT(user_id, month, category) DO UPDATE SET amount =
    excluded.amount]: the row holding the key, if any, gets the new amount in
    place; otherwise a row with the next id is inserted. *)
Definition save_budget (user_id : Z) (month cat : string) (amt : Q) (d : db)
  : Py.result unit * db :=
  let k := (user_id, month, cat) in
  if existsb (conflicts k) (budgets d) then
    (Py.Return tt,
     with_budgets d
       (map (fun r => if conflicts k r then set_b_amount r amt else r) (budgets d))
       (budgets_seq d))
  else
    let id := (budgets_seq d + 1)%Z in
    (Py.Return tt,
     with_budgets d
       (budgets d ++ [{| b_id := id; b_user_id := user_id; b_month := month;
                         b_category := cat; b_amount := amt |}])
       id).

(** [SELECT category, amount FROM budgets WHERE user_id = ? AND month = ?] *)
Record budget_view : Type := { bv_category : string; bv_amount : Q }.

Definition get_budget (user_id : Z) (month : string) (d : db) : list budget_view :=
  map (fun r => {| bv_category := b_category r; bv_amount := b_amount r |})
      (filter (fun r => (b_user_id r =? user_id)%Z && String.eqb (b_month r) month)
              (budgets d)).

Definition add_expense (user_id : Z) (month cat : string) (amt : Q) (now : string)
    (d : db) : Py.result unit * db :=
  let id := (expenses_seq d + 1)%Z in
  (Py.Return tt,
   with_expenses d
     (expenses d ++ [{| e_id := id; e_user_id := user_id; e_month := month;
                        e_category := cat; e_amount := amt; e_timestamp := now |}])
     id).

(** [SELECT id, category, amount, timestamp FROM expenses WHERE user_id = ? AND
    month = ? ORDER BY timestamp DESC] *)
Record expense_view : Type := {
  ev_id : Z;
  ev_category : string;
  ev_amount : Q;
  ev_timestamp : string
}.

Fixpoint insert_desc (r : expense_view) (sorted : list expense_view) : list expense_view :=
  match sorted with
  | [] => [r]
  | r' :: rest =>
      if String.ltb (ev_timestamp r') (ev_timestamp r) then r :: sorted
      else r' :: insert_desc r rest
  end.

Definition order_by_timestamp_desc (rows : list expense_view) : list expense_view :=
  fold_right insert_desc [] rows.

Definition get_expenses (user_id : Z) (month : string) (d : db) : list expense_view :=
  order_by_timestamp_desc
    (map (fun r => {| ev_id := e_id r; ev_category := e_category r;
                      ev_amount := e_amount r; ev_timestamp := e_timestamp r |})
         (filter (fun r => (e_user_id r =? user_id)%Z && String.eqb (e_month r) month)
                 (expenses d))).

Definition set_e_amount (r : expense_row) (a : Q) : expense_row :=
  {| e_id := e_id r; e_user_id := e_user_id r; e_month := e_month r;
     e_category := e_category r; e_amount := a; e_timestamp := e_timestamp r |}.

(** [UPDATE expenses SET amount = ? WHERE id = ?] *)
Definition update_expense (expense_id : Z) (new_amount : Q) (d : db)
  : Py.result unit * db :=
  (Py.Return tt,
   with_expenses d
     (map (fun r => if (e_id r =? expense_id)%Z then set_e_amount r new_amount else r)
          (expenses d))
     (expenses_seq d)).

(** [DELETE FROM expenses WHERE id = ?] *)
Definition delete_expense (expense_id : Z) (d : db) : Py.result unit * db :=
  (Py.Return tt,
   with_expenses d
     (filter (fun r => negb (e_id r =? expense_id)%Z) (expenses d))
     (expenses_seq d)).

End Database.

#[export] Instance budget_view_Row : Row Database.budget_view :=
  {| category := Database.bv_category; amount := Database.bv_amount |}.

#[export] Instance expense_view_Row : Row Database.expense_view :=
  {| category := Database.ev_category; amount := Database.ev_amount |}.

(** ** The 50/30/20 report of the SQLite-backed application, in exact
    arithmetic

    The page with every product, sum and quotient taken over the rationals.
    What the program computes on floats is [Binary64.report]. *)

Module Report.

Record analysis_row : Type := {
  Category : string;
  Limit : Q;
  Actual : Q;
  Status : string
}.

(** What the page shows: either the warning followed by [st.stop()], or the
    analysis table. *)
Inductive page : Type :=
| Stopped (warning : string)
| Analysis (analysis_df : list analysis_row).

Definition limits_of (total_budget : Q) : Dict.t :=
  [("Needs", total_budget * 0.50);
   ("Wants", total_budget * 0.30);
   ("Savings", total_budget * 0.20)].

(** The loop over the expense rows, shared verbatim by both variants. *)
Definition categorize {R : Type} `{Row R} (actuals : list R) : Py.result Dict.t :=
  Py.for_each
    (fun categorized row =>
       Dict.iadd categorized (classify (category row)) (amount row))
    actuals
    [("Needs", 0); ("Wants", 0); ("Savings", 0)].

Definition status_of (ratio : Q) : string :=
  if Qle_bool ratio 0.9 then "🟢 Under Budget"
  else if Qle_bool ratio 1.0 then "🟡 At Limit"
  else "🔴 Over Budget".

(** [for k in categorized: ratio = categorized[k] / limits[k]; ...] *)
Definition statuses (categorized limits : Dict.t) : Py.result (list string) :=
  Py.map_each
    (fun k =>
       a <- Dict.get categorized k ;;
       l <- Dict.get limits k ;;
       ratio <- Py.div a l ;;
       Py.Return (status_of ratio))
    (Dict.keys categorized).

(** [pd.DataFrame] from four columns; columns of different lengths are a
    [ValueError]. *)
Fixpoint data_frame (cats : list string) (lims acts : list Q) (sts : list string)
  : Py.result (list analysis_row) :=
  match cats, lims, acts, sts with
  | [], [], [], [] => Py.Return []
  | c :: cats', l :: lims', a :: acts', s :: sts' =>
      rest <- data_frame cats' lims' acts' sts' ;;
      Py.Return ({| Category := c; Limit := l; Actual := a; Status := s |} :: rest)
  | _, _, _, _ => Py.Raise Py.ValueError
  end.

(** [sum([b["amount"] for b in budget])] *)
Definition total_of {B : Type} `{Row B} (budget : list B) : Q :=
  Py.sum (map amount budget).

Definition report {A B : Type} `{Row A} `{Row B} (actuals : list A) (budget : list B)
  : Py.result page :=
  let total_budget := total_of budget in
  if Qeq_bool total_budget 0 then
    Py.Return (Stopped "Please set your monthly budget to see analysis.")
  else
    let limits := limits_of total_budget in
    categorized <- categorize actuals ;;
    status <- statuses categorized limits ;;
    analysis_df <-
      data_frame ["Needs"; "Wants"; "Savings"]
                 (Dict.values limits) (Dict.values categorized) status ;;
    Py.Return (Analysis analysis_df).

End Report.

(** ** The flat-file application, in exact arithmetic

    The budget page only stores the amounts entered.  The report and the
    estimate are the exact-arithmetic readings; what the program computes on
    floats is [Binary64.flat_report] and [Binary64.dime_calculator]. *)

Module FlatFile.

(** A row of the per-user, per-month table: [type], [category], [amount]. *)
Record flat_row : Type := {
  f_type : string;
  f_category : string;
  f_amount : Q
}.

#[global] Instance flat_row_Row : Row flat_row :=
  {| category := f_category; amount := f_amount |}.

(** [df[df["type"] == t]] *)
Definition of_type (t : string) (df : list flat_row) : list flat_row :=
  filter (fun r => String.eqb (f_type r) t) df.

Definition dime_calculator (debt income : Q) (years : Z) (mortgage edu_cost : Q)
    (num_children : Z) : Q :=
  debt + (income * inject_Z years) + mortgage + (edu_cost * inject_Z num_children).

(** One pass of the loop of the "Set Monthly Budget" page for category [cat]
    with the entered [amt]: [budget_df] is the snapshot taken when the
    page was loaded, [df] the table being rewritten. *)
Definition set_budget_step (budget_df : list flat_row) (df : list flat_row)
    (input : string * Q) : list flat_row :=
  let '(cat, amt) := input in
  if existsb (fun r => String.eqb (f_category r) cat && String.eqb (f_type r) "budget")
             budget_df
  then
    map (fun r =>
           if String.eqb (f_category r) cat && String.eqb (f_type r) "budget"
           then {| f_type := f_type r; f_category := f_category r; f_amount := amt |}
           else r)
        df
  else
    df ++ [{| f_type := "budget"; f_category := cat; f_amount := amt |}].

(** The page: [inputs] are the selected categories, in selection order, with
    the amounts typed in; the result is the table written back by
    [save_data]. *)
Definition set_monthly_budget (inputs : list (string * Q)) (df : list flat_row)
  : list flat_row :=
  fold_left (set_budget_step (of_type "budget" df)) inputs df.

(** What the 50/30/20 page shows: the warning, or the two bar series. *)
Inductive page : Type :=
| Stopped (warning : string)
| Chart (actual target : Dict.t).

Definition report (df : list flat_row) : Py.result page :=
  let budget_df := of_type "budget" df in
  let actual_df := of_type "actual" df in
  let total_income := Report.total_of budget_df in
  if Qeq_bool total_income 0 then
    Py.Return (Stopped "Please define a monthly budget to perform analysis.")
  else
    let limits := Report.limits_of total_income in
    categorized <- Report.categorize actual_df ;;
    Py.Return (Chart categorized limits).

End FlatFile.

(** ** The accounts of [database.py]

    The [users] table is only touched by the three functions below.
    [bcrypt] is outside the repository: its two functions are taken as
    parameters. *)

Module Users.

Record user_row : Type := {
  u_id : Z;
  u_email : string;
  u_password : string
}.

Record table : Type := {
  rows : list user_row;
  seq : Z
}.

Definition init : table := {| rows := []; seq := 0 |}.

(** [SELECT ... FROM users WHERE email = ?] followed by [fetchone()] *)
Definition fetchone (email : string) (t : table) : option user_row :=
  find (fun r => String.eqb (u_email r) email) (rows t).

(** The [INSERT] fails with [IntegrityError] on a registered email, because
    of [email TEXT UNIQUE]; the function turns that into [False]. *)
Definition create_user (email hashed_password : string) (t : table) : bool * table :=
  if existsb (fun r => String.eqb (u_email r) email) (rows t) then (false, t)
  else
    let id := (seq t + 1)%Z in
    (true,
     {| rows := rows t ++ [{| u_id := id; u_email := email;
                              u_password := hashed_password |}];
        seq := id |}).

Definition authenticate_user (checkpw : string -> string -> bool)
    (email password_plain : string) (t : table) : option user_row :=
  match fetchone email t with
  | Some row => if checkpw password_plain (u_password row) then Some row else None
  | None => None
  end.

Definition get_user_id (email : string) (t : table) : option Z :=
  match fetchone email t with
  | Some row => Some (u_id row)
  | None => None
  end.

(** The "Create Account" button of [signup_form]: [True] shows "Account
    created", [False] shows "Email already registered". *)
Definition signup (hashpw : string -> string -> string) (salt : string)
    (email password : string) (t : table) : bool * table :=
  create_user email (hashpw password salt) t.

(** The "Login" button of [login_form]: whether the session gets logged
    in. *)
Definition login (checkpw : string -> string -> bool) (email password : string)
    (t : table) : bool :=
  match authenticate_user checkpw email password t with
  | Some _ => true
  | None => false
  end.

End Users.

(** ** The pages of the SQLite-backed application *)

Module App.

Import Database.

(** "Set Budget": [inputs] are the selected categories with the amounts typed
    in; an amount is saved only when it is positive. *)
Definition set_budget_page (user_id : Z) (current_month : string)
    (inputs : list (string * Q)) (d : db) : db :=
  fold_left
    (fun d input =>
       let '(cat, amt) := input in
       if Py.gt amt 0 then snd (save_budget user_id current_month cat amt d) else d)
    inputs d.

Inductive add_expense_view : Type :=
| NoBudget (warning : string)
| Form (options : list string) (added : bool).

(** "Add Expense": the select box offers the categories of the month's
    budget rows and yields one of them ([choice] is its position, the first
    one when out of range); [clicked] is the "Add" button. *)
Definition add_expense_page (user_id : Z) (current_month : string)
    (choice : nat) (amt : Q) (clicked : bool) (now : string) (d : db)
  : add_expense_view * db :=
  let budget_data := get_budget user_id current_month d in
  match budget_data with
  | [] => (NoBudget "Please set your monthly budget first.", d)
  | first :: _ =>
      let options := map bv_category budget_data in
      let cat := nth choice options (bv_category first) in
      if clicked then
        (Form options true, snd (add_expense user_id current_month cat amt now d))
      else (Form options false, d)
  end.

End App.

(** ** More pages and the file names of the flat-file application *)

Module FlatPages.

Import FlatFile.

(** [Series.unique()]: the distinct values in order of first appearance. *)
Fixpoint unique (xs : list string) : list string :=
  match xs with
  | [] => []
  | x :: rest => x :: filter (fun y => negb (String.eqb y x)) (unique rest)
  end.

(** [s.replace(old, new)] for a non-empty [old]: the occurrences of [old] are
    found left to right and do not overlap.  [skip] counts the characters of
    the occurrence just replaced that remain to be passed over. *)
Fixpoint replace_from (old new s : string) (skip : nat) : string :=
  match s with
  | EmptyString => EmptyString
  | String ch rest =>
      match skip with
      | S k => replace_from old new rest k
      | O =>
          if String.prefix old s
          then new ++ replace_from old new rest (String.length old - 1)
          else String ch (replace_from old new rest 0)
      end
  end.

Definition replace (old new s : string) : string := replace_from old new s 0.

(** [s.endswith(suffix)] *)
Definition endswith (suffix s : string) : bool :=
  let n := String.length s in
  let k := String.length suffix in
  (k <=? n)%nat && String.eqb (String.substring (n - k) k s) suffix.

Definition safe_email (email : string) : string :=
  replace "." "_dot_" (replace "@" "_at_" email).

Definition data_folder (email : string) : string := "data/" ++ safe_email email.

Definition get_data_path (email month_year : string) : string :=
  data_folder email ++ "/" ++ month_year ++ ".csv".

(** [listdir] gives the names in a folder, or nothing when the folder does
    not exist. *)
Definition get_all_months (listdir : string -> option (list string)) (email : string)
  : list string :=
  match listdir (data_folder email) with
  | None => []
  | Some files => map (replace ".csv" "") (filter (endswith ".csv") files)
  end.

End FlatPages.

(** ** The arithmetic Python performs

    A Python [float] is an IEEE 754 binary64 number: every sum, product and
    quotient is rounded to the nearest representable value, ties to even.
    This is Rocq's primitive [float] with its operations, so the definitions
    of this module compute what the program computes, digit for digit.  They
    repeat the report, the budget-versus-actual table and the estimate with
    [float] amounts; the statements on statuses and sums are about them.

    The two summations the program leaves to a library, the built-in
    [sum(...)] and pandas' [Series.sum()], are taken as a parameter [fsum]:
    in which order and with which compensation they add depends on the
    library version.  [sum_left] is the plain left-to-right one. *)

Module Binary64.

Local Open Scope float_scope.

(** [a > b], [a <= b] and [a == b] on floats; all false on NaN. *)
Definition gt (a b : float) : bool := PrimFloat.ltb b a.
Definition le (a b : float) : bool := PrimFloat.leb a b.
Definition eq (a b : float) : bool := PrimFloat.eqb a b.

(** [a / b] on floats raises on a zero divisor of either sign. *)
Definition div (a b : float) : Py.result float :=
  if eq b 0 then Py.Raise Py.ZeroDivisionError else Py.Return (a / b).

(** The float nearest to an integer, ties to even; an infinity beyond the
    range of the floats. *)
Definition nearest (n : Z) : float :=
  SF2Prim (binary_normalize prec emax n 0 false).

(** [float(n)], as when a float meets an [int] in a product: the nearest
    float, and [OverflowError] for an integer beyond the range. *)
Definition of_int (n : Z) : Py.result float :=
  let x := nearest n in
  if PrimFloat.is_infinity x then Py.Raise Py.OverflowError else Py.Return x.

(** Adding up from 0, left to right. *)
Definition sum_left (xs : list float) : float := fold_left PrimFloat.add xs 0.

(** Rows are mappings read through [row["category"]] and [row["amount"]]. *)
Class Row (R : Type) : Type := {
  category : R -> string;
  amount : R -> float
}.

(** The two columns of a budget or expense row that the report reads. *)
Record entry : Type := {
  e_category : string;
  e_amount : float
}.

#[global] Instance entry_Row : Row entry :=
  {| category := e_category; amount := e_amount |}.

(** Insertion-ordered dictionaries with string keys and float values. *)
Module Dict.

Definition t : Type := list (string * float).

Fixpoint get (d : t) (k : string) : Py.result float :=
  match d with
  | [] => Py.Raise (Py.KeyError k)
  | (k', v) :: rest => if String.eqb k k' then Py.Return v else get rest k
  end.

Fixpoint set (d : t) (k : string) (v : float) : t :=
  match d with
  | [] => [(k, v)]
  | (k', v') :: rest =>
      if String.eqb k k' then (k', v) :: rest else (k', v') :: set rest k v
  end.

Definition iadd (d : t) (k : string) (v : float) : Py.result t :=
  old <- get d k ;; Py.Return (set d k (old + v)).

Definition keys (d : t) : list string := map fst d.
Definition values (d : t) : list float := map snd d.

End Dict.

(** *** The 50/30/20 report of the SQLite-backed application *)

Record analysis_row : Type := {
  Category : string;
  Limit : float;
  Actual : float;
  Status : string
}.

Inductive page : Type :=
| Stopped (warning : string)
| Analysis (analysis_df : list analysis_row).

Definition limits_of (total_budget : float) : Dict.t :=
  [("Needs", total_budget * 0.50);
   ("Wants", total_budget * 0.30);
   ("Savings", total_budget * 0.20)].

(** The loop over the expense rows, shared verbatim by both variants. *)
Definition categorize {R : Type} `{Row R} (actuals : list R) : Py.result Dict.t :=
  Py.for_each
    (fun categorized row =>
       Dict.iadd categorized (classify (category row)) (amount row))
    actuals
    [("Needs", 0); ("Wants", 0); ("Savings", 0)].

Definition status_of (ratio : float) : string :=
  if le ratio 0.9 then "🟢 Under Budget"
  else if le ratio 1.0 then "🟡 At Limit"
  else "🔴 Over Budget".

(** [for k in categorized: ratio = categorized[k] / limits[k]; ...] *)
Definition statuses (categorized limits : Dict.t) : Py.result (list string) :=
  Py.map_each
    (fun k =>
       a <- Dict.get categorized k ;;
       l <- Dict.get limits k ;;
       ratio <- div a l ;;
       Py.Return (status_of ratio))
    (Dict.keys categorized).

Fixpoint data_frame (cats : list string) (lims acts : list float) (sts : list string)
  : Py.result (list analysis_row) :=
  match cats, lims, acts, sts with
  | [], [], [], [] => Py.Return []
  | c :: cats', l :: lims', a :: acts', s :: sts' =>
      rest <- data_frame cats' lims' acts' sts' ;;
      Py.Return ({| Category := c; Limit := l; Actual := a; Status := s |} :: rest)
  | _, _, _, _ => Py.Raise Py.ValueError
  end.

(** The page on the two query results; [fsum] is the built-in [sum]. *)
Definition report {A B : Type} `{Row A} `{Row B} (fsum : list float -> float)
    (actuals : list A) (budget : list B) : Py.result page :=
  let total_budget := fsum (map amount budget) in
  if eq total_budget 0 then
    Py.Return (Stopped "Please set your monthly budget to see analysis.")
  else
    let limits := limits_of total_budget in
    categorized <- categorize actuals ;;
    status <- statuses categorized limits ;;
    analysis_df <-
      data_frame ["Needs"; "Wants"; "Savings"]
                 (Dict.values limits) (Dict.values categorized) status ;;
    Py.Return (Analysis analysis_df).

(** *** The flat-file application *)

Record flat_row : Type := {
  f_type : string;
  f_category : string;
  f_amount : float
}.

#[global] Instance flat_row_Row : Row flat_row :=
  {| category := f_category; amount := f_amount |}.

(** [df[df["type"] == t]] *)
Definition of_type (t : string) (df : list flat_row) : list flat_row :=
  filter (fun r => String.eqb (f_type r) t) df.

(** A row of [comp_df]. *)
Record comp_row : Type := {
  c_Category : string;
  c_Budgeted : float;
  c_Actual : float;
  c_Status : string
}.

(** The table built by [display_budget_vs_actual]; [fsum] is [Series.sum()]. *)
Definition display_budget_vs_actual (fsum : list float -> float)
    (budget_df actual_df : list flat_row) : list comp_row :=
  map (fun row =>
         let cat := f_category row in
         let budget_amt := f_amount row in
         let actual_amt :=
           fsum (map f_amount
                     (filter (fun r => String.eqb (f_category r) cat) actual_df)) in
         let status :=
           if gt actual_amt budget_amt then "❌ Over Budget"
           else if gt actual_amt (0.9 * budget_amt) then "⚠️ Near Limit"
           else "✅ OK" in
         {| c_Category := cat; c_Budgeted := budget_amt; c_Actual := actual_amt;
            c_Status := status |})
      budget_df.

(** What the flat-file 50/30/20 page shows: the warning, or the two bar
    series. *)
Inductive flat_page : Type :=
| FlatStopped (warning : string)
| Chart (actual target : Dict.t).

Definition flat_report (fsum : list float -> float) (df : list flat_row)
  : Py.result flat_page :=
  let budget_df := of_type "budget" df in
  let actual_df := of_type "actual" df in
  let total_income := fsum (map f_amount budget_df) in
  if eq total_income 0 then
    Py.Return (FlatStopped "Please define a monthly budget to perform analysis.")
  else
    let limits := limits_of total_income in
    categorized <- categorize actual_df ;;
    Py.Return (Chart categorized limits).

(** What "Track Spending" displays. *)
Inductive track_view : Type :=
| NoBudget (warning : string)
| Table (comp_df : list comp_row).

(** "Track Spending" on the table [df] loaded at the start of the run.  The
    result is what the page displays and the table the file holds
    afterwards.  The comparison is drawn from the rows loaded, before the
    new expense is appended. *)
Definition track_spending (fsum : list float -> float) (choice : nat) (amt : float)
    (clicked : bool) (df : list flat_row) : track_view * list flat_row :=
  let budget_df := of_type "budget" df in
  let actual_df := of_type "actual" df in
  match budget_df with
  | [] => (NoBudget "⚠️ Please set your monthly budget first.", df)
  | first :: _ =>
      let options := FlatPages.unique (map f_category budget_df) in
      let cat := nth choice options (f_category first) in
      let saved :=
        if clicked then
          (df ++ [{| f_type := "actual"; f_category := cat; f_amount := amt |}])%list
        else df in
      (Table (display_budget_vs_actual fsum budget_df actual_df), saved)
  end.

(** [years] and [num_children] are integers (the form's [min_value] is an
    [int]); the products convert them to float, [years] first.  No other
    step of the expression can raise. *)
Definition dime_calculator (debt income : float) (years : Z) (mortgage edu_cost : float)
    (num_children : Z) : Py.result float :=
  y <- of_int years ;;
  n <- of_int num_children ;;
  Py.Return (debt + (income * y) + mortgage + (edu_cost * n)).

End Binary64.

(** ** Vocabulary of the statements *)

(** The amounts of the rows that the classification sends to [bucket],
    summed: what the report's loop is meant to accumulate under that key. *)
Definition bucket_sum {R : Type} `{Row R} (bucket : string) (actuals : list R) : Q :=
  Py.sum (map amount
              (filter (fun row => String.eqb (classify (category row)) bucket) actuals)).

(** The ten categories the classification names. *)
Definition known_categories : list string :=
  ["Housing"; "Utilities"; "Groceries"; "Transportation"; "Healthcare";
   "Insurance"; "Debt Payments"; "Entertainment"; "Savings"; "Education"].

(** The store's integrity constraints: [UNIQUE(user_id, month, category)] on
    [budgets] and the primary key [id] on [expenses]. *)
Definition unique_budget_keys (d : Database.db) : Prop :=
  NoDup (map Database.budget_key (Database.budgets d)).

Definition unique_expense_ids (d : Database.db) : Prop :=
  NoDup (map Database.e_id (Database.expenses d)).

(** The budget entries stored under a key, and whether an expense id is in
    the store. *)
Definition entries_for (k : Z * string * string) (d : Database.db)
  : list Database.budget_row :=
  filter (Database.conflicts k) (Database.budgets d).

Definition present (expense_id : Z) (d : Database.db) : bool :=
  existsb (fun r => (Database.e_id r =? expense_id)%Z) (Database.expenses d).

(** An operation by expense id surfaces a missing id when what it returns for
    an id that is not in the store differs from what it returns for one that
    is. *)
Definition not_found_surfaced (op : Z -> Database.db -> Py.result unit * Database.db)
  : Prop :=
  forall id d id' d',
    present id d = false -> present id' d' = true ->
    fst (op id d) <> fst (op id' d').

(** The states the application can bring the store to. *)
Inductive reachable : Database.db -> Prop :=
| reach_init : reachable Database.init_db
| reach_save_budget d u m c a :
    reachable d -> reachable (snd (Database.save_budget u m c a d))
| reach_add_expense d u m c a now :
    reachable d -> reachable (snd (Database.add_expense u m c a now d))
| reach_update_expense d id a :
    reachable d -> reachable (snd (Database.update_expense id a d))
| reach_delete_expense d id :
    reachable d -> reachable (snd (Database.delete_expense id d)).

(** Insert-or-update on a table: the rows that [hit] are updated in place;
    when none does, [new] is appended. *)
Definition upsert {X : Type} (hit : X -> bool) (upd : X -> X) (new : X)
    (rows : list X) : list X :=
  if existsb hit rows then map (fun r => if hit r then upd r else r) rows
  else rows ++ [new].

(** The flat-file page, for one submitted category, is the same
    insert-or-update on the rows of type budget with that category. *)
Definition flat_hit (cat : string) (r : FlatFile.flat_row) : bool :=
  String.eqb (FlatFile.f_category r) cat && String.eqb (FlatFile.f_type r) "budget".

Definition flat_upd (amt : Q) (r : FlatFile.flat_row) : FlatFile.flat_row :=
  {| FlatFile.f_type := FlatFile.f_type r;
     FlatFile.f_category := FlatFile.f_category r;
     FlatFile.f_amount := amt |}.

Definition flat_new (cat : string) (amt : Q) : FlatFile.flat_row :=
  {| FlatFile.f_type := "budget"; FlatFile.f_category := cat;
     FlatFile.f_amount := amt |}.

(** The budget rows of a flat-file table for one category. *)
Definition flat_entries_for (cat : string) (df : list FlatFile.flat_row)
  : list FlatFile.flat_row :=
  filter (fun r => String.eqb (FlatFile.f_category r) cat) (FlatFile.of_type "budget" df).

(** The expense rows of one user and month as [get_expenses] selects them,
    in table order, and the order it returns them in: no row is followed by
    one with a later timestamp. *)
Definition in_scope (user_id : Z) (month : string) (r : Database.expense_row) : bool :=
  (Database.e_user_id r =? user_id)%Z && String.eqb (Database.e_month r) month.

Definition view_of (r : Database.expense_row) : Database.expense_view :=
  {| Database.ev_id := Database.e_id r;
     Database.ev_category := Database.e_category r;
     Database.ev_amount := Database.e_amount r;
     Database.ev_timestamp := Database.e_timestamp r |}.

Definition scope_expenses (user_id : Z) (month : string) (d : Database.db)
  : list Database.expense_view :=
  map view_of (filter (in_scope user_id month) (Database.expenses d)).

Definition newest_first (l : list Database.expense_view) : Prop :=
  StronglySorted
    (fun a b => String.ltb (Database.ev_timestamp a) (Database.ev_timestamp b) = false)
    l.

Definition set_ev_amount (v : Database.expense_view) (a : Q) : Database.expense_view :=
  {| Database.ev_id := Database.ev_id v;
     Database.ev_category := Database.ev_category v;
     Database.ev_amount := a;
     Database.ev_timestamp := Database.ev_timestamp v |}.

(** The account tables that sign-ups can produce. *)
Inductive users_reachable : Users.table -> Prop :=
| users_init : users_reachable Users.init
| users_create t email hashed :
    users_reachable t -> users_reachable (snd (Users.create_user email hashed t)).

(** The states the pages of the SQLite-backed application can bring the store
    to.  The multiselect of "Set Budget" yields some of its ten options; the
    number inputs of the edit page have no lower bound. *)
Inductive app_reachable : Database.db -> Prop :=
| app_init : app_reachable Database.init_db
| app_set_budget d u m inputs :
    app_reachable d ->
    Forall (fun input => In (fst input) known_categories) inputs ->
    app_reachable (App.set_budget_page u m inputs d)
| app_add_expense d u m choice amt clicked now :
    app_reachable d ->
    app_reachable (snd (App.add_expense_page u m choice amt clicked now d))
| app_update_expense d id a :
    app_reachable d -> app_reachable (snd (Database.update_expense id a d))
| app_delete_expense d id :
    app_reachable d -> app_reachable (snd (Database.delete_expense id d)).

(** An expense is covered when a budget row of its user and month has its
    category. *)
Definition covered (d : Database.db) (e : Database.expense_row) : Prop :=
  exists b, In b (Database.budgets d) /\
            Database.b_user_id b = Database.e_user_id e /\
            Database.b_month b = Database.e_month e /\
            Database.b_category b = Database.e_category e.

(** Whether a character occurs in a string. *)
Fixpoint has_char (c : ascii) (s : string) : bool :=
  match s with
  | EmptyString => false
  | String ch rest => Ascii.eqb ch c || has_char c rest
  end.

(** *** Vocabulary of the binary64 statements *)

(** The rows that the classification sends to [bucket], in row order, and
    their amounts added the way the loop adds them: starting from 0, one row
    after the other, each sum rounded to binary64. *)
Definition bucket_rows {R : Type} `{Binary64.Row R} (bucket : string) (actuals : list R)
  : list R :=
  filter (fun row => String.eqb (classify (Binary64.category row)) bucket) actuals.

Definition bucket_actual {R : Type} `{Binary64.Row R} (bucket : string)
    (actuals : list R) : float :=
  Binary64.sum_left (map Binary64.amount (bucket_rows bucket actuals)).

(** The amounts of the expense rows of one category. *)
Definition spent_on (cat : string) (actual_df : list Binary64.flat_row) : list float :=
  map Binary64.f_amount
      (filter (fun r => String.eqb (Binary64.f_category r) cat) actual_df).

(** Neither infinite nor NaN. *)
Definition finite (x : float) : bool := PrimFloat.ltb (PrimFloat.abs x) infinity.

(** The rational number a finite float stands for. *)
Definition exact (x : float) : Q :=
  match Prim2SF x with
  | S754_finite s m e =>
      (if s then -1 else 1) * inject_Z (Z.pos m) * Qpower 2 e
  | _ => 0
  end.

(** The float a decimal numeral denotes: the nearest one, which the correctly
    rounded quotient of numerator and denominator gives when both are below
    2^53. *)
Definition decimal (q : Q) : float :=
  PrimFloat.div (Binary64.nearest (Qnum q)) (Binary64.nearest (Z.pos (Qden q))).

(** Auxiliary, for the proofs about rounding: what [binary_round_aux] makes
    of a positive mantissa [m] between 2^52 and 2^53 at exponent [e]. *)
Definition settle (m e : Z) : spec_float :=
  if (m =? 9007199254740992)%Z then
    if (e + 1 <=? 971)%Z then S754_finite false 4503599627370496 (e + 1)%Z
    else S754_infinity false
  else
    match m with
    | Z.pos p => if (e <=? 971)%Z then S754_finite false p e else S754_infinity false
    | _ => S754_nan
    end.

(** ** Sample data *)

Module Sample.

Import Database.

(** One month of a user who budgeted 1000 in all and spent exactly 0.9 of
    the Needs limit, exactly the Wants limit, and more than the Savings
    limit. *)
Definition budget : list budget_view :=
  [ {| bv_category := "Housing"; bv_amount := 600 |};
    {| bv_category := "Entertainment"; bv_amount := 400 |} ].

Definition actuals : list expense_view :=
  [ {| ev_id := 4; ev_category := "Education"; ev_amount := 200.01;
       ev_timestamp := "2024-05-09T08:00:00" |};
    {| ev_id := 3; ev_category := "Pets"; ev_amount := 100;
       ev_timestamp := "2024-05-07T19:30:00" |};
    {| ev_id := 2; ev_category := "Entertainment"; ev_amount := 200;
       ev_timestamp := "2024-05-03T21:15:00" |};
    {| ev_id := 1; ev_category := "Housing"; ev_amount := 450;
       ev_timestamp := "2024-05-01T09:00:00" |} ].

Definition needs_row : Report.analysis_row :=
  {| Report.Category := "Needs"; Report.Limit := 500.00; Report.Actual := 450;
     Report.Status := "🟢 Under Budget" |}.

Definition wants_row : Report.analysis_row :=
  {| Report.Category := "Wants"; Report.Limit := 300.00; Report.Actual := 300;
     Report.Status := "🟡 At Limit" |}.

Definition savings_row : Report.analysis_row :=
  {| Report.Category := "Savings"; Report.Limit := 200.00; Report.Actual := 200.01;
     Report.Status := "🔴 Over Budget" |}.

(** The same month in the flat-file table. *)
Definition df : list FlatFile.flat_row :=
  [ {| FlatFile.f_type := "budget"; FlatFile.f_category := "Housing";
       FlatFile.f_amount := 600 |};
    {| FlatFile.f_type := "budget"; FlatFile.f_category := "Entertainment";
       FlatFile.f_amount := 400 |};
    {| FlatFile.f_type := "actual"; FlatFile.f_category := "Housing";
       FlatFile.f_amount := 450 |};
    {| FlatFile.f_type := "actual"; FlatFile.f_category := "Entertainment";
       FlatFile.f_amount := 200 |};
    {| FlatFile.f_type := "actual"; FlatFile.f_category := "Housing";
       FlatFile.f_amount := 151 |} ].

(** A store with one budget entry and two expenses. *)
Definition store : db :=
  snd (add_expense 1 "2024-05" "Housing" 60 "2024-05-03T21:15:00"
    (snd (add_expense 1 "2024-05" "Housing" 450 "2024-05-01T09:00:00"
      (snd (save_budget 1 "2024-05" "Housing" 600 init_db))))).

(** The account table after one sign-up, with a stand-in for [bcrypt] that
    keeps the password as its own hash. *)
Definition plain_hashpw (password salt : string) : string := password.

Definition plain_checkpw (password hashed : string) : bool := String.eqb password hashed.

Definition accounts : Users.table :=
  snd (Users.signup plain_hashpw "salt" "ann@example.com" "s3cret" Users.init).

(** A store filled through the pages: a budget for Housing (the zero entered
    for Savings is not saved), then one expense. *)
Definition app_store : db :=
  snd (App.add_expense_page 1 "2024-05" 0 450 true "2024-05-01T09:00:00"
         (App.set_budget_page 1 "2024-05" [("Housing", 600); ("Savings", 0)] init_db)).

(** A data directory with one user folder. *)
Definition listdir (folder : string) : option (list string) :=
  if String.eqb folder "data/ann_at_example_dot_com"
  then Some ["2024-04.csv"; "2024-05.csv"; "notes.txt"]
  else None.

End Sample.

Module Sample64.

Import Binary64.
Local Open Scope float_scope.

(** The month of [Sample], with float amounts. *)
Definition budget : list entry :=
  [ {| e_category := "Housing"; e_amount := 600 |};
    {| e_category := "Entertainment"; e_amount := 400 |} ].

Definition actuals : list entry :=
  [ {| e_category := "Education"; e_amount := 200.01 |};
    {| e_category := "Pets"; e_amount := 100 |};
    {| e_category := "Entertainment"; e_amount := 200 |};
    {| e_category := "Housing"; e_amount := 450 |} ].

Definition analysis : list analysis_row :=
  [ {| Category := "Needs"; Limit := 500; Actual := 450;
       Status := "🟢 Under Budget" |};
    {| Category := "Wants"; Limit := 300; Actual := 300;
       Status := "🟡 At Limit" |};
    {| Category := "Savings"; Limit := 200; Actual := 200.01;
       Status := "🔴 Over Budget" |} ].

Definition df : list flat_row :=
  [ {| f_type := "budget"; f_category := "Housing"; f_amount := 600 |};
    {| f_type := "budget"; f_category := "Entertainment"; f_amount := 400 |};
    {| f_type := "actual"; f_category := "Housing"; f_amount := 450 |};
    {| f_type := "actual"; f_category := "Entertainment"; f_amount := 200 |};
    {| f_type := "actual"; f_category := "Housing"; f_amount := 151 |} ].

Definition comparison : list comp_row :=
  [ {| c_Category := "Housing"; c_Budgeted := 600; c_Actual := 601;
       c_Status := "❌ Over Budget" |};
    {| c_Category := "Entertainment"; c_Budgeted := 400; c_Actual := 200;
       c_Status := "✅ OK" |} ].

(** One budget row and the expenses of one month, as the pages store them
    when the amounts are typed in as decimals. *)
Definition one_budget (cat : string) (amt : Q) : list entry :=
  [ {| e_category := cat; e_amount := decimal amt |} ].

Definition expenses (rows : list (string * Q)) : list entry :=
  map (fun '(cat, amt) => {| e_category := cat; e_amount := decimal amt |}) rows.

Definition flat_budget (cat : string) (amt : Q) : flat_row :=
  {| f_type := "budget"; f_category := cat; f_amount := decimal amt |}.

Definition flat_actual (cat : string) (amt : Q) : flat_row :=
  {| f_type := "actual"; f_category := cat; f_amount := decimal amt |}.

End Sample64.

(** * Properties *)

(** ** Numbers *)

Section Numbers.

Lemma Qeq_bool_false (a b : Q) : Qeq_bool a b = false <-> ~ a == b.
Proof.
  split.
  - apply Qeq_bool_neq.
  - intros Hne. destruct (Qeq_bool a b) eqn:E; [|reflexivity].
    apply Qeq_bool_iff in E. contradiction.
Qed.

Lemma Qle_bool_false (a b : Q) : Qle_bool a b = false <-> b < a.
Proof.
  split.
  - intros E. apply Qnot_le_lt. intros Hle.
    apply Qle_bool_iff in Hle. congruence.
  - intros Hlt. destruct (Qle_bool a b) eqn:E; [|reflexivity].
    apply Qle_bool_iff in E. lra.
Qed.

Lemma gt_true (a b : Q) : Py.gt a b = true <-> b < a.
Proof.
  unfold Py.gt. rewrite negb_true_iff. apply Qle_bool_false.
Qed.

Lemma gt_false (a b : Q) : Py.gt a b = false <-> a <= b.
Proof.
  unfold Py.gt. rewrite negb_false_iff. apply Qle_bool_iff.
Qed.

Lemma fold_Qplus_acc (xs : list Q) (acc : Q) :
  fold_left Qplus xs acc == acc + fold_left Qplus xs 0.
Proof.
  revert acc. induction xs as [|x xs IH]; intros acc; simpl.
  - lra.
  - rewrite (IH (acc + x)), (IH (0 + x)). lra.
Qed.

Lemma sum_nil : Py.sum [] == 0.
Proof. reflexivity. Qed.

Lemma sum_cons (x : Q) (xs : list Q) : Py.sum (x :: xs) == x + Py.sum xs.
Proof.
  unfold Py.sum. simpl. rewrite fold_Qplus_acc. lra.
Qed.

End Numbers.

(** ** Classification *)

Section Classify.

Lemma classify_cases (c : string) :
  classify c = "Needs" \/ classify c = "Wants" \/ classify c = "Savings".
Proof.
  unfold classify.
  destruct (Py.mem c needs); [now left|].
  destruct (Py.mem c wants); [now (right; left)|].
  destruct (Py.mem c savings); [now (right; right)|now (right; left)].
Qed.

Lemma mem_In (x : string) (xs : list string) : Py.mem x xs = true <-> In x xs.
Proof.
  unfold Py.mem. rewrite existsb_exists. split.
  - intros (y & Hy & E). apply String.eqb_eq in E. now subst.
  - intros H. exists x. split; [exact H|apply String.eqb_refl].
Qed.

Lemma mem_not_In (x : string) (xs : list string) : Py.mem x xs = false <-> ~ In x xs.
Proof.
  rewrite <- mem_In. destruct (Py.mem x xs); intuition congruence.
Qed.

End Classify.

(** C2.  [classify] sends Housing, Utilities, Groceries, Transportation,
    Healthcare, Insurance and Debt Payments to Needs, Entertainment to Wants,
    Savings and Education to Savings, and every string that is none of these
    ten (compared exactly, case included) to Wants; it is defined on every
    string and always answers one of the three buckets. *)
Theorem classify_table (c : string) :
  (In c ["Housing"; "Utilities"; "Groceries"; "Transportation"; "Healthcare";
         "Insurance"; "Debt Payments"] -> classify c = "Needs") /\
  (c = "Entertainment" -> classify c = "Wants") /\
  (In c ["Savings"; "Education"] -> classify c = "Savings") /\
  (~ In c known_categories -> classify c = "Wants") /\
  (classify c = "Needs" \/ classify c = "Wants" \/ classify c = "Savings").
Proof.
  split; [|split; [|split; [|split]]].
  - intros H. simpl in H.
    repeat (destruct H as [<- | H]; [reflexivity|]). contradiction.
  - intros ->. reflexivity.
  - intros H. simpl in H.
    repeat (destruct H as [<- | H]; [reflexivity|]). contradiction.
  - intros H. unfold classify.
    assert (Hn : Py.mem c needs = false).
    { apply mem_not_In. intros Hin. apply H.
      unfold known_categories, needs in *. simpl in *. tauto. }
    assert (Hw : Py.mem c wants = false).
    { apply mem_not_In. intros Hin. apply H.
      unfold known_categories, wants in *. simpl in *. tauto. }
    assert (Hs : Py.mem c savings = false).
    { apply mem_not_In. intros Hin. apply H.
      unfold known_categories, savings in *. simpl in *. tauto. }
    now rewrite Hn, Hw, Hs.
  - apply classify_cases.
Qed.

Lemma classify_table_witness :
  classify "Housing" = "Needs" /\
  classify "Entertainment" = "Wants" /\
  classify "Education" = "Savings" /\
  classify "housing" = "Wants".
Proof.
  split; [|split; [|split]].
  - apply (proj1 (classify_table "Housing")). simpl. tauto.
  - apply (proj1 (proj2 (classify_table "Entertainment"))). reflexivity.
  - apply (proj1 (proj2 (proj2 (classify_table "Education")))). simpl. tauto.
  - apply (proj1 (proj2 (proj2 (proj2 (classify_table "housing"))))).
    unfold known_categories. simpl.
    intros H. repeat (destruct H as [H | H]; [discriminate H|]). exact H.
Defined.

(** ** The 50/30/20 report in exact arithmetic *)

Section Allocation.

Import Report.

Lemma get_Needs (n w s : Q) :
  Dict.get [("Needs", n); ("Wants", w); ("Savings", s)] "Needs" = Py.Return n.
Proof. reflexivity. Qed.

Lemma get_Wants (n w s : Q) :
  Dict.get [("Needs", n); ("Wants", w); ("Savings", s)] "Wants" = Py.Return w.
Proof. reflexivity. Qed.

Lemma get_Savings (n w s : Q) :
  Dict.get [("Needs", n); ("Wants", w); ("Savings", s)] "Savings" = Py.Return s.
Proof. reflexivity. Qed.

Lemma iadd_Needs (n w s v : Q) :
  Dict.iadd [("Needs", n); ("Wants", w); ("Savings", s)] "Needs" v
  = Py.Return [("Needs", n + v); ("Wants", w); ("Savings", s)].
Proof. reflexivity. Qed.

Lemma iadd_Wants (n w s v : Q) :
  Dict.iadd [("Needs", n); ("Wants", w); ("Savings", s)] "Wants" v
  = Py.Return [("Needs", n); ("Wants", w + v); ("Savings", s)].
Proof. reflexivity. Qed.

Lemma iadd_Savings (n w s v : Q) :
  Dict.iadd [("Needs", n); ("Wants", w); ("Savings", s)] "Savings" v
  = Py.Return [("Needs", n); ("Wants", w); ("Savings", s + v)].
Proof. reflexivity. Qed.

Lemma limit_nonzero (T f : Q) :
  Qeq_bool T 0 = false -> ~ f == 0 -> Qeq_bool (T * f) 0 = false.
Proof.
  intros HT Hf. apply Qeq_bool_false in HT. apply Qeq_bool_false.
  intros E. apply Qmult_integral in E. tauto.
Qed.

Lemma statuses_three (n w s T : Q) :
  Qeq_bool T 0 = false ->
  statuses [("Needs", n); ("Wants", w); ("Savings", s)] (limits_of T)
  = Py.Return [status_of (n / (T * 0.50)); status_of (w / (T * 0.30));
               status_of (s / (T * 0.20))].
Proof.
  intros HT. unfold statuses, limits_of.
  cbn [Dict.keys map fst Py.map_each].
  rewrite !get_Needs, !get_Wants, !get_Savings.
  cbn [Py.bind]. unfold Py.div.
  rewrite !(limit_nonzero T) by (exact HT || (intros E; discriminate E)).
  reflexivity.
Qed.

Context {R : Type} `{Row R}.

Lemma bucket_sum_nil (b : string) : bucket_sum b (@nil R) == 0.
Proof. reflexivity. Qed.

Lemma bucket_sum_cons_in (b : string) (r : R) (rs : list R) :
  classify (category r) = b ->
  bucket_sum b (r :: rs) == amount r + bucket_sum b rs.
Proof.
  intros E. unfold bucket_sum. cbn [filter].
  rewrite E, String.eqb_refl. cbn [map]. apply sum_cons.
Qed.

Lemma bucket_sum_cons_out (b : string) (r : R) (rs : list R) :
  classify (category r) <> b ->
  bucket_sum b (r :: rs) == bucket_sum b rs.
Proof.
  intros E. unfold bucket_sum. cbn [filter].
  apply String.eqb_neq in E. rewrite E. reflexivity.
Qed.

Ltac bucket_step E :=
  repeat first
    [ rewrite bucket_sum_cons_in by exact E
    | rewrite bucket_sum_cons_out by (rewrite E; discriminate) ].

Lemma categorize_from (actuals : list R) (n w s : Q) :
  exists n' w' s',
    Py.for_each
      (fun categorized row =>
         Dict.iadd categorized (classify (category row)) (amount row))
      actuals [("Needs", n); ("Wants", w); ("Savings", s)]
    = Py.Return [("Needs", n'); ("Wants", w'); ("Savings", s')] /\
    n' == n + bucket_sum "Needs" actuals /\
    w' == w + bucket_sum "Wants" actuals /\
    s' == s + bucket_sum "Savings" actuals.
Proof.
  revert n w s. induction actuals as [|r rs IH]; intros n w s.
  - exists n, w, s. cbn [Py.for_each].
    rewrite (bucket_sum_nil "Needs"), (bucket_sum_nil "Wants"),
      (bucket_sum_nil "Savings").
    split; [reflexivity|]. repeat split; lra.
  - cbn [Py.for_each].
    destruct (classify_cases (category r)) as [E | [E | E]].
    + rewrite E, iadd_Needs. cbn [Py.bind].
      destruct (IH (n + amount r) w s) as (n' & w' & s' & Hrun & Hn & Hw & Hs).
      exists n', w', s'. split; [exact Hrun|].
      bucket_step E. repeat split; lra.
    + rewrite E, iadd_Wants. cbn [Py.bind].
      destruct (IH n (w + amount r) s) as (n' & w' & s' & Hrun & Hn & Hw & Hs).
      exists n', w', s'. split; [exact Hrun|].
      bucket_step E. repeat split; lra.
    + rewrite E, iadd_Savings. cbn [Py.bind].
      destruct (IH n w (s + amount r)) as (n' & w' & s' & Hrun & Hn & Hw & Hs).
      exists n', w', s'. split; [exact Hrun|].
      bucket_step E. repeat split; lra.
Qed.

Lemma categorize_spec (actuals : list R) :
  exists n w s,
    categorize actuals = Py.Return [("Needs", n); ("Wants", w); ("Savings", s)] /\
    n == bucket_sum "Needs" actuals /\
    w == bucket_sum "Wants" actuals /\
    s == bucket_sum "Savings" actuals.
Proof.
  destruct (categorize_from actuals 0 0 0) as (n & w & s & Hrun & Hn & Hw & Hs).
  exists n, w, s. split; [exact Hrun|]. repeat split; lra.
Qed.

End Allocation.

Section ReportPage.

Import Report.

Context {A B : Type} `{Row A} `{Row B}.

(** The run of the page when a budget is set: no exception, and the table
    has the three rows below. *)
Lemma report_runs (actuals : list A) (budget : list B) :
  Qeq_bool (total_of budget) 0 = false ->
  exists n w s,
    categorize actuals = Py.Return [("Needs", n); ("Wants", w); ("Savings", s)] /\
    n == bucket_sum "Needs" actuals /\
    w == bucket_sum "Wants" actuals /\
    s == bucket_sum "Savings" actuals /\
    report actuals budget
    = Py.Return (Analysis
        [ {| Category := "Needs"; Limit := total_of budget * 0.50; Actual := n;
             Status := status_of (n / (total_of budget * 0.50)) |};
          {| Category := "Wants"; Limit := total_of budget * 0.30; Actual := w;
             Status := status_of (w / (total_of budget * 0.30)) |};
          {| Category := "Savings"; Limit := total_of budget * 0.20; Actual := s;
             Status := status_of (s / (total_of budget * 0.20)) |} ]).
Proof.
  intros HT.
  destruct (categorize_spec actuals) as (n & w & s & Hcat & Hn & Hw & Hs).
  exists n, w, s. repeat (split; [assumption|]).
  unfold report. rewrite HT, Hcat. cbn [Py.bind].
  rewrite (statuses_three n w s _ HT). reflexivity.
Qed.

Lemma report_stops (actuals : list A) (budget : list B) :
  Qeq_bool (total_of budget) 0 = true ->
  report actuals budget
  = Py.Return (Stopped "Please set your monthly budget to see analysis.").
Proof.
  intros HT. unfold report. now rewrite HT.
Qed.

End ReportPage.

Section Theorems.

Import Report.

Context {A B : Type} `{Row A} `{Row B}.

Lemma report_analysis_inv (actuals : list A) (budget : list B) (rows : list analysis_row) :
  report actuals budget = Py.Return (Analysis rows) ->
  Qeq_bool (total_of budget) 0 = false.
Proof.
  intros Hrep. destruct (Qeq_bool (total_of budget) 0) eqn:HT; [|reflexivity].
  rewrite (report_stops actuals budget HT) in Hrep. discriminate Hrep.
Qed.

Lemma flat_report_runs (df : list FlatFile.flat_row) :
  Qeq_bool (total_of (FlatFile.of_type "budget" df)) 0 = false ->
  exists n w s,
    n == bucket_sum "Needs" (FlatFile.of_type "actual" df) /\
    w == bucket_sum "Wants" (FlatFile.of_type "actual" df) /\
    s == bucket_sum "Savings" (FlatFile.of_type "actual" df) /\
    FlatFile.report df
    = Py.Return (FlatFile.Chart
                   [("Needs", n); ("Wants", w); ("Savings", s)]
                   (limits_of (total_of (FlatFile.of_type "budget" df)))).
Proof.
  intros HT.
  destruct (categorize_spec (FlatFile.of_type "actual" df))
    as (n & w & s & Hcat & Hn & Hw & Hs).
  exists n, w, s. repeat (split; [assumption|]).
  unfold FlatFile.report. now rewrite HT, Hcat.
Qed.

Lemma flat_report_stops (df : list FlatFile.flat_row) :
  Qeq_bool (total_of (FlatFile.of_type "budget" df)) 0 = true ->
  FlatFile.report df
  = Py.Return (FlatFile.Stopped "Please define a monthly budget to perform analysis.").
Proof.
  intros HT. unfold FlatFile.report. now rewrite HT.
Qed.

Lemma sum_three (a b c : Q) : Py.sum [a; b; c] == a + b + c.
Proof.
  rewrite !sum_cons, sum_nil. lra.
Qed.

(** C10.  The three limits of the report, 0.50, 0.30 and 0.20 of the total
    budget, add up to the total budget exactly, in the dictionary the report
    builds as well as in the Limit column of the table and in the target
    series of the flat-file chart. *)
Theorem limits_partition_total
    (T : Q) (actuals : list A) (budget : list B) (df : list FlatFile.flat_row) :
  limits_of T = [("Needs", T * 0.50); ("Wants", T * 0.30); ("Savings", T * 0.20)] /\
  Py.sum (Dict.values (limits_of T)) == T /\
  (forall rows,
     report actuals budget = Py.Return (Analysis rows) ->
     Py.sum (map Limit rows) == total_of budget) /\
  (forall actual target,
     FlatFile.report df = Py.Return (FlatFile.Chart actual target) ->
     Py.sum (Dict.values target) == total_of (FlatFile.of_type "budget" df)).
Proof.
  assert (Hsum : forall t, Py.sum (Dict.values (limits_of t)) == t).
  { intros t. unfold limits_of, Dict.values. cbn [map snd]. rewrite sum_three. lra. }
  split; [reflexivity|]. split; [apply Hsum|]. split.
  - intros rows Hrep.
    pose proof (report_analysis_inv _ _ _ Hrep) as HT.
    destruct (report_runs actuals budget HT) as (n & w & s & _ & _ & _ & _ & Hrun).
    rewrite Hrun in Hrep. injection Hrep as <-.
    cbn [map Limit]. rewrite sum_three. lra.
  - intros actual target Hrep.
    destruct (Qeq_bool (total_of (FlatFile.of_type "budget" df)) 0) eqn:HT.
    + rewrite (flat_report_stops df HT) in Hrep. discriminate Hrep.
    + destruct (flat_report_runs df HT) as (n & w & s & _ & _ & _ & Hrun).
      rewrite Hrun in Hrep. injection Hrep as <- <-. apply Hsum.
Qed.

End Theorems.

Lemma limits_partition_total_witness :
  Py.sum (map Report.Limit [Sample.needs_row; Sample.wants_row; Sample.savings_row])
  == Report.total_of Sample.budget /\
  Py.sum (Dict.values [("Needs", 500.00); ("Wants", 300.00); ("Savings", 200.00)])
  == Report.total_of (FlatFile.of_type "budget" Sample.df).
Proof.
  assert (Hrep : Report.report Sample.actuals Sample.budget
                 = Py.Return (Report.Analysis
                     [Sample.needs_row; Sample.wants_row; Sample.savings_row]))
    by (vm_compute; reflexivity).
  assert (Hflat : FlatFile.report Sample.df
                  = Py.Return (FlatFile.Chart
                      [("Needs", 601); ("Wants", 200); ("Savings", 0)]
                      [("Needs", 500.00); ("Wants", 300.00); ("Savings", 200.00)]))
    by (vm_compute; reflexivity).
  destruct (limits_partition_total 1000 Sample.actuals Sample.budget Sample.df)
    as (_ & _ & Htable & Hchart).
  split.
  - exact (Htable _ Hrep).
  - exact (Hchart _ _ Hflat).
Defined.

(** ** The report, the comparison and the estimate in binary64 *)

(** *** Order of floats, division by oneself *)

Section Floats.

Import Binary64.
Local Open Scope float_scope.

Lemma SFcompare_antisym (x y : spec_float) :
  SFcompare y x = option_map CompOpp (SFcompare x y).
Proof.
  destruct x as [sx|sx| |sx mx ex], y as [sy|sy| |sy my ey]; cbn;
    try reflexivity; try (destruct sx; reflexivity); try (destruct sy; reflexivity);
    try (destruct sx, sy; reflexivity).
  change (PosDef.Pos.compare_cont Eq) with Pos.compare.
  rewrite (Z.compare_antisym ex ey), (Pos.compare_antisym mx my).
  destruct sx, sy; try reflexivity;
    destruct (ex ?= ey)%Z; cbn; try reflexivity;
    destruct (mx ?= my)%positive; reflexivity.
Qed.

Lemma SFcompare_refl (x : spec_float) :
  x <> S754_nan -> SFcompare x x = Some Eq.
Proof.
  destruct x as [s|s| |s m e]; cbn; try congruence; intros _.
  - destruct s; reflexivity.
  - change (PosDef.Pos.compare_cont Eq) with Pos.compare.
    rewrite Z.compare_refl, Pos.compare_refl. destruct s; reflexivity.
Qed.

Lemma gt_not_le (a b : float) : gt a b = true -> le a b = false.
Proof.
  unfold gt, le. rewrite ltb_spec, leb_spec. unfold SFltb, SFleb.
  rewrite (SFcompare_antisym (Prim2SF a) (Prim2SF b)).
  destruct (SFcompare (Prim2SF a) (Prim2SF b)) as [[]|]; cbn; congruence.
Qed.

Lemma le_not_gt (a b : float) : le a b = true -> gt a b = false.
Proof.
  intros Hle. destruct (gt a b) eqn:E; [|reflexivity].
  apply gt_not_le in E. congruence.
Qed.

Lemma SFleb_trans (x y z : spec_float) :
  SFleb x y = true -> SFleb y z = true -> SFleb x z = true.
Proof.
  unfold SFleb.
  destruct x as [sx|sx| |sx mx ex], y as [sy|sy| |sy my ey], z as [sz|sz| |sz mz ez];
    cbn; try discriminate; try reflexivity;
    try (destruct sx; try discriminate; try reflexivity);
    try (destruct sy; try discriminate; try reflexivity);
    try (destruct sz; try discriminate; try reflexivity);
    try (intros; discriminate);
    change (PosDef.Pos.compare_cont Eq) with Pos.compare.
  all: destruct (Z.compare_spec ex ey), (Z.compare_spec ey ez), (Z.compare_spec ex ez);
    try discriminate; try reflexivity; try lia; subst;
    destruct (Pos.compare_spec mx my), (Pos.compare_spec my mz), (Pos.compare_spec mx mz);
    cbn; try discriminate; try reflexivity; try lia.
Qed.

Lemma le_trans (a b c : float) : le a b = true -> le b c = true -> le a c = true.
Proof.
  unfold le. rewrite !leb_spec. apply SFleb_trans.
Qed.

Lemma eq_zero (x : float) :
  eq x 0 = true <-> exists s, Prim2SF x = S754_zero s.
Proof.
  unfold eq. rewrite eqb_spec. change (Prim2SF 0) with (S754_zero false).
  unfold SFeqb. destruct (Prim2SF x) as [s|s| |s m e]; cbn.
  - split; eauto.
  - split; [destruct s; discriminate|intros [? ?]; discriminate].
  - split; [discriminate|intros [? ?]; discriminate].
  - split; [destruct s; discriminate|intros [? ?]; discriminate].
Qed.

Lemma finite_nonzero (x : float) :
  finite x = true -> eq x 0 = false ->
  exists s m e, Prim2SF x = S754_finite s m e.
Proof.
  intros Hf Hz. unfold finite in Hf. rewrite ltb_spec, abs_spec in Hf.
  change (Prim2SF infinity) with (S754_infinity false) in Hf.
  destruct (Prim2SF x) as [s|s| |s m e] eqn:E; cbn in Hf; try discriminate.
  - assert (eq x 0 = true) by (apply eq_zero; eauto). congruence.
  - eauto.
Qed.

Lemma div_eucl_shift (m : positive) :
  Z.div_eucl (Z.shiftl (Z.pos m) 53) (Z.pos m) = (2 ^ 53, 0)%Z.
Proof.
  rewrite Z.shiftl_mul_pow2 by lia.
  pose proof (Z.div_eucl_eq (Z.pos m * 2 ^ 53) (Z.pos m) ltac:(lia)) as H.
  destruct (Z.div_eucl (Z.pos m * 2 ^ 53) (Z.pos m)) as [q r] eqn:E.
  pose proof (Z.mod_pos_bound (Z.pos m * 2 ^ 53) (Z.pos m) ltac:(lia)) as Hb.
  unfold Z.modulo in Hb. rewrite E in Hb.
  assert (q = 2 ^ 53)%Z by nia. subst q. f_equal. lia.
Qed.

(** A finite non-zero float divided by itself is exactly 1. *)
Lemma div_self (x : float) :
  finite x = true -> eq x 0 = false -> x / x = 1.
Proof.
  intros Hf Hz. destruct (finite_nonzero x Hf Hz) as (s & m & e & Hx).
  rewrite <- (SF2Prim_Prim2SF (x / x)), div_spec, Hx.
  unfold SF64div, SFdiv, SFdiv_core_binary.
  replace (Zdigits2 (Z.pos m) + e - (Zdigits2 (Z.pos m) + e))%Z with 0%Z by lia.
  replace (e - e)%Z with 0%Z by lia.
  cbn -[Z.div_eucl Z.shiftl xorb].
  change (IntDef.Z.div_eucl (IntDef.Z.shiftl (Z.pos m) 53) (Z.pos m))
    with (Z.div_eucl (Z.shiftl (Z.pos m) 53) (Z.pos m)).
  rewrite div_eucl_shift.
  assert (Hloc : new_location (Z.pos m) 0 = loc_Exact).
  { unfold new_location, new_location_even, new_location_odd.
    destruct (Z.even (Z.pos m)); reflexivity. }
  rewrite Hloc. destruct s; reflexivity.
Qed.

Lemma nan_not_le (x c : float) : is_nan x = true -> le x c = false.
Proof.
  unfold is_nan, le. rewrite eqb_spec, leb_spec. unfold SFeqb, SFleb.
  destruct (Prim2SF x) as [s|s| |s m e] eqn:E; try reflexivity;
    rewrite SFcompare_refl by discriminate; discriminate.
Qed.

Lemma status_under64 (ratio : float) :
  le ratio 0.9 = true -> status_of ratio = "🟢 Under Budget".
Proof.
  intros Hle. unfold status_of. now rewrite Hle.
Qed.

Lemma status_at_limit64 (ratio : float) :
  gt ratio 0.9 = true -> le ratio 1.0 = true -> status_of ratio = "🟡 At Limit".
Proof.
  intros Hgt Hle. unfold status_of. now rewrite (gt_not_le _ _ Hgt), Hle.
Qed.

Lemma status_over64 (ratio : float) :
  gt ratio 1.0 = true -> status_of ratio = "🔴 Over Budget".
Proof.
  intros Hgt. unfold status_of.
  assert (H1 : le ratio 1.0 = false) by now apply gt_not_le.
  assert (H9 : le ratio 0.9 = false).
  { destruct (le ratio 0.9) eqn:E; [|reflexivity].
    assert (le ratio 1.0 = true) by (apply (le_trans _ _ _ E); reflexivity).
    congruence. }
  now rewrite H9, H1.
Qed.

Lemma status_nan (ratio : float) :
  is_nan ratio = true -> status_of ratio = "🔴 Over Budget".
Proof.
  intros Hn. unfold status_of. now rewrite !(nan_not_le _ _ Hn).
Qed.

End Floats.

(** *** Rounding of products and quotients

    Two facts about round-to-nearest that the status bands rest on, proved
    from the specification of the operations: nine tenths of a non-negative
    float do not exceed it, and a float divided by a smaller positive one
    exceeds 1. *)

Section Rounding.

Import Binary64.
Local Open Scope Z_scope.

Lemma digits2_pos_size (p : positive) : digits2_pos p = Pos.size p.
Proof.
  induction p as [p IH|p IH|]; cbn; [now rewrite IH..|reflexivity].
Qed.

Lemma Zdigits2_log2 (p : positive) : Zdigits2 (Z.pos p) = Z.log2 (Z.pos p) + 1.
Proof.
  cbn [Zdigits2]. destruct p as [p|p|]; cbn [digits2_pos Z.log2];
    rewrite ?digits2_pos_size; lia.
Qed.

Lemma fexp_eq (x : Z) : fexp prec emax x = Z.max (x - 53) (-1074).
Proof. reflexivity. Qed.

Lemma shr_1_m (mrs : shr_record) :
  0 <= shr_m mrs -> shr_m (shr_1 mrs) = shr_m mrs / 2.
Proof.
  destruct mrs as [m r s]. cbn [shr_m]. intros Hm.
  destruct m as [|[p|p|]|p]; cbn [shr_1 shr_m]; try reflexivity; try lia.
  - rewrite Pos2Z.inj_xI. Z.div_mod_to_equations. lia.
  - rewrite Pos2Z.inj_xO. Z.div_mod_to_equations. lia.
Qed.

Lemma pow2_xO (n : positive) : 2 ^ Z.pos n~0 = 2 ^ Z.pos n * 2 ^ Z.pos n.
Proof.
  rewrite <- Z.pow_add_r by lia. f_equal. lia.
Qed.

Lemma pow2_xI (n : positive) : 2 ^ Z.pos n~1 = 2 * (2 ^ Z.pos n * 2 ^ Z.pos n).
Proof.
  rewrite <- Z.pow_add_r, <- Z.pow_succ_r by lia. f_equal. lia.
Qed.

Lemma iter_shr_m (n : positive) (mrs : shr_record) :
  0 <= shr_m mrs ->
  shr_m (iter_pos shr_1 n mrs) = shr_m mrs / 2 ^ Z.pos n.
Proof.
  revert mrs. induction n as [n IH|n IH|]; intros mrs Hm; cbn [iter_pos].
  - assert (H1 : 0 <= shr_m (shr_1 mrs)).
    { rewrite shr_1_m by assumption. apply Z.div_pos; lia. }
    assert (H2 : 0 <= shr_m (iter_pos shr_1 n (shr_1 mrs))).
    { rewrite IH by assumption. apply Z.div_pos; lia. }
    rewrite IH, IH, shr_1_m by assumption.
    rewrite !Z.div_div by lia. f_equal. rewrite pow2_xI. lia.
  - assert (H2 : 0 <= shr_m (iter_pos shr_1 n mrs)).
    { rewrite IH by assumption. apply Z.div_pos; lia. }
    rewrite IH, IH by assumption.
    rewrite !Z.div_div by lia. f_equal. rewrite pow2_xO. lia.
  - rewrite shr_1_m by assumption. reflexivity.
Qed.

Lemma shr_nonpos (mrs : shr_record) (e n : Z) : n <= 0 -> shr mrs e n = (mrs, e).
Proof.
  intros Hn. unfold shr. destruct n; try reflexivity. lia.
Qed.

Lemma shr_pos (mrs : shr_record) (e n : Z) :
  0 < n -> 0 <= shr_m mrs ->
  exists mrs',
    shr mrs e n = (mrs', e + n) /\ shr_m mrs' = shr_m mrs / 2 ^ n.
Proof.
  intros Hn Hm. unfold shr. destruct n as [|p|p]; try lia.
  eexists. split; [reflexivity|]. now apply iter_shr_m.
Qed.

Lemma round_nearest_even_bounds (m : Z) (l : location) :
  m <= round_nearest_even m l <= m + 1.
Proof.
  unfold round_nearest_even. destruct l as [|[]]; try lia.
  destruct (IntDef.Z.even m); lia.
Qed.

Lemma Zdigits2_mono (a b : Z) : 0 <= a <= b -> Zdigits2 a <= Zdigits2 b.
Proof.
  intros [Ha Hab]. destruct a as [|a|a]; [|
    destruct b as [|b|b]; [lia| |lia]|lia].
  - destruct b; cbn; lia.
  - rewrite !Zdigits2_log2. pose proof (Z.log2_le_mono (Z.pos a) (Z.pos b) Hab). lia.
Qed.

Lemma bounded_spec (m : positive) (e : Z) :
  bounded prec emax m e = true ->
  Z.max (Zdigits2 (Z.pos m) + e - 53) (-1074) = e /\ e <= 971.
Proof.
  unfold bounded, canonical_mantissa. intros Hb.
  apply andb_prop in Hb as [Hc He].
  apply Z.eqb_eq in Hc. apply Z.leb_le in He. rewrite fexp_eq in Hc.
  split; [exact Hc|exact He].
Qed.

Lemma SFleb_finite_same_exp (p m : positive) (e : Z) :
  Z.pos p <= Z.pos m ->
  SFleb (S754_finite false p e) (S754_finite false m e) = true.
Proof.
  intros Hle. unfold SFleb. cbn [SFcompare]. rewrite Z.compare_refl.
  change (PosDef.Pos.compare_cont Eq p m) with (Pos.compare p m).
  destruct (Pos.compare_spec p m); try reflexivity. lia.
Qed.

Lemma SFleb_finite_lower_exp (p m : positive) (e e' : Z) :
  e' < e ->
  SFleb (S754_finite false p e') (S754_finite false m e) = true.
Proof.
  intros Hlt. unfold SFleb. cbn [SFcompare].
  destruct (Z.compare_spec e' e); try reflexivity; lia.
Qed.

Lemma round_mul09 (m : positive) (e : Z) :
  bounded prec emax m e = true ->
  SFleb (binary_round_aux prec emax false (Z.pos (8106479329266893 * m))
           (-53 + e) loc_Exact)
        (S754_finite false m e) = true.
Proof.
  intros Hb. apply bounded_spec in Hb as [Hc He].
  rewrite Zdigits2_log2 in Hc.
  pose proof (Z.log2_spec (Z.pos m) ltac:(lia)) as Hm.
  pose proof (Z.log2_nonneg (Z.pos m)) as Hlm.
  set (lm := Z.log2 (Z.pos m)) in *.
  set (M := Z.pos (8106479329266893 * m)).
  assert (HM : M = 8106479329266893 * Z.pos m) by reflexivity.
  assert (HM0 : 0 < M) by reflexivity.
  pose proof (Zdigits2_log2 (8106479329266893 * m)) as HdM. fold M in HdM.
  pose proof (Z.log2_spec M HM0) as HMs.
  assert (Hlo : 52 + lm <= Z.log2 M).
  { rewrite HM. 
    pose proof (Z.log2_mul_below 8106479329266893 (Z.pos m) ltac:(lia) ltac:(lia)) as H.
    change (Z.log2 8106479329266893) with 52 in H. exact H. }
  assert (Hhi : Z.log2 M <= 53 + lm).
  { rewrite HM.
    pose proof (Z.log2_mul_above 8106479329266893 (Z.pos m) ltac:(lia) ltac:(lia)) as H.
    change (Z.log2 8106479329266893) with 52 in H. fold lm in H. lia. }
  set (lM := Z.log2 M) in *.
  unfold binary_round_aux, shr_fexp. rewrite fexp_eq, HdM.
  set (n := Z.max (lM + 1 + (-53 + e) - 53) (-1074) - (-53 + e)).
  assert (Hn : n = 52 \/ n = 53) by lia.
  destruct (shr_pos (shr_record_of_loc M loc_Exact) (-53 + e) n)
    as (mrs' & Hshr & Hm'); [lia|cbn; lia|].
  rewrite Hshr. cbn [shr_record_of_loc shr_m] in Hm'.
  pose proof (round_nearest_even_bounds (shr_m mrs') (loc_of_shr_record mrs')) as Hr.
  set (m2 := round_nearest_even (shr_m mrs') (loc_of_shr_record mrs')) in *.
  rewrite fexp_eq.
  destruct Hn as [Hn|Hn].
  - (* the product has 105 bits: the result is one exponent below, unless
       rounding carries *)
    assert (Hlm52 : lm = 52) by lia.
    assert (HlM : lM = 104) by lia.
    rewrite HlM in HMs. rewrite Hlm52 in Hm.
    change (2 ^ 104) with 20282409603651670423947251286016 in HMs.
    change (2 ^ Z.succ 104) with 40564819207303340847894502572032 in HMs.
    change (2 ^ 52) with 4503599627370496 in Hm.
    assert (Hm1 : 4503599627370496 <= shr_m mrs' < 9007199254740992).
    { rewrite Hm', Hn. change (2 ^ 52) with 4503599627370496. split.
      - apply Z.div_le_lower_bound; lia.
      - apply Z.div_lt_upper_bound; lia. }
    assert (Hle : (e - 1 <=? emax - prec) = true)
      by (apply Z.leb_le; change (emax - prec) with 971; lia).
    assert (Hle' : (e <=? emax - prec) = true) by (apply Z.leb_le; exact He).
    destruct (Z.eq_dec m2 9007199254740992) as [E|E].
    + rewrite E. change (Zdigits2 9007199254740992) with 54.
      replace (Z.max (54 + (-53 + e + n) - 53) (-1074) - (-53 + e + n)) with 1 by lia.
      cbn [shr iter_pos shr_record_of_loc shr_1 shr_m].
      replace (-53 + e + n + 1) with e by lia.
      rewrite Hle'. apply SFleb_finite_same_exp. lia.
    + destruct m2 as [|p|p] eqn:E2; [lia| |lia].
      assert (Hd2 : Zdigits2 (Z.pos p) = 53).
      { rewrite Zdigits2_log2. rewrite (Z.log2_unique (Z.pos p) 52); [reflexivity|lia|].
        change (2 ^ 52) with 4503599627370496.
        change (2 ^ (52 + 1)) with 9007199254740992. lia. }
      rewrite Hd2, shr_nonpos by lia. cbn [shr_record_of_loc shr_m].
      replace (-53 + e + n) with (e - 1) by lia.
      rewrite Hle. apply SFleb_finite_lower_exp. lia.
  - (* the exponent of [B] *)
    assert (Hlt : shr_m mrs' < Z.pos m).
    { rewrite Hm', Hn. apply Z.div_lt_upper_bound; lia. }
    assert (H0 : 0 <= shr_m mrs').
    { rewrite Hm'. apply Z.div_pos; lia. }
    assert (Hd2 : Zdigits2 m2 <= lm + 1).
    { pose proof (Zdigits2_mono m2 (Z.pos m) ltac:(lia)) as Hmono.
      rewrite Zdigits2_log2 in Hmono. exact Hmono. }
    rewrite shr_nonpos by lia. cbn [shr_record_of_loc shr_m].
    destruct m2 as [|p|p] eqn:E; [reflexivity| |lia].
    replace (-53 + e + n) with e by lia.
    assert (Hle : (e <=? emax - prec) = true) by (apply Z.leb_le; exact He).
    rewrite Hle. apply SFleb_finite_same_exp. lia.
Qed.

Local Open Scope float_scope.

(** Nine tenths of a non-negative budget, rounded, is not above the budget. *)
Lemma mul09_le (B : float) : le 0 B = true -> le (0.9 * B) B = true.
Proof.
  unfold le. rewrite !leb_spec, mul_spec.
  change (Prim2SF 0) with (S754_zero false).
  change (Prim2SF 0.9) with (S754_finite false 8106479329266893 (-53)).
  pose proof (Prim2SF_valid B) as Hv.
  destruct (Prim2SF B) as [s|s| |s m e]; cbn [SF64mul SFmul xorb].
  - reflexivity.
  - destruct s; [discriminate|reflexivity].
  - discriminate.
  - destruct s; [discriminate|]. intros _. apply round_mul09. exact Hv.
Qed.

Local Open Scope Z_scope.

Lemma loc_of_shr_record_of_loc (m : Z) (l : location) :
  loc_of_shr_record (shr_record_of_loc m l) = l.
Proof.
  destruct l as [|[]]; reflexivity.
Qed.

Lemma Zdigits2_53 (q : Z) :
  4503599627370496 <= q < 9007199254740992 -> Zdigits2 q = 53.
Proof.
  intros Hq. destruct q as [|p|p]; try lia.
  rewrite Zdigits2_log2, (Z.log2_unique (Z.pos p) 52); [reflexivity|lia|].
  change (2 ^ 52) with 4503599627370496.
  change (2 ^ (52 + 1)) with 9007199254740992. lia.
Qed.

Lemma Zdigits2_54 (q : Z) :
  9007199254740992 <= q < 18014398509481984 -> Zdigits2 q = 54.
Proof.
  intros Hq. destruct q as [|p|p]; try lia.
  rewrite Zdigits2_log2, (Z.log2_unique (Z.pos p) 53); [reflexivity|lia|].
  change (2 ^ 53) with 9007199254740992.
  change (2 ^ (53 + 1)) with 18014398509481984. lia.
Qed.

Lemma settle_spec (m e : Z) :
  4503599627370496 <= m <= 9007199254740992 -> -1074 <= e ->
  (let '(mrs, e') := shr_fexp prec emax m e loc_Exact in
   match shr_m mrs with
   | 0 => S754_zero false
   | Z.pos p =>
       if e' <=? emax - prec then S754_finite false p e' else S754_infinity false
   | Z.neg _ => S754_nan
   end) = settle m e.
Proof.
  intros Hm He. unfold settle, shr_fexp. rewrite fexp_eq.
  change (emax - prec) with 971.
  destruct (Z.eqb_spec m 9007199254740992) as [E|E].
  - rewrite E. change (Zdigits2 9007199254740992) with 54.
    replace (Z.max (54 + e - 53) (-1074) - e) with 1 by lia.
    cbn [shr iter_pos shr_record_of_loc shr_1 shr_m]. reflexivity.
  - rewrite Zdigits2_53 by lia. rewrite shr_nonpos by lia.
    cbn [shr_record_of_loc shr_m]. destruct m; try lia. reflexivity.
Qed.

Lemma round_aux_53 (q e : Z) (l : location) :
  4503599627370496 <= q < 9007199254740992 -> -1074 <= e ->
  binary_round_aux prec emax false q e l = settle (round_nearest_even q l) e.
Proof.
  intros Hq He. unfold binary_round_aux.
  assert (Hshr : shr_fexp prec emax q e l = (shr_record_of_loc q l, e)).
  { unfold shr_fexp. rewrite fexp_eq, Zdigits2_53 by lia. apply shr_nonpos. lia. }
  rewrite Hshr, loc_of_shr_record_of_loc.
  assert (Hsm : shr_m (shr_record_of_loc q l) = q) by (destruct l as [|[]]; reflexivity).
  rewrite Hsm.
  pose proof (round_nearest_even_bounds q l) as Hr.
  apply settle_spec; lia.
Qed.

Lemma round_aux_54 (q e : Z) (l : location) :
  9007199254740992 <= q < 18014398509481984 -> -1075 <= e ->
  binary_round_aux prec emax false q e l
  = settle (round_nearest_even
              (shr_m (shr_1 (shr_record_of_loc q l)))
              (loc_of_shr_record (shr_1 (shr_record_of_loc q l))))
           (e + 1) /\
  shr_m (shr_1 (shr_record_of_loc q l)) = q / 2.
Proof.
  intros Hq He. set (mrs := shr_1 (shr_record_of_loc q l)).
  assert (Hsm : shr_m mrs = q / 2).
  { unfold mrs. rewrite shr_1_m; destruct l as [|[]]; cbn [shr_record_of_loc shr_m];
      try reflexivity; lia. }
  split; [|exact Hsm].
  unfold binary_round_aux.
  assert (Hshr : shr_fexp prec emax q e l = (mrs, e + 1)).
  { unfold shr_fexp. rewrite fexp_eq, Zdigits2_54 by lia.
    replace (Z.max (54 + e - 53) (-1074) - e) with 1 by lia. reflexivity. }
  rewrite Hshr.
  pose proof (round_nearest_even_bounds (shr_m mrs) (loc_of_shr_record mrs)) as Hr.
  apply settle_spec; [|lia].
  assert (Hq2 : 4503599627370496 <= q / 2 < 9007199254740992).
  { split; [apply Z.div_le_lower_bound; lia|apply Z.div_lt_upper_bound; lia]. }
  rewrite <- Hsm in Hq2. lia.
Qed.

(** [settle m e] is above 1 as soon as [e] is above -52, or [e] is -52 and
    [m] is above 2^52. *)
Lemma settle_gt_one (m e : Z) :
  4503599627370496 <= m <= 9007199254740992 ->
  -52 < e \/ (e = -52 /\ 4503599627370496 < m) ->
  SFltb (S754_finite false 4503599627370496 (-52)) (settle m e) = true.
Proof.
  intros Hm He. unfold settle.
  destruct (Z.eqb_spec m 9007199254740992) as [E|E].
  - destruct (e + 1 <=? 971); [|reflexivity].
    unfold SFltb. cbn [SFcompare].
    destruct (Z.compare_spec (-52) (e + 1)); try reflexivity; lia.
  - destruct m as [|p|p]; try lia.
    destruct (e <=? 971); [|reflexivity].
    unfold SFltb. cbn [SFcompare].
    change (PosDef.Pos.compare_cont Eq 4503599627370496 p)
      with (Z.compare 4503599627370496 (Z.pos p)).
    destruct (Z.compare_spec (-52) e); try reflexivity; try lia.
    destruct (Z.compare_spec 4503599627370496 (Z.pos p)); try reflexivity; lia.
Qed.

Lemma new_location_inexact (m r : Z) :
  0 < r -> exists c, new_location m r = loc_Inexact c.
Proof.
  intros Hr. unfold new_location.
  assert (E : (r =? 0) = false) by (apply Z.eqb_neq; lia).
  destruct (IntDef.Z.even m); unfold new_location_even, new_location_odd;
    rewrite E; eauto.
Qed.

Lemma new_location_gt (m r : Z) :
  0 < r -> m < 2 * r -> new_location m r = loc_Inexact Gt.
Proof.
  intros Hr Hm. unfold new_location.
  assert (E : (r =? 0) = false) by (apply Z.eqb_neq; lia).
  destruct (IntDef.Z.even m); unfold new_location_even, new_location_odd;
    rewrite E.
  - destruct (Z.compare_spec (2 * r) m); try reflexivity; lia.
  - destruct (Z.compare_spec (2 * r + 1) m); try reflexivity; lia.
Qed.

(** The quotient and remainder that [SFdiv_core_binary] hands to the
    rounding, when the dividend is not below the divisor in magnitude. *)
Lemma div_core_spec (m1 m2 : positive) (e1 e2 : Z) :
  let l1 := Z.log2 (Z.pos m1) in
  let l2 := Z.log2 (Z.pos m2) in
  0 <= l1 + e1 - l2 - e2 -> l1 <= 52 -> l2 <= 52 ->
  exists q r,
    SFdiv_core_binary prec emax (Z.pos m1) e1 (Z.pos m2) e2
    = (q, l1 + e1 - l2 - e2 - 53, new_location (Z.pos m2) r) /\
    Z.pos m1 * 2 ^ (53 - l1 + l2) = Z.pos m2 * q + r /\
    0 <= r < Z.pos m2.
Proof.
  intros l1 l2 Hx H1 H2.
  pose proof (Z.log2_nonneg (Z.pos m1)) as Hl1. fold l1 in Hl1.
  pose proof (Z.log2_nonneg (Z.pos m2)) as Hl2. fold l2 in Hl2.
  unfold SFdiv_core_binary. rewrite !Zdigits2_log2, fexp_eq. fold l1 l2.
  change IntDef.Z.min with Z.min.
  replace (Z.min (Z.max (l1 + 1 + e1 - (l2 + 1 + e2) - 53) (-1074)) (e1 - e2))
    with (l1 + e1 - l2 - e2 - 53) by lia.
  replace (e1 - e2 - (l1 + e1 - l2 - e2 - 53)) with (53 - l1 + l2) by lia.
  destruct (53 - l1 + l2) as [|sp|sp] eqn:Es; try lia.
  change (IntDef.Z.shiftl (Z.pos m1) (Z.pos sp)) with (Z.shiftl (Z.pos m1) (Z.pos sp)).
  rewrite Z.shiftl_mul_pow2 by lia.
  change IntDef.Z.div_eucl with Z.div_eucl.
  pose proof (Z.div_eucl_eq (Z.pos m1 * 2 ^ Z.pos sp) (Z.pos m2) ltac:(lia)) as Heq.
  pose proof (Z.mod_pos_bound (Z.pos m1 * 2 ^ Z.pos sp) (Z.pos m2) ltac:(lia)) as Hb.
  unfold Z.modulo in Hb.
  destruct (Z.div_eucl (Z.pos m1 * 2 ^ Z.pos sp) (Z.pos m2)) as [q r].
  exists q, r. split; [reflexivity|]. split; [exact Heq|exact Hb].
Qed.

Lemma round_div_gt (m1 m2 : positive) (e1 e2 : Z) :
  bounded prec emax m1 e1 = true -> bounded prec emax m2 e2 = true ->
  e2 < e1 \/ (e1 = e2 /\ Z.pos m2 < Z.pos m1) ->
  SFltb (S754_finite false 4503599627370496 (-52))
        (SFdiv prec emax (S754_finite false m1 e1) (S754_finite false m2 e2)) = true.
Proof.
  intros Hb1 Hb2 Hord.
  apply bounded_spec in Hb1 as [Hc1 He1]. apply bounded_spec in Hb2 as [Hc2 He2].
  rewrite Zdigits2_log2 in Hc1, Hc2.
  pose proof (Z.log2_spec (Z.pos m1) ltac:(lia)) as Hm1.
  pose proof (Z.log2_spec (Z.pos m2) ltac:(lia)) as Hm2.
  pose proof (Z.log2_nonneg (Z.pos m1)) as Hl1.
  pose proof (Z.log2_nonneg (Z.pos m2)) as Hl2.
  assert (Hmono : Z.pos m2 < Z.pos m1 -> Z.log2 (Z.pos m2) <= Z.log2 (Z.pos m1))
    by (intros; apply Z.log2_le_mono; lia).
  destruct (div_core_spec m1 m2 e1 e2) as (q & r & Hcore & Heq & Hr); [lia..|].
  cbn [SFdiv xorb]. rewrite Hcore. clear Hcore.
  set (l1 := Z.log2 (Z.pos m1)) in *. set (l2 := Z.log2 (Z.pos m2)) in *.
  rewrite Z.pow_succ_r in Hm1, Hm2 by lia.
  assert (Ha1 : 2 ^ l1 <= 4503599627370496)
    by (change 4503599627370496 with (2 ^ 52); apply Z.pow_le_mono_r; lia).
  assert (Ha2 : 2 ^ l2 <= 4503599627370496)
    by (change 4503599627370496 with (2 ^ 52); apply Z.pow_le_mono_r; lia).
  assert (Hab : 2 ^ l1 * 2 ^ (53 - l1 + l2) = 9007199254740992 * 2 ^ l2).
  { rewrite <- Z.pow_add_r by lia.
    replace (l1 + (53 - l1 + l2)) with (53 + l2) by lia.
    rewrite Z.pow_add_r by lia. reflexivity. }
  assert (Hb : 0 < 2 ^ (53 - l1 + l2)) by (apply Z.pow_pos_nonneg; lia).
  assert (Hb52 : 53 - l1 + l2 = 52 -> 2 ^ (53 - l1 + l2) = 4503599627370496)
    by (intros ->; reflexivity).
  assert (Hb53 : 53 - l1 + l2 = 53 -> 2 ^ (53 - l1 + l2) = 9007199254740992)
    by (intros ->; reflexivity).
  set (a1 := 2 ^ l1) in *. set (a2 := 2 ^ l2) in *.
  set (b := 2 ^ (53 - l1 + l2)) in *.
  assert (H1b : a1 * b <= Z.pos m1 * b) by (apply Z.mul_le_mono_nonneg_r; lia).
  assert (H2b : Z.pos m1 * b < 2 * a1 * b) by (apply Z.mul_lt_mono_pos_r; lia).
  assert (Hup : forall k, q <= k -> Z.pos m2 * q <= Z.pos m2 * k)
    by (intros; apply Z.mul_le_mono_nonneg_l; lia).
  assert (Hdn : forall k, k <= q -> Z.pos m2 * k <= Z.pos m2 * q)
    by (intros; apply Z.mul_le_mono_nonneg_l; lia).
  assert (Hq : 4503599627370496 <= q < 18014398509481984).
  { split.
    - destruct (Z.lt_ge_cases q 4503599627370496) as [Hlt|]; [|lia].
      pose proof (Hup 4503599627370495 ltac:(lia)). lia.
    - destruct (Z.lt_ge_cases q 18014398509481984) as [|Hge]; [lia|].
      pose proof (Hdn 18014398509481984 ltac:(lia)). lia. }
  pose proof (round_nearest_even_bounds q (new_location (Z.pos m2) r)) as Hrq.
  destruct (Z.lt_ge_cases q 9007199254740992) as [Hq53|Hq54].
  - rewrite round_aux_53 by lia. apply settle_gt_one; [lia|].
    destruct (Z.lt_ge_cases 1 (l1 + e1 - l2 - e2)) as [Hx2|Hx1]; [left; lia|].
    right.
    assert (Hx : l1 + e1 - l2 - e2 = 1).
    { destruct (Z.eq_dec (l1 + e1 - l2 - e2) 0) as [Hx0|]; [|lia].
      (* equal magnitudes: the quotient has 54 bits *)
      assert (Hs : 53 - l1 + l2 = 53) by lia.
      specialize (Hb53 Hs).
      pose proof (Hup 9007199254740991 ltac:(lia)). lia. }
    split; [lia|].
    destruct (Z.eq_dec q 4503599627370496) as [Hq0|]; [|lia].
    destruct Hord as [Hlt|[Heqe Hlt]].
    + assert (Hs : 53 - l1 + l2 = 53) by lia. specialize (Hb53 Hs).
      rewrite (new_location_gt (Z.pos m2) r) by lia.
      rewrite Hq0. vm_compute. reflexivity.
    + assert (Hs : 53 - l1 + l2 = 52) by lia. specialize (Hb52 Hs). lia.
  - destruct (round_aux_54 q (l1 + e1 - l2 - e2 - 53) (new_location (Z.pos m2) r))
      as [Hround Hhalf]; [lia|lia|].
    rewrite Hround.
    assert (Hq2 : 4503599627370496 <= q / 2 < 9007199254740992).
    { split; [apply Z.div_le_lower_bound; lia|apply Z.div_lt_upper_bound; lia]. }
    remember (round_nearest_even
                (shr_m (shr_1 (shr_record_of_loc q (new_location (Z.pos m2) r))))
                (loc_of_shr_record
                   (shr_1 (shr_record_of_loc q (new_location (Z.pos m2) r)))))
      as t eqn:Et.
    assert (Hr2 : q / 2 <= t <= q / 2 + 1).
    { rewrite Et, <- Hhalf. apply round_nearest_even_bounds. }
    apply settle_gt_one; [lia|].
    destruct (Z.lt_ge_cases 0 (l1 + e1 - l2 - e2)) as [Hx1|Hx0]; [left; lia|].
    right. split; [lia|].
    assert (Hs : 53 - l1 + l2 = 53) by lia. specialize (Hb53 Hs).
    assert (Hq1 : 9007199254740993 <= q).
    { destruct (Z.eq_dec q 9007199254740992) as [Hq0|]; [|lia]. lia. }
    destruct (Z.eq_dec q 9007199254740993) as [Hq0|Hq0].
    + destruct (new_location_inexact (Z.pos m2) r) as [c Hc]; [lia|].
      rewrite Et, Hc, Hq0. destruct c; vm_compute; reflexivity.
    + assert (4503599627370497 <= q / 2) by (apply Z.div_le_lower_bound; lia).
      lia.
Qed.



Local Open Scope float_scope.

(** Dividing by a smaller positive number gives more than 1, also after
    rounding. *)
Lemma div_gt_one (A L : float) :
  gt L 0 = true -> gt A L = true -> gt (A / L) 1 = true.
Proof.
  unfold gt. rewrite !ltb_spec, div_spec.
  change (Prim2SF 0) with (S754_zero false).
  change (Prim2SF 1) with (S754_finite false 4503599627370496 (-52)).
  pose proof (Prim2SF_valid A) as HvA. pose proof (Prim2SF_valid L) as HvL.
  destruct (Prim2SF L) as [s2|s2| |s2 m2 e2]; try discriminate.
  - destruct s2; [discriminate|]. intros _.
    destruct (Prim2SF A) as [s1|s1| |s1 m1 e1]; try discriminate;
      destruct s1; discriminate.
  - destruct s2; [discriminate|]. intros _.
    destruct (Prim2SF A) as [s1|s1| |s1 m1 e1]; try discriminate.
    + destruct s1; [discriminate|]. reflexivity.
    + destruct s1; [discriminate|]. intros Hlt.
      apply round_div_gt; [exact HvA|exact HvL|].
      unfold SFltb in Hlt. cbn [SFcompare] in Hlt.
      change (PosDef.Pos.compare_cont Eq m2 m1)
        with (Z.compare (Z.pos m2) (Z.pos m1)) in Hlt.
      destruct (Z.compare_spec e2 e1) as [E|E|E]; try discriminate.
      * right. split; [lia|].
        destruct (Z.compare_spec (Z.pos m2) (Z.pos m1)); try discriminate. lia.
      * left. lia.
Qed.

End Rounding.



(** *** The 50/30/20 report *)

Section Report64.

Import Binary64.
Local Open Scope float_scope.

Lemma mul_zero_l (x c : float) (s : bool) (m : positive) (e : Z) :
  Prim2SF c = S754_finite s m e -> eq x 0 = true -> eq (x * c) 0 = true.
Proof.
  intros Hc Hx. apply eq_zero in Hx as [sx Hx]. apply eq_zero.
  rewrite mul_spec, Hx, Hc. cbn. eauto.
Qed.

Lemma mul_zero_r (x c : float) (s : bool) (m : positive) (e : Z) :
  Prim2SF c = S754_finite s m e -> eq x 0 = true -> eq (c * x) 0 = true.
Proof.
  intros Hc Hx. apply eq_zero in Hx as [sx Hx]. apply eq_zero.
  rewrite mul_spec, Hx, Hc. cbn. eauto.
Qed.

Lemma limit_nonzero_total (T : float) :
  eq (T * 0.50) 0 = false -> eq T 0 = false.
Proof.
  intros HL. destruct (eq T 0) eqn:E; [|reflexivity].
  rewrite (mul_zero_l T 0.50 false 4503599627370496 (-53)) in HL;
    [discriminate|reflexivity|assumption].
Qed.

Section Rows.

Context {R : Type} `{Row R}.

Lemma categorize_from64 (actuals : list R) (n w s : float) :
  Py.for_each
    (fun categorized row =>
       Dict.iadd categorized (classify (category row)) (amount row))
    actuals [("Needs", n); ("Wants", w); ("Savings", s)]
  = Py.Return
      [("Needs", fold_left PrimFloat.add (map amount (bucket_rows "Needs" actuals)) n);
       ("Wants", fold_left PrimFloat.add (map amount (bucket_rows "Wants" actuals)) w);
       ("Savings",
        fold_left PrimFloat.add (map amount (bucket_rows "Savings" actuals)) s)].
Proof.
  revert n w s. induction actuals as [|r rest IH]; intros n w s; [reflexivity|].
  cbn [Py.for_each]. unfold bucket_rows. cbn [filter].
  destruct (classify_cases (category r)) as [E|[E|E]]; rewrite E; cbn;
    rewrite IH; reflexivity.
Qed.

Lemma categorize_spec64 (actuals : list R) :
  categorize actuals
  = Py.Return [("Needs", bucket_actual "Needs" actuals);
               ("Wants", bucket_actual "Wants" actuals);
               ("Savings", bucket_actual "Savings" actuals)].
Proof.
  unfold categorize. apply categorize_from64.
Qed.

Lemma bucket_rows_partition (actuals : list R) :
  Permutation actuals
    (bucket_rows "Needs" actuals ++ bucket_rows "Wants" actuals
     ++ bucket_rows "Savings" actuals).
Proof.
  induction actuals as [|r rest IH]; [constructor|].
  unfold bucket_rows in *. cbn [filter].
  destruct (classify_cases (category r)) as [E|[E|E]]; rewrite E; cbn.
  - now constructor.
  - now apply Permutation_cons_app.
  - rewrite app_assoc. apply Permutation_cons_app. now rewrite <- app_assoc.
Qed.

End Rows.

End Report64.

Section ReportPage64.

Import Binary64.
Local Open Scope float_scope.

Context {A B : Type} `{Row A} `{Row B}.
Variable fsum : list float -> float.

Lemma report_stops64 (actuals : list A) (budget : list B) :
  eq (fsum (map amount budget)) 0 = true ->
  report fsum actuals budget
  = Py.Return (Stopped "Please set your monthly budget to see analysis.").
Proof.
  intros HT. unfold report. now rewrite HT.
Qed.

Lemma report_runs64 (actuals : list A) (budget : list B) :
  let T := fsum (map amount budget) in
  eq (T * 0.50) 0 = false -> eq (T * 0.30) 0 = false -> eq (T * 0.20) 0 = false ->
  report fsum actuals budget
  = Py.Return (Analysis
      [ {| Category := "Needs"; Limit := T * 0.50;
           Actual := bucket_actual "Needs" actuals;
           Status := status_of (bucket_actual "Needs" actuals / (T * 0.50)) |};
        {| Category := "Wants"; Limit := T * 0.30;
           Actual := bucket_actual "Wants" actuals;
           Status := status_of (bucket_actual "Wants" actuals / (T * 0.30)) |};
        {| Category := "Savings"; Limit := T * 0.20;
           Actual := bucket_actual "Savings" actuals;
           Status := status_of (bucket_actual "Savings" actuals / (T * 0.20)) |} ]).
Proof.
  intros T HN HW HS. unfold report. fold T.
  rewrite (limit_nonzero_total T HN), categorize_spec64.
  unfold eq in HN, HW, HS.
  cbn. unfold div, eq. rewrite HN. cbn. rewrite HW. cbn. rewrite HS. reflexivity.
Qed.

Lemma report_raises (actuals : list A) (budget : list B) :
  let T := fsum (map amount budget) in
  eq T 0 = false ->
  eq (T * 0.50) 0 = true \/ eq (T * 0.30) 0 = true \/ eq (T * 0.20) 0 = true ->
  report fsum actuals budget = Py.Raise Py.ZeroDivisionError.
Proof.
  intros T HT Hz. unfold report. fold T. rewrite HT, categorize_spec64.
  unfold eq in Hz.
  cbn. unfold div, eq.
  destruct (PrimFloat.eqb (T * 0.50) 0) eqn:HN; [reflexivity|]. cbn.
  destruct (PrimFloat.eqb (T * 0.30) 0) eqn:HW; [reflexivity|]. cbn.
  destruct (PrimFloat.eqb (T * 0.20) 0) eqn:HS; [reflexivity|].
  destruct Hz as [Hz|[Hz|Hz]]; discriminate.
Qed.

Lemma report_analysis_inv64 (actuals : list A) (budget : list B)
    (rows : list analysis_row) :
  let T := fsum (map amount budget) in
  report fsum actuals budget = Py.Return (Analysis rows) ->
  eq (T * 0.50) 0 = false /\ eq (T * 0.30) 0 = false /\ eq (T * 0.20) 0 = false.
Proof.
  intros T Hrep.
  destruct (eq T 0) eqn:HT.
  { rewrite (report_stops64 actuals budget HT) in Hrep. discriminate. }
  destruct (eq (T * 0.50) 0) eqn:HN.
  { rewrite (report_raises actuals budget HT) in Hrep; [discriminate|]. fold T. auto. }
  destruct (eq (T * 0.30) 0) eqn:HW.
  { rewrite (report_raises actuals budget HT) in Hrep; [discriminate|]. fold T. auto. }
  destruct (eq (T * 0.20) 0) eqn:HS.
  { rewrite (report_raises actuals budget HT) in Hrep; [discriminate|]. fold T. auto. }
  auto.
Qed.

Lemma status_of_ratio_spec64 (a l : float) :
  let ratio := a / l in
  (le ratio 0.9 = true -> status_of ratio = "🟢 Under Budget") /\
  (gt ratio 0.9 = true -> le ratio 1.0 = true -> status_of ratio = "🟡 At Limit") /\
  (gt ratio 1.0 = true -> status_of ratio = "🔴 Over Budget") /\
  (is_nan ratio = true -> status_of ratio = "🔴 Over Budget") /\
  (a = l -> finite l = true -> eq l 0 = false -> status_of ratio = "🟡 At Limit") /\
  (gt l 0 = true -> gt a l = true -> status_of ratio = "🔴 Over Budget").
Proof.
  intros ratio. split; [apply status_under64|]. split; [apply status_at_limit64|].
  split; [apply status_over64|]. split; [apply status_nan|]. split.
  - intros -> Hf Hz. unfold ratio. rewrite (div_self l Hf Hz). reflexivity.
  - intros Hl Ha. apply status_over64. now apply div_gt_one.
Qed.

(** C1.  When none of the three limits is zero, the 50/30/20 page shows the
    table of Needs, Wants and Savings with the limits [T * 0.50],
    [T * 0.30] and [T * 0.20] and, as actuals, the amounts of each bucket
    added up in row order, every product and sum rounded to binary64.  With
    [ratio] the binary64 quotient of a row's actual by its limit,
    [ratio <= 0.9] gives Under Budget, [0.9 < ratio <= 1.0] At Limit and
    [ratio > 1.0] Over Budget; a ratio that is not a number gives Over
    Budget.  An actual equal to its finite limit gives At Limit, and an
    actual above a positive limit gives Over Budget. *)
Theorem allocation_status_binary64 (actuals : list A) (budget : list B) :
  let T := fsum (map amount budget) in
  eq (T * 0.50) 0 = false -> eq (T * 0.30) 0 = false -> eq (T * 0.20) 0 = false ->
  exists rows,
    report fsum actuals budget = Py.Return (Analysis rows) /\
    map Category rows = ["Needs"; "Wants"; "Savings"] /\
    map Limit rows = [T * 0.50; T * 0.30; T * 0.20] /\
    map Actual rows
    = [bucket_actual "Needs" actuals; bucket_actual "Wants" actuals;
       bucket_actual "Savings" actuals] /\
    Forall
      (fun r =>
         let ratio := Actual r / Limit r in
         (le ratio 0.9 = true -> Status r = "🟢 Under Budget") /\
         (gt ratio 0.9 = true -> le ratio 1.0 = true -> Status r = "🟡 At Limit") /\
         (gt ratio 1.0 = true -> Status r = "🔴 Over Budget") /\
         (is_nan ratio = true -> Status r = "🔴 Over Budget") /\
         (Actual r = Limit r -> finite (Limit r) = true ->
          Status r = "🟡 At Limit") /\
         (gt (Limit r) 0 = true -> gt (Actual r) (Limit r) = true ->
          Status r = "🔴 Over Budget"))
      rows.
Proof.
  intros T HN HW HS. eexists. split; [exact (report_runs64 actuals budget HN HW HS)|].
  fold T. repeat (split; [reflexivity|]).
  assert (Hrow : forall a l, eq l 0 = false ->
    let ratio := a / l in
    (le ratio 0.9 = true -> status_of ratio = "🟢 Under Budget") /\
    (gt ratio 0.9 = true -> le ratio 1.0 = true -> status_of ratio = "🟡 At Limit") /\
    (gt ratio 1.0 = true -> status_of ratio = "🔴 Over Budget") /\
    (is_nan ratio = true -> status_of ratio = "🔴 Over Budget") /\
    (a = l -> finite l = true -> status_of ratio = "🟡 At Limit") /\
    (gt l 0 = true -> gt a l = true -> status_of ratio = "🔴 Over Budget")).
  { intros a l Hl.
    destruct (status_of_ratio_spec64 a l) as (H1 & H2 & H3 & H4 & H5 & H6).
    repeat (split; [assumption|]). split; [|assumption].
    intros E Hf. now apply H5. }
  repeat constructor; cbn [Actual Limit Status]; now apply Hrow.
Qed.

Lemma flat_report_stops64 (df : list flat_row) :
  eq (fsum (map f_amount (of_type "budget" df))) 0 = true ->
  flat_report fsum df
  = Py.Return (FlatStopped "Please define a monthly budget to perform analysis.").
Proof.
  intros HT. unfold flat_report. now rewrite HT.
Qed.

Lemma flat_report_runs64 (df : list flat_row) :
  let T := fsum (map f_amount (of_type "budget" df)) in
  eq T 0 = false ->
  flat_report fsum df
  = Py.Return (Chart
      [("Needs", bucket_actual "Needs" (of_type "actual" df));
       ("Wants", bucket_actual "Wants" (of_type "actual" df));
       ("Savings", bucket_actual "Savings" (of_type "actual" df))]
      (limits_of T)).
Proof.
  intros T HT. unfold flat_report. fold T. now rewrite HT, categorize_spec64.
Qed.

(** C4.  A total budget equal to zero, in particular the total of no budget
    rows when the summation of nothing is 0, makes both variants of the
    50/30/20 page return their warning and stop: the outcome is the prompt,
    not an exception, and carries no table, so no ratio is computed. *)
Theorem zero_total_not_computable
    (actuals : list A) (budget : list B) (df : list flat_row) :
  (eq (fsum (map amount budget)) 0 = true ->
   report fsum actuals budget
   = Py.Return (Stopped "Please set your monthly budget to see analysis.")) /\
  (eq (fsum (map f_amount (of_type "budget" df))) 0 = true ->
   flat_report fsum df
   = Py.Return (FlatStopped "Please define a monthly budget to perform analysis.")) /\
  (fsum [] = 0 ->
   report fsum actuals (@nil B)
   = Py.Return (Stopped "Please set your monthly budget to see analysis.")) /\
  (fsum [] = 0 -> of_type "budget" df = [] ->
   flat_report fsum df
   = Py.Return (FlatStopped "Please define a monthly budget to perform analysis.")).
Proof.
  split; [apply report_stops64|]. split; [apply flat_report_stops64|]. split.
  - intros H0'. apply report_stops64. cbn [map]. now rewrite H0'.
  - intros H0' Hnil. apply flat_report_stops64. rewrite Hnil. cbn [map]. now rewrite H0'.
Qed.

(** C5.  The loop over the expense rows leaves, under each of the three
    keys, the amounts of the rows classified into that bucket, added in row
    order from 0 with every sum rounded to binary64.  The three groups of
    rows are a rearrangement of the expense rows: each expense is counted in
    exactly one bucket, none is dropped and none is counted twice.  These
    are the actuals of the table and of the flat-file chart. *)
Theorem bucket_actuals_partition
    (actuals : list A) (budget : list B) (df : list flat_row) :
  categorize actuals
  = Py.Return [("Needs", bucket_actual "Needs" actuals);
               ("Wants", bucket_actual "Wants" actuals);
               ("Savings", bucket_actual "Savings" actuals)] /\
  Permutation actuals
    (bucket_rows "Needs" actuals ++ bucket_rows "Wants" actuals
     ++ bucket_rows "Savings" actuals) /\
  (forall rows,
     report fsum actuals budget = Py.Return (Analysis rows) ->
     map Actual rows
     = [bucket_actual "Needs" actuals; bucket_actual "Wants" actuals;
        bucket_actual "Savings" actuals]) /\
  (forall actual target,
     flat_report fsum df = Py.Return (Chart actual target) ->
     actual
     = [("Needs", bucket_actual "Needs" (of_type "actual" df));
        ("Wants", bucket_actual "Wants" (of_type "actual" df));
        ("Savings", bucket_actual "Savings" (of_type "actual" df))]).
Proof.
  split; [apply categorize_spec64|]. split; [apply bucket_rows_partition|]. split.
  - intros rows Hrep.
    destruct (report_analysis_inv64 _ _ _ Hrep) as (HN & HW & HS).
    rewrite (report_runs64 actuals budget HN HW HS) in Hrep.
    injection Hrep as <-. reflexivity.
  - intros actual target Hrep.
    destruct (eq (fsum (map f_amount (of_type "budget" df))) 0) eqn:HT.
    + rewrite (flat_report_stops64 df HT) in Hrep. discriminate.
    + rewrite (flat_report_runs64 df HT) in Hrep. now injection Hrep as <- <-.
Qed.

(** C9.  For every input the 50/30/20 page stops with its warning (total
    zero), raises ZeroDivisionError (a limit rounded to zero), or shows a
    table whose categories are Needs, Wants, Savings in this order, whose
    every row carries the limit and the actual of its own category and the
    status of their quotient.  For any other list of expenses, a
    rearrangement of the rows in particular, the page shows a table with
    the same categories and limits in the same order. *)
Theorem report_bucket_order (actuals actuals' : list A) (budget : list B) :
  let T := fsum (map amount budget) in
  (eq T 0 = true /\
   report fsum actuals budget
   = Py.Return (Stopped "Please set your monthly budget to see analysis.")) \/
  (eq T 0 = false /\
   (eq (T * 0.50) 0 = true \/ eq (T * 0.30) 0 = true \/ eq (T * 0.20) 0 = true) /\
   report fsum actuals budget = Py.Raise Py.ZeroDivisionError) \/
  (exists rows rows',
     report fsum actuals budget = Py.Return (Analysis rows) /\
     map Category rows = ["Needs"; "Wants"; "Savings"] /\
     Forall
       (fun r =>
          Dict.get (limits_of T) (Category r) = Py.Return (Limit r) /\
          Actual r = bucket_actual (Category r) actuals /\
          Status r = status_of (Actual r / Limit r))
       rows /\
     report fsum actuals' budget = Py.Return (Analysis rows') /\
     map Category rows' = map Category rows /\
     map Limit rows' = map Limit rows).
Proof.
  intros T.
  destruct (eq T 0) eqn:HT.
  { left. split; [reflexivity|]. now apply report_stops64. }
  right.
  destruct (eq (T * 0.50) 0) eqn:HN.
  { left. split; [reflexivity|]. split; [now left|].
    apply report_raises; [exact HT|]. fold T. now left. }
  destruct (eq (T * 0.30) 0) eqn:HW.
  { left. split; [reflexivity|]. split; [now (right; left)|].
    apply report_raises; [exact HT|]. fold T. now (right; left). }
  destruct (eq (T * 0.20) 0) eqn:HS.
  { left. split; [reflexivity|]. split; [now (right; right)|].
    apply report_raises; [exact HT|]. fold T. now (right; right). }
  right. do 2 eexists.
  split; [exact (report_runs64 actuals budget HN HW HS)|].
  split; [reflexivity|]. split; [repeat constructor|].
  split; [exact (report_runs64 actuals' budget HN HW HS)|].
  split; reflexivity.
Qed.

End ReportPage64.

(** *** The budget-versus-actual table *)

Section BudgetVsActual64.

Import Binary64.
Local Open Scope float_scope.

Variable fsum : list float -> float.

Lemma gt_zero_budget (a b : float) :
  eq b 0 = true -> gt a b = gt a 0.
Proof.
  intros Hb. apply eq_zero in Hb as [s Hb]. unfold gt.
  apply eq_true_iff_eq. rewrite !ltb_spec, Hb.
  change (Prim2SF 0) with (S754_zero false). reflexivity.
Qed.

Lemma zero_not_gt_zero (a b : float) :
  eq a 0 = true -> eq b 0 = true -> gt a b = false.
Proof.
  intros Ha Hb. apply eq_zero in Ha as [sa Ha]. apply eq_zero in Hb as [sb Hb].
  unfold gt. apply not_true_is_false. rewrite ltb_spec, Ha, Hb. discriminate.
Qed.

Lemma comparison_status (A B : float) :
  let status :=
    if gt A B then "❌ Over Budget"
    else if gt A (0.9 * B) then "⚠️ Near Limit"
    else "✅ OK" in
  (gt A B = true -> status = "❌ Over Budget") /\
  (gt A (0.9 * B) = true -> le A B = true -> status = "⚠️ Near Limit") /\
  (le 0 B = true -> le A (0.9 * B) = true -> status = "✅ OK") /\
  (gt A B = false -> gt A (0.9 * B) = false -> status = "✅ OK") /\
  (eq B 0 = true -> gt A 0 = true -> status = "❌ Over Budget") /\
  (eq B 0 = true -> eq A 0 = true -> status = "✅ OK").
Proof.
  cbv zeta. split; [|split; [|split; [|split; [|split]]]].
  - now intros ->.
  - intros Hgt Hle. now rewrite (le_not_gt _ _ Hle), Hgt.
  - intros HB H9.
    assert (Hle : le A B = true) by (apply (le_trans _ _ _ H9); now apply mul09_le).
    now rewrite (le_not_gt _ _ Hle), (le_not_gt _ _ H9).
  - now intros -> ->.
  - intros HB HA. now rewrite (gt_zero_budget A B HB), HA.
  - intros HB HA. rewrite (zero_not_gt_zero A B HA HB).
    rewrite (zero_not_gt_zero A (0.9 * B) HA); [reflexivity|].
    now apply (mul_zero_r B 0.9 false 8106479329266893 (-53)).
Qed.

(** C3.  The budget-versus-actual table has one row per budget row, in
    order, with its category, its budget [B] and, as actual [A], the
    library sum of the amounts of the expense rows of that category (zero
    when there is none and the summation of nothing is 0).  With the
    product [0.9 * B] rounded to binary64: [A > B] gives Over Budget;
    [0.9 * B < A <= B] gives Near Limit; [A <= 0.9 * B] gives OK when [B] is
    not negative; in the order of the code, neither [A > B] nor
    [A > 0.9 * B] gives OK.  With [B = 0], a positive [A] gives Over Budget
    and [A = 0] gives OK. *)
Theorem budget_vs_actual_binary64 (budget_df actual_df : list flat_row) :
  Forall2
    (fun b r =>
       c_Category r = f_category b /\
       c_Budgeted r = f_amount b /\
       c_Actual r = fsum (spent_on (f_category b) actual_df) /\
       (fsum [] = 0 -> spent_on (f_category b) actual_df = [] -> c_Actual r = 0) /\
       let B := c_Budgeted r in
       let A := c_Actual r in
       (gt A B = true -> c_Status r = "❌ Over Budget") /\
       (gt A (0.9 * B) = true -> le A B = true -> c_Status r = "⚠️ Near Limit") /\
       (le 0 B = true -> le A (0.9 * B) = true -> c_Status r = "✅ OK") /\
       (gt A B = false -> gt A (0.9 * B) = false -> c_Status r = "✅ OK") /\
       (eq B 0 = true -> gt A 0 = true -> c_Status r = "❌ Over Budget") /\
       (eq B 0 = true -> eq A 0 = true -> c_Status r = "✅ OK"))
    budget_df (display_budget_vs_actual fsum budget_df actual_df).
Proof.
  unfold display_budget_vs_actual.
  induction budget_df as [|b rest IH]; cbn [map]; constructor; [|exact IH].
  cbn [c_Category c_Budgeted c_Actual c_Status].
  split; [reflexivity|]. split; [reflexivity|]. split; [reflexivity|]. split.
  - intros H0 Hnil. unfold spent_on in Hnil. now rewrite Hnil.
  - apply comparison_status.
Qed.

End BudgetVsActual64.

(** *** The DIME estimate *)

Section Estimate64.

Import Binary64.
Local Open Scope float_scope.


End Estimate64.

(** *** Where rounding shows, and the sample month *)

Section Samples64.

Import Binary64.
Local Open Scope float_scope.

(** With a budget of 1.0, an Entertainment expense of 0.27 is 0.9 times the
    Wants limit 0.3, as decimals and as a binary64 product, yet the status
    is At Limit: the quotient rounds to 0.9000000000000001.  With a budget
    of 3.0, an expense of 0.9 equals 0.30 times the total as decimals, yet
    the computed limit is 0.8999999999999999 and the status Over Budget. *)
Lemma allocation_status_rounding :
  (report sum_left (Sample64.expenses [("Entertainment", 0.27%Q)])
          (Sample64.one_budget "Housing" 1%Q)
   = Py.Return (Analysis
       [ {| Category := "Needs"; Limit := 0.5; Actual := 0;
            Status := "🟢 Under Budget" |};
         {| Category := "Wants"; Limit := 0.3; Actual := 0.27;
            Status := "🟡 At Limit" |};
         {| Category := "Savings"; Limit := 0.2; Actual := 0;
            Status := "🟢 Under Budget" |} ]) /\
   0.27 = 0.9 * 0.3 /\ (0.27 == 0.9 * (0.30 * 1))%Q) /\
  (report sum_left (Sample64.expenses [("Entertainment", 0.9%Q)])
          (Sample64.one_budget "Housing" 3%Q)
   = Py.Return (Analysis
       [ {| Category := "Needs"; Limit := 1.5; Actual := 0;
            Status := "🟢 Under Budget" |};
         {| Category := "Wants"; Limit := 0.8999999999999999; Actual := 0.9;
            Status := "🔴 Over Budget" |};
         {| Category := "Savings"; Limit := 0.6000000000000001; Actual := 0;
            Status := "🟢 Under Budget" |} ]) /\
   (0.9 == 0.30 * 3)%Q).
Proof.
  split; split; try (vm_compute; reflexivity); split; vm_compute; reflexivity.
Qed.

(** Against a budget of 10.7, an expense of 9.63 is 0.9 times the budget as
    decimals, yet the status is Near Limit: the product rounds to
    9.629999999999999.  Expenses of 1.10 and 0.04 against a budget of 1.14
    add up to 1.1400000000000001 and show Over Budget.  Against a budget of
    3, the number that the float 2.7 stands for is above the exact product
    of the numbers that 0.9 and 3 stand for, yet the status is OK. *)
Lemma budget_vs_actual_rounding :
  (display_budget_vs_actual sum_left
     [Sample64.flat_budget "Groceries" 10.7%Q]
     [Sample64.flat_actual "Groceries" 9.63%Q]
   = [ {| c_Category := "Groceries"; c_Budgeted := 10.7; c_Actual := 9.63;
          c_Status := "⚠️ Near Limit" |} ] /\
   (9.63 <= 0.9 * 10.7)%Q) /\
  (display_budget_vs_actual sum_left
     [Sample64.flat_budget "Groceries" 1.14%Q]
     [Sample64.flat_actual "Groceries" 1.10%Q; Sample64.flat_actual "Groceries" 0.04%Q]
   = [ {| c_Category := "Groceries"; c_Budgeted := 1.14;
          c_Actual := 1.1400000000000001; c_Status := "❌ Over Budget" |} ] /\
   (1.10 + 0.04 <= 1.14)%Q) /\
  (display_budget_vs_actual sum_left
     [Sample64.flat_budget "Groceries" 3%Q]
     [Sample64.flat_actual "Groceries" 2.7%Q]
   = [ {| c_Category := "Groceries"; c_Budgeted := 3; c_Actual := 2.7;
          c_Status := "✅ OK" |} ] /\
   (exact 0.9 * exact 3 < exact 2.7)%Q /\ (exact 2.7 <= exact 3)%Q).
Proof.
  split; [|split]; split; try (vm_compute; reflexivity).
  - vm_compute. discriminate.
  - vm_compute. discriminate.
  - split; vm_compute; [reflexivity|discriminate].
Qed.

(** Housing 0.1, Entertainment 0.1, Housing 1.1: the bucket actuals are
    1.2000000000000002, 0.1 and 0, which add up to 1.3000000000000003, while
    the amounts add up to 1.3; the exact values differ as well. *)
Lemma bucket_actuals_not_additive :
  let actuals :=
    Sample64.expenses
      [("Housing", 0.1%Q); ("Entertainment", 0.1%Q); ("Housing", 1.1%Q)] in
  categorize actuals
  = Py.Return [("Needs", 1.2000000000000002); ("Wants", 0.1); ("Savings", 0)] /\
  sum_left [1.2000000000000002; 0.1; 0] = 1.3000000000000003 /\
  sum_left (map amount actuals) = 1.3 /\
  1.3000000000000003 <> 1.3 /\
  ~ (exact 1.2000000000000002 + exact 0.1 + exact 0
     == exact 0.1 + exact 0.1 + exact 1.1)%Q.
Proof.
  cbv zeta. split; [vm_compute; reflexivity|]. split; [vm_compute; reflexivity|].
  split; [vm_compute; reflexivity|]. split.
  - intros E. apply (f_equal (fun x => PrimFloat.eqb x 1.3)) in E.
    vm_compute in E. discriminate.
  - vm_compute. discriminate.
Qed.


Lemma allocation_status_binary64_witness :
  exists rows,
    report sum_left Sample64.actuals Sample64.budget = Py.Return (Analysis rows) /\
    map Limit rows = [500; 300; 200] /\
    map Actual rows = [450; 300; 200.01] /\
    map Status rows = ["🟢 Under Budget"; "🟡 At Limit"; "🔴 Over Budget"].
Proof.
  destruct (allocation_status_binary64 sum_left Sample64.actuals Sample64.budget)
    as (rows & Hrep & _ & Hlim & Hact & _); [reflexivity..|].
  exists rows. split; [exact Hrep|]. split; [exact Hlim|]. split; [exact Hact|].
  assert (Hrun : report sum_left Sample64.actuals Sample64.budget
                 = Py.Return (Analysis Sample64.analysis))
    by (vm_compute; reflexivity).
  rewrite Hrun in Hrep. injection Hrep as <-. reflexivity.
Defined.

Lemma budget_vs_actual_binary64_witness :
  Forall2
    (fun b r =>
       c_Category r = f_category b /\ c_Budgeted r = f_amount b /\
       c_Actual r = sum_left (spent_on (f_category b) (of_type "actual" Sample64.df)))
    (of_type "budget" Sample64.df) Sample64.comparison.
Proof.
  assert (Hrun : display_budget_vs_actual sum_left (of_type "budget" Sample64.df)
                   (of_type "actual" Sample64.df) = Sample64.comparison)
    by (vm_compute; reflexivity).
  rewrite <- Hrun.
  eapply Forall2_impl;
    [|exact (budget_vs_actual_binary64 sum_left (of_type "budget" Sample64.df)
               (of_type "actual" Sample64.df))].
  intros b r (Hc & Hb & Ha & _). auto.
Defined.

Lemma zero_total_not_computable_witness :
  report sum_left Sample64.actuals (@nil entry)
  = Py.Return (Stopped "Please set your monthly budget to see analysis.") /\
  flat_report sum_left (of_type "actual" Sample64.df)
  = Py.Return (FlatStopped "Please define a monthly budget to perform analysis.").
Proof.
  destruct (zero_total_not_computable sum_left Sample64.actuals (@nil entry)
              (of_type "actual" Sample64.df)) as (_ & _ & Hdb & Hflat).
  split; [apply Hdb; reflexivity|apply Hflat; reflexivity].
Defined.

Lemma bucket_actuals_partition_witness :
  map Actual Sample64.analysis
  = [bucket_actual "Needs" Sample64.actuals; bucket_actual "Wants" Sample64.actuals;
     bucket_actual "Savings" Sample64.actuals].
Proof.
  destruct (bucket_actuals_partition sum_left Sample64.actuals Sample64.budget
              Sample64.df) as (_ & _ & Htable & _).
  apply Htable. vm_compute. reflexivity.
Defined.


Lemma report_bucket_order_witness :
  exists rows,
    report sum_left Sample64.actuals Sample64.budget = Py.Return (Analysis rows) /\
    map Category rows = ["Needs"; "Wants"; "Savings"].
Proof.
  destruct (report_bucket_order sum_left Sample64.actuals (rev Sample64.actuals)
              Sample64.budget)
    as [[H0 _]|[(_ & H0 & _)|(rows & rows' & Hrep & Hcat & _)]].
  - vm_compute in H0. discriminate H0.
  - vm_compute in H0. destruct H0 as [H0|[H0|H0]]; discriminate H0.
  - exists rows. split; [exact Hrep|exact Hcat].
Defined.

End Samples64.

(** ** Insert-or-update on a list of rows *)

Section Upsert.

Context {X : Type} (hit : X -> bool) (upd : X -> X) (new : X).

Hypothesis hit_upd : forall x, hit x = true -> hit (upd x) = true.
Hypothesis hit_new : hit new = true.

Lemma existsb_false_filter (rows : list X) :
  existsb hit rows = false -> filter hit rows = [].
Proof.
  induction rows as [|r rows IH]; cbn [existsb filter]; [reflexivity|].
  intros E. apply orb_false_iff in E. destruct E as [E1 E2].
  rewrite E1. now apply IH.
Qed.

Lemma filter_hit_updated (rows : list X) :
  filter hit (map (fun r => if hit r then upd r else r) rows)
  = map upd (filter hit rows).
Proof.
  induction rows as [|r rows IH]; cbn [map filter]; [reflexivity|].
  destruct (hit r) eqn:E.
  - rewrite (hit_upd r E). cbn [map]. now rewrite IH.
  - rewrite E. exact IH.
Qed.

Lemma filter_hit_upsert (rows : list X) :
  filter hit (upsert hit upd new rows)
  = if existsb hit rows then map upd (filter hit rows) else [new].
Proof.
  unfold upsert. destruct (existsb hit rows) eqn:E.
  - apply filter_hit_updated.
  - rewrite filter_app, (existsb_false_filter rows E). cbn [filter app].
    now rewrite hit_new.
Qed.

Lemma filter_other_upsert (other : X -> bool) (rows : list X) :
  (forall x, hit x = true -> other x = false /\ other (upd x) = false) ->
  other new = false ->
  filter other (upsert hit upd new rows) = filter other rows.
Proof.
  intros Hexcl Hnew. unfold upsert. destruct (existsb hit rows).
  - induction rows as [|r rows IH]; cbn [map filter]; [reflexivity|].
    destruct (hit r) eqn:E.
    + destruct (Hexcl r E) as [E1 E2]. rewrite E1, E2. exact IH.
    + destruct (other r); now rewrite IH.
  - rewrite filter_app. cbn [filter]. rewrite Hnew. apply app_nil_r.
Qed.

Lemma existsb_upsert (rows : list X) :
  existsb hit (upsert hit upd new rows) = true.
Proof.
  unfold upsert. destruct (existsb hit rows) eqn:E.
  - apply existsb_exists in E. destruct E as (x & Hx & Hhit).
    apply existsb_exists. exists (upd x). split; [|now apply hit_upd].
    apply in_map_iff. exists x. now rewrite Hhit.
  - rewrite existsb_app. cbn [existsb]. rewrite hit_new.
    now rewrite orb_true_r.
Qed.

Lemma upsert_idempotent (rows : list X) :
  (forall x, hit x = true -> upd (upd x) = upd x) ->
  upd new = new ->
  upsert hit upd new (upsert hit upd new rows) = upsert hit upd new rows.
Proof.
  intros Hupd Hnew.
  unfold upsert at 1. rewrite existsb_upsert.
  unfold upsert. destruct (existsb hit rows) eqn:E.
  - rewrite map_map. apply map_ext. intros r.
    destruct (hit r) eqn:Er.
    + rewrite (hit_upd r Er). now apply Hupd.
    + now rewrite Er.
  - rewrite map_app. cbn [map]. rewrite hit_new, Hnew. f_equal.
    rewrite <- (map_id rows) at 2. apply map_ext_in. intros r Hr.
    destruct (hit r) eqn:Er; [|reflexivity].
    assert (Hex : existsb hit rows = true)
      by (apply existsb_exists; now exists r).
    congruence.
Qed.

Lemma upsert_length (rows : list X) :
  existsb hit rows = true ->
  List.length (upsert hit upd new rows) = List.length rows.
Proof.
  intros E. unfold upsert. rewrite E. apply List.length_map.
Qed.

Context {K : Type} (key : X -> K) (k : K).

Hypothesis hit_key : forall x, hit x = true <-> key x = k.
Hypothesis key_upd : forall x, key (upd x) = key x.

Lemma keys_upsert (rows : list X) :
  map key (upsert hit upd new rows)
  = if existsb hit rows then map key rows else (map key rows ++ [k])%list.
Proof.
  unfold upsert. destruct (existsb hit rows).
  - rewrite map_map. apply map_ext. intros r.
    destruct (hit r); [apply key_upd|reflexivity].
  - rewrite map_app. cbn [map]. f_equal. f_equal. now apply hit_key.
Qed.

Lemma NoDup_upsert (rows : list X) :
  NoDup (map key rows) -> NoDup (map key (upsert hit upd new rows)).
Proof.
  intros Hnd. rewrite keys_upsert. destruct (existsb hit rows) eqn:E; [exact Hnd|].
  apply NoDup_app; [exact Hnd|repeat constructor; intros []|].
  intros x Hx [<- | []].
  apply in_map_iff in Hx. destruct Hx as (r & Hr & Hin).
  apply hit_key in Hr.
  assert (Hex : existsb hit rows = true)
    by (apply existsb_exists; now exists r).
  congruence.
Qed.

Lemma filter_hit_at_most_one (rows : list X) :
  NoDup (map key rows) -> (List.length (filter hit rows) <= 1)%nat.
Proof.
  induction rows as [|r rows IH]; cbn [map filter]; intros Hnd; [cbn; lia|].
  inversion Hnd as [|? ? Hnotin Hnd']; subst.
  destruct (hit r) eqn:E; [|now apply IH].
  replace (filter hit rows) with (@nil X); [cbn; lia|].
  symmetry. apply existsb_false_filter.
  destruct (existsb hit rows) eqn:Ex; [|reflexivity].
  exfalso. apply Hnotin.
  apply existsb_exists in Ex. destruct Ex as (x & Hx & Hhit).
  apply hit_key in E. apply hit_key in Hhit.
  apply in_map_iff. exists x. split; [congruence|exact Hx].
Qed.

Lemma filter_hit_upsert_single (rows : list X) :
  NoDup (map key rows) ->
  exists r, filter hit (upsert hit upd new rows) = [r] /\
            (r = new \/ exists r0, In r0 rows /\ hit r0 = true /\ r = upd r0).
Proof.
  intros Hnd. rewrite filter_hit_upsert.
  destruct (existsb hit rows) eqn:E.
  - pose proof (filter_hit_at_most_one rows Hnd) as Hlen.
    apply existsb_exists in E. destruct E as (x & Hx & Hhit).
    assert (Hin : In x (filter hit rows)) by (apply filter_In; auto).
    destruct (filter hit rows) as [|r0 [|r1 rest]] eqn:Hf.
    + contradiction.
    + exists (upd r0). split; [reflexivity|]. right. exists r0.
      assert (Hr0 : In r0 (filter hit rows)) by (rewrite Hf; now left).
      apply filter_In in Hr0. tauto.
    + cbn in Hlen. lia.
  - exists new. split; [reflexivity|now left].
Qed.

End Upsert.

(** ** The budget upsert of both stores *)

Section BudgetUpsert.

Import Database.

Lemma key_eqb_eq (k1 k2 : Z * string * string) : key_eqb k1 k2 = true <-> k1 = k2.
Proof.
  destruct k1 as [[u1 m1] c1], k2 as [[u2 m2] c2]. unfold key_eqb.
  rewrite !andb_true_iff, Z.eqb_eq, !String.eqb_eq.
  split.
  - intros [[-> ->] ->]. reflexivity.
  - intros E. injection E as -> -> ->. auto.
Qed.

Lemma conflicts_key (k : Z * string * string) (r : budget_row) :
  conflicts k r = true <-> budget_key r = k.
Proof. apply key_eqb_eq. Qed.

Lemma conflicts_other (k k' : Z * string * string) (r : budget_row) :
  k' <> k -> conflicts k r = true -> conflicts k' r = false.
Proof.
  intros Hne Hk. apply conflicts_key in Hk.
  destruct (conflicts k' r) eqn:E; [|reflexivity].
  apply conflicts_key in E. congruence.
Qed.

Lemma upsert_new_irrelevant {X : Type} (hit : X -> bool) (upd : X -> X)
    (new new' : X) (rows : list X) :
  existsb hit rows = true ->
  upsert hit upd new rows = upsert hit upd new' rows.
Proof.
  intros E. unfold upsert. now rewrite E.
Qed.

(** [save_budget] is the insert-or-update on the key's rows. *)
Lemma save_budget_budgets (u : Z) (m c : string) (a : Q) (d : db) :
  budgets (snd (save_budget u m c a d))
  = upsert (conflicts (u, m, c)) (fun r => set_b_amount r a)
           {| b_id := budgets_seq d + 1; b_user_id := u; b_month := m;
              b_category := c; b_amount := a |}
           (budgets d).
Proof.
  unfold save_budget, upsert.
  destruct (existsb (conflicts (u, m, c)) (budgets d)); reflexivity.
Qed.

Lemma save_budget_expenses (u : Z) (m c : string) (a : Q) (d : db) :
  expenses (snd (save_budget u m c a d)) = expenses d /\
  expenses_seq (snd (save_budget u m c a d)) = expenses_seq d.
Proof.
  unfold save_budget.
  destruct (existsb (conflicts (u, m, c)) (budgets d)); split; reflexivity.
Qed.

Lemma save_budget_unique (u : Z) (m c : string) (a : Q) (d : db) :
  unique_budget_keys d -> unique_budget_keys (snd (save_budget u m c a d)).
Proof.
  unfold unique_budget_keys. intros Hnd. rewrite save_budget_budgets.
  apply NoDup_upsert with (k := (u, m, c)).
  - now apply key_eqb_eq.
  - intros r. apply conflicts_key.
  - intros r. reflexivity.
  - exact Hnd.
Qed.

Lemma save_budget_entries (u : Z) (m c : string) (a : Q) (d : db) :
  unique_budget_keys d ->
  map b_amount (entries_for (u, m, c) (snd (save_budget u m c a d))) = [a].
Proof.
  intros Hnd. unfold entries_for. rewrite save_budget_budgets.
  destruct (filter_hit_upsert_single
              (conflicts (u, m, c)) (fun r => set_b_amount r a)
              {| b_id := budgets_seq d + 1; b_user_id := u; b_month := m;
                 b_category := c; b_amount := a |}
              (fun r Hr => Hr)
              (proj2 (key_eqb_eq (u, m, c) (u, m, c)) eq_refl)
              budget_key (u, m, c)
              (fun r => conflicts_key (u, m, c) r)
              (budgets d) Hnd)
    as (r & Hf & [-> | (r0 & _ & _ & ->)]); rewrite Hf; reflexivity.
Qed.

Lemma existsb_filter_implied {X : Type} (hit p : X -> bool) (rows : list X) :
  (forall x, hit x = true -> p x = true) ->
  existsb hit (filter p rows) = existsb hit rows.
Proof.
  intros Himp. induction rows as [|r rows IH]; cbn [filter existsb]; [reflexivity|].
  destruct (p r) eqn:Ep.
  - cbn [existsb]. now rewrite IH.
  - rewrite IH. destruct (hit r) eqn:Eh; [|reflexivity].
    rewrite (Himp r Eh) in Ep. discriminate Ep.
Qed.

Lemma filter_filter_andb {X : Type} (f g : X -> bool) (rows : list X) :
  filter f (filter g rows) = filter (fun x => f x && g x) rows.
Proof.
  induction rows as [|r rows IH]; cbn [filter]; [reflexivity|].
  destruct (g r); cbn [filter].
  - rewrite andb_true_r. destruct (f r); now rewrite IH.
  - rewrite andb_false_r. exact IH.
Qed.

Lemma flat_hit_budget (cat : string) (r : FlatFile.flat_row) :
  flat_hit cat r = true -> String.eqb (FlatFile.f_type r) "budget" = true.
Proof.
  unfold flat_hit. intros E. apply andb_true_iff in E. tauto.
Qed.

Lemma set_monthly_budget_one (cat : string) (amt : Q) (df : list FlatFile.flat_row) :
  FlatFile.set_monthly_budget [(cat, amt)] df
  = upsert (flat_hit cat) (flat_upd amt) (flat_new cat amt) df.
Proof.
  unfold FlatFile.set_monthly_budget, FlatFile.set_budget_step, upsert.
  cbn [fold_left]. unfold FlatFile.of_type.
  change (fun r : FlatFile.flat_row =>
            (FlatFile.f_category r =? cat)%string
            && (FlatFile.f_type r =? "budget")%string)
    with (flat_hit cat).
  rewrite (existsb_filter_implied (flat_hit cat)); [|apply flat_hit_budget].
  reflexivity.
Qed.

Lemma flat_entries_hit (cat : string) (df : list FlatFile.flat_row) :
  flat_entries_for cat df = filter (flat_hit cat) df.
Proof.
  unfold flat_entries_for, FlatFile.of_type. apply filter_filter_andb.
Qed.

Lemma flat_budget_rows_upsert (cat : string) (amt : Q) (df : list FlatFile.flat_row) :
  map FlatFile.f_category
      (FlatFile.of_type "budget" (upsert (flat_hit cat) (flat_upd amt) (flat_new cat amt) df))
  = if existsb (flat_hit cat) df
    then map FlatFile.f_category (FlatFile.of_type "budget" df)
    else (map FlatFile.f_category (FlatFile.of_type "budget" df) ++ [cat])%list.
Proof.
  unfold upsert, FlatFile.of_type. destruct (existsb (flat_hit cat) df).
  - induction df as [|r df IH]; cbn [map filter]; [reflexivity|].
    destruct (flat_hit cat r); cbn [flat_upd FlatFile.f_type];
      destruct (String.eqb (FlatFile.f_type r) "budget"); cbn [map];
      now rewrite IH.
  - rewrite filter_app, map_app. reflexivity.
Qed.

Lemma flat_unique_upsert (cat : string) (amt : Q) (df : list FlatFile.flat_row) :
  NoDup (map FlatFile.f_category (FlatFile.of_type "budget" df)) ->
  NoDup (map FlatFile.f_category
             (FlatFile.of_type "budget" (FlatFile.set_monthly_budget [(cat, amt)] df))).
Proof.
  intros Hnd. rewrite set_monthly_budget_one, flat_budget_rows_upsert.
  destruct (existsb (flat_hit cat) df) eqn:E; [exact Hnd|].
  apply NoDup_app; [exact Hnd|repeat constructor; intros []|].
  intros x Hx [<- | []].
  apply in_map_iff in Hx. destruct Hx as (r & Hr & Hin).
  unfold FlatFile.of_type in Hin. apply filter_In in Hin. destruct Hin as [Hin Hty].
  assert (Hex : existsb (flat_hit cat) df = true).
  { apply existsb_exists. exists r. split; [exact Hin|].
    unfold flat_hit. rewrite Hr, String.eqb_refl, Hty. reflexivity. }
  congruence.
Qed.

Lemma flat_entries_upsert (cat : string) (amt : Q) (df : list FlatFile.flat_row) :
  NoDup (map FlatFile.f_category (FlatFile.of_type "budget" df)) ->
  map FlatFile.f_amount
      (flat_entries_for cat (FlatFile.set_monthly_budget [(cat, amt)] df))
  = [amt].
Proof.
  intros Hnd. rewrite set_monthly_budget_one, flat_entries_hit.
  rewrite filter_hit_upsert.
  - destruct (existsb (flat_hit cat) df) eqn:E; [|reflexivity].
    assert (Hlen : (List.length (filter (flat_hit cat) df) <= 1)%nat).
    { rewrite <- flat_entries_hit. unfold flat_entries_for.
      apply filter_hit_at_most_one with (key := FlatFile.f_category) (k := cat).
      - intros r. apply String.eqb_eq.
      - exact Hnd. }
    apply existsb_exists in E. destruct E as (x & Hx & Hhit).
    assert (Hin : In x (filter (flat_hit cat) df)) by (apply filter_In; auto).
    destruct (filter (flat_hit cat) df) as [|r0 [|r1 rest]].
    + contradiction.
    + reflexivity.
    + cbn in Hlen. lia.
  - intros r Hr. exact Hr.
  - unfold flat_hit. cbn. now rewrite String.eqb_refl.
Qed.

Lemma flat_upsert_idempotent (cat : string) (amt : Q) (df : list FlatFile.flat_row) :
  FlatFile.set_monthly_budget [(cat, amt)]
    (FlatFile.set_monthly_budget [(cat, amt)] df)
  = FlatFile.set_monthly_budget [(cat, amt)] df.
Proof.
  rewrite !set_monthly_budget_one. apply upsert_idempotent.
  - intros r Hr. exact Hr.
  - unfold flat_hit. cbn. now rewrite String.eqb_refl.
  - reflexivity.
  - reflexivity.
Qed.

Lemma flat_upsert_actuals (cat : string) (amt : Q) (df : list FlatFile.flat_row) :
  FlatFile.of_type "actual" (FlatFile.set_monthly_budget [(cat, amt)] df)
  = FlatFile.of_type "actual" df.
Proof.
  rewrite set_monthly_budget_one. unfold FlatFile.of_type.
  apply filter_other_upsert.
  - intros r Hr. apply flat_hit_budget in Hr. apply String.eqb_eq in Hr.
    cbn [flat_upd FlatFile.f_type]. rewrite Hr. split; reflexivity.
  - reflexivity.
Qed.

Lemma NoDup_map_filter {X K : Type} (key : X -> K) (p : X -> bool) (rows : list X) :
  NoDup (map key rows) -> NoDup (map key (filter p rows)).
Proof.
  induction rows as [|r rows IH]; cbn [filter map]; intros Hnd; [constructor|].
  inversion Hnd as [|? ? Hnotin Hnd']; subst.
  destruct (p r); [|now apply IH].
  cbn [map]. constructor; [|now apply IH].
  intros Hin. apply Hnotin. apply in_map_iff in Hin.
  destruct Hin as (x & Hx & Hin). apply filter_In in Hin.
  apply in_map_iff. exists x. tauto.
Qed.

(** The integrity constraints hold in every state the application reaches. *)
Lemma reachable_invariants (d : db) :
  reachable d ->
  unique_budget_keys d /\
  unique_expense_ids d /\
  Forall (fun r => (e_id r <= expenses_seq d)%Z) (expenses d).
Proof.
  induction 1 as [| d u m c a _ (IHb & IHe & IHs) | d u m c a now _ (IHb & IHe & IHs)
                  | d id a _ (IHb & IHe & IHs) | d id _ (IHb & IHe & IHs)].
  - repeat split; constructor.
  - split; [now apply save_budget_unique|].
    unfold unique_expense_ids.
    destruct (save_budget_expenses u m c a d) as [-> ->]. now split.
  - split; [exact IHb|]. unfold unique_expense_ids. cbn. split.
    + rewrite map_app. cbn [map e_id].
      apply NoDup_app; [exact IHe|repeat constructor; intros []|].
      intros x Hx [<- | []].
      apply in_map_iff in Hx. destruct Hx as (r & Hr & Hin).
      rewrite Forall_forall in IHs. specialize (IHs r Hin). lia.
    + apply Forall_app. split.
      * eapply Forall_impl; [|exact IHs]. cbn. intros r Hr. lia.
      * repeat constructor. cbn. lia.
  - split; [exact IHb|]. unfold unique_expense_ids. cbn. split.
    + rewrite map_map.
      erewrite map_ext; [exact IHe|].
      intros r. cbn. destruct (e_id r =? id)%Z; reflexivity.
    + apply Forall_map. eapply Forall_impl; [|exact IHs].
      intros r Hr. cbn. destruct (e_id r =? id)%Z; exact Hr.
  - split; [exact IHb|]. unfold unique_expense_ids. cbn. split.
    + now apply NoDup_map_filter.
    + rewrite Forall_forall in *. intros r Hr. apply filter_In in Hr.
      apply IHs. tauto.
Qed.

(** C6.  Saving a budget entry is an insert-or-update on its key.  In the
    relational store, whose budget rows have pairwise distinct (user_id,
    month, category), after [save_budget] the keys are still pairwise
    distinct, the key holds exactly one entry and its amount is the amount
    just written (a later write replaces it), saving the same amount again
    changes no row, and the entries of every other key are as before.  Every
    state the application reaches has distinct keys.  The flat-file page does
    the same for a submitted category on the table of one user and month. *)
Theorem save_budget_upsert
    (d : db) (u : Z) (m c : string) (a a' : Q) (df : list FlatFile.flat_row) :
  unique_budget_keys d ->
  NoDup (map FlatFile.f_category (FlatFile.of_type "budget" df)) ->
  let d1 := snd (save_budget u m c a d) in
  let df1 := FlatFile.set_monthly_budget [(c, a)] df in
  (unique_budget_keys d1 /\
   map b_amount (entries_for (u, m, c) d1) = [a] /\
   map b_amount (entries_for (u, m, c) (snd (save_budget u m c a' d1))) = [a'] /\
   budgets (snd (save_budget u m c a d1)) = budgets d1 /\
   (forall k', k' <> (u, m, c) -> entries_for k' d1 = entries_for k' d) /\
   (entries_for (u, m, c) d <> [] ->
    List.length (budgets d1) = List.length (budgets d)) /\
   (forall d0, reachable d0 -> unique_budget_keys d0)) /\
  (NoDup (map FlatFile.f_category (FlatFile.of_type "budget" df1)) /\
   map FlatFile.f_amount (flat_entries_for c df1) = [a] /\
   map FlatFile.f_amount
       (flat_entries_for c (FlatFile.set_monthly_budget [(c, a')] df1)) = [a'] /\
   FlatFile.set_monthly_budget [(c, a)] df1 = df1 /\
   FlatFile.of_type "actual" df1 = FlatFile.of_type "actual" df).
Proof.
  intros Hnd Hflat d1 df1.
  assert (Hnd1 : unique_budget_keys d1) by now apply save_budget_unique.
  assert (Hhit_new : forall seq,
             conflicts (u, m, c)
               {| b_id := seq; b_user_id := u; b_month := m; b_category := c;
                  b_amount := a |} = true)
    by (intros seq; now apply key_eqb_eq).
  split.
  - split; [exact Hnd1|]. split; [now apply save_budget_entries|].
    split; [now apply save_budget_entries|]. split; [|split; [|split]].
    + rewrite save_budget_budgets. subst d1. rewrite save_budget_budgets.
      rewrite (upsert_new_irrelevant _ _ _
                 {| b_id := budgets_seq d + 1; b_user_id := u; b_month := m;
                    b_category := c; b_amount := a |}).
      * apply upsert_idempotent; try reflexivity.
        -- intros r Hr. exact Hr.
        -- apply Hhit_new.
      * apply existsb_upsert; [intros r Hr; exact Hr|apply Hhit_new].
    + intros k' Hk'. unfold entries_for. subst d1. rewrite save_budget_budgets.
      apply filter_other_upsert.
      * intros r Hr. split; now apply (conflicts_other (u, m, c)).
      * destruct (conflicts k' _) eqn:E; [|reflexivity].
        apply conflicts_key in E. unfold budget_key in E. cbn in E.
        symmetry in E. contradiction.
    + intros Hex. subst d1. rewrite save_budget_budgets. apply upsert_length.
      unfold entries_for in Hex.
      destruct (existsb (conflicts (u, m, c)) (budgets d)) eqn:E; [reflexivity|].
      now rewrite (existsb_false_filter _ _ E) in Hex.
    + intros d0 Hd0. now apply reachable_invariants.
  - assert (Hflat1 : NoDup (map FlatFile.f_category (FlatFile.of_type "budget" df1)))
      by now apply flat_unique_upsert.
    split; [exact Hflat1|]. split; [now apply flat_entries_upsert|].
    split; [now apply flat_entries_upsert|].
    split; [apply flat_upsert_idempotent|apply flat_upsert_actuals].
Qed.

End BudgetUpsert.

Lemma save_budget_upsert_witness :
  map Database.b_amount
      (entries_for (1%Z, "2024-05", "Housing")
         (snd (Database.save_budget 1 "2024-05" "Housing" 700 Sample.store)))
  = [700] /\
  map FlatFile.f_amount
      (flat_entries_for "Housing"
         (FlatFile.set_monthly_budget [("Housing", 700)] Sample.df))
  = [700].
Proof.
  assert (Hstore : unique_budget_keys Sample.store).
  { unfold unique_budget_keys. cbn. constructor; [intros []|constructor]. }
  assert (Hdf : NoDup (map FlatFile.f_category (FlatFile.of_type "budget" Sample.df))).
  { cbn. constructor; [intros [H | []]; discriminate H|].
    constructor; [intros []|constructor]. }
  destruct (save_budget_upsert Sample.store 1 "2024-05" "Housing" 700 800 Sample.df
              Hstore Hdf)
    as ((_ & Hdb & _) & (_ & Hff & _)).
  split; [exact Hdb|exact Hff].
Defined.

(** ** Expense mutations by id *)

Section ExpenseMutations.

Import Database.

Lemma db_eta (d : db) :
  {| budgets := budgets d; budgets_seq := budgets_seq d;
     expenses := expenses d; expenses_seq := expenses_seq d |} = d.
Proof. destruct d. reflexivity. Qed.

Lemma present_In (id : Z) (d : db) :
  present id d = true <-> In id (map e_id (expenses d)).
Proof.
  unfold present. rewrite existsb_exists, in_map_iff. split.
  - intros (r & Hr & E). apply Z.eqb_eq in E. now exists r.
  - intros (r & E & Hr). exists r. split; [exact Hr|now apply Z.eqb_eq].
Qed.

Lemma absent_untouched (id : Z) (a : Q) (rows : list expense_row) :
  ~ In id (map e_id rows) ->
  map (fun r => if (e_id r =? id)%Z then set_e_amount r a else r) rows = rows /\
  filter (fun r => negb (e_id r =? id)%Z) rows = rows.
Proof.
  induction rows as [|r rows IH]; cbn [map filter]; intros Hnot; [now split|].
  destruct (e_id r =? id)%Z eqn:E.
  - exfalso. apply Hnot. left. now apply Z.eqb_eq.
  - cbn [negb]. destruct IH as [IH1 IH2]; [intros Hin; apply Hnot; now right|].
    now rewrite IH1, IH2.
Qed.

Lemma by_id_single (id : Z) (a : Q) (rows : list expense_row) :
  NoDup (map e_id rows) ->
  In id (map e_id rows) ->
  exists before r after,
    rows = (before ++ r :: after)%list /\
    e_id r = id /\
    ~ In id (map e_id before) /\ ~ In id (map e_id after) /\
    map (fun r => if (e_id r =? id)%Z then set_e_amount r a else r) rows
    = (before ++ set_e_amount r a :: after)%list /\
    filter (fun r => negb (e_id r =? id)%Z) rows = (before ++ after)%list.
Proof.
  induction rows as [|r rows IH]; cbn [map filter]; intros Hnd Hin; [contradiction|].
  inversion Hnd as [|? ? Hnotin Hnd']; subst.
  destruct (e_id r =? id)%Z eqn:E.
  - apply Z.eqb_eq in E. subst id.
    destruct (absent_untouched (e_id r) a rows Hnotin) as [Hm Hf].
    exists [], r, rows. cbn [app map negb]. rewrite Hm, Hf.
    repeat split; auto.
  - apply Z.eqb_neq in E.
    destruct Hin as [Hin | Hin]; [contradiction|].
    destruct (IH Hnd' Hin) as (before & x & after & -> & Hx & Hb & Ha & Hm & Hf).
    exists (r :: before), x, after. cbn [app map negb].
    rewrite Hm, Hf. repeat split; auto.
    intros [H | H]; [contradiction|now apply Hb].
Qed.

(** C7, as the store does it.  [update_expense] and [delete_expense] return
    normally, with no value, whether or not the id is in the store.  For an id
    that is absent the store is left as it was, so the caller cannot tell a
    missing id from a successful mutation.  For an id that is present, ids
    being unique, exactly the one entry with that id is affected: the update
    sets its amount and the delete removes it, every other entry staying in
    place unchanged; the budget entries are never touched. *)
Theorem expense_mutations_by_id (d : db) (id : Z) (a : Q) :
  unique_expense_ids d ->
  fst (update_expense id a d) = Py.Return tt /\
  fst (delete_expense id d) = Py.Return tt /\
  budgets (snd (update_expense id a d)) = budgets d /\
  budgets (snd (delete_expense id d)) = budgets d /\
  (present id d = false ->
   snd (update_expense id a d) = d /\ snd (delete_expense id d) = d) /\
  (present id d = true ->
   exists before r after,
     expenses d = (before ++ r :: after)%list /\
     e_id r = id /\
     ~ In id (map e_id before) /\ ~ In id (map e_id after) /\
     expenses (snd (update_expense id a d))
     = (before ++ set_e_amount r a :: after)%list /\
     expenses (snd (delete_expense id d)) = (before ++ after)%list).
Proof.
  intros Hnd. repeat (split; [reflexivity|]). split.
  - intros Habs.
    assert (Hnot : ~ In id (map e_id (expenses d))).
    { intros Hin. apply present_In in Hin. congruence. }
    destruct (absent_untouched id a (expenses d) Hnot) as [Hm Hf].
    unfold update_expense, delete_expense, with_expenses. cbn [snd].
    rewrite Hm, Hf. split; apply db_eta.
  - intros Hpres. apply present_In in Hpres.
    destruct (by_id_single id a (expenses d) Hnd Hpres)
      as (before & r & after & Hrows & Hr & Hb & Ha & Hm & Hf).
    exists before, r, after. cbn. auto 10.
Qed.

End ExpenseMutations.

Lemma expense_mutations_by_id_witness :
  snd (Database.update_expense 7 10 Sample.store) = Sample.store /\
  snd (Database.delete_expense 7 Sample.store) = Sample.store /\
  map Database.e_amount
      (Database.expenses (snd (Database.update_expense 1 10 Sample.store)))
  = [10; 60] /\
  map Database.e_id
      (Database.expenses (snd (Database.delete_expense 1 Sample.store)))
  = [2%Z].
Proof.
  assert (Hids : unique_expense_ids Sample.store).
  { unfold unique_expense_ids. cbn.
    constructor; [intros [H | []]; discriminate H|].
    constructor; [intros []|constructor]. }
  destruct (expense_mutations_by_id Sample.store 7 10 Hids)
    as (_ & _ & _ & _ & Habsent & _).
  destruct (Habsent eq_refl) as [Hupd Hdel].
  split; [exact Hupd|]. split; [exact Hdel|].
  destruct (expense_mutations_by_id Sample.store 1 10 Hids)
    as (_ & _ & _ & _ & _ & Hpresent).
  destruct (Hpresent eq_refl)
    as (before & r & after & Hrows & Hr & Hb & Ha & Hm & Hf).
  split; vm_compute; reflexivity.
Defined.

(** C7, as the specification words it, fails: the id 7 is not in the sample
    store, and both mutations return what they return for the id 1, which is
    there, leaving the store as it was. *)
Lemma expense_not_found_is_silent :
  present 7 Sample.store = false /\
  present 1 Sample.store = true /\
  Database.update_expense 7 10 Sample.store = (Py.Return tt, Sample.store) /\
  Database.delete_expense 7 Sample.store = (Py.Return tt, Sample.store) /\
  fst (Database.update_expense 7 10 Sample.store)
  = fst (Database.update_expense 1 10 Sample.store) /\
  fst (Database.delete_expense 7 Sample.store)
  = fst (Database.delete_expense 1 Sample.store) /\
  ~ not_found_surfaced (fun id => Database.update_expense id 10) /\
  ~ not_found_surfaced Database.delete_expense.
Proof.
  repeat (split; [vm_compute; reflexivity|]). split.
  - intros H.
    apply (H 7%Z Sample.store 1%Z Sample.store); reflexivity.
  - intros H.
    apply (H 7%Z Sample.store 1%Z Sample.store); reflexivity.
Qed.

(** * Further properties of the store *)

Section StringOrder.

Lemma ascii_compare_lt_trans (a b c : ascii) :
  Ascii.compare a b = Lt -> Ascii.compare b c = Lt -> Ascii.compare a c = Lt.
Proof.
  unfold Ascii.compare. rewrite !N.compare_lt_iff. apply N.lt_trans.
Qed.

Lemma string_compare_lt_trans (x y z : string) :
  String.compare x y = Lt -> String.compare y z = Lt -> String.compare x z = Lt.
Proof.
  revert y z. induction x as [|a x IH]; intros [|b y] [|c z]; cbn [String.compare];
    try congruence.
  destruct (Ascii.compare a b) eqn:Hab; try discriminate.
  - apply Ascii.compare_eq_iff in Hab. subst b.
    destruct (Ascii.compare a c); try congruence. apply IH.
  - destruct (Ascii.compare b c) eqn:Hbc; try discriminate.
    + apply Ascii.compare_eq_iff in Hbc. subst c. now rewrite Hab.
    + now rewrite (ascii_compare_lt_trans a b c Hab Hbc).
Qed.

Lemma ltb_lt (x y : string) : String.ltb x y = true <-> String.compare x y = Lt.
Proof.
  unfold String.ltb. destruct (String.compare x y); split; congruence.
Qed.

(** [z <= y < x] gives [z < x]. *)
Lemma ltb_le_lt (x y z : string) :
  String.ltb y x = true -> String.ltb y z = false -> String.ltb z x = true.
Proof.
  intros Hyx Hyz. apply ltb_lt in Hyx. apply ltb_lt.
  destruct (String.compare y z) eqn:E.
  - apply String.compare_eq_iff in E. now subst z.
  - exfalso. apply ltb_lt in E. congruence.
  - apply string_compare_lt_trans with (y := y); [|exact Hyx].
    rewrite String.compare_antisym, E. reflexivity.
Qed.

(** [y < x] gives [not (x < y)]. *)
Lemma ltb_asym (x y : string) : String.ltb y x = true -> String.ltb x y = false.
Proof.
  intros H. apply ltb_lt in H. unfold String.ltb.
  rewrite String.compare_antisym, H. reflexivity.
Qed.

End StringOrder.

Section Listing.

Import Database.

Lemma insert_desc_Permutation (r : expense_view) (l : list expense_view) :
  Permutation (r :: l) (insert_desc r l).
Proof.
  induction l as [|x l IH]; cbn [insert_desc]; [reflexivity|].
  destruct (String.ltb (ev_timestamp x) (ev_timestamp r)); [reflexivity|].
  rewrite perm_swap. now constructor.
Qed.

Lemma order_by_Permutation (l : list expense_view) :
  Permutation l (order_by_timestamp_desc l).
Proof.
  induction l as [|r l IH]; cbn [order_by_timestamp_desc fold_right]; [constructor|].
  rewrite <- insert_desc_Permutation. now constructor.
Qed.

Lemma insert_desc_sorted (r : expense_view) (l : list expense_view) :
  newest_first l -> newest_first (insert_desc r l).
Proof.
  unfold newest_first.
  induction l as [|x l IH]; cbn [insert_desc]; intros Hs.
  - repeat constructor.
  - apply StronglySorted_inv in Hs. destruct Hs as [Hl Hx].
    destruct (String.ltb (ev_timestamp x) (ev_timestamp r)) eqn:E.
    + constructor; [constructor; assumption|].
      constructor; [now apply ltb_asym|].
      rewrite Forall_forall in *. intros y Hy.
      apply ltb_asym. apply ltb_le_lt with (y := ev_timestamp x); auto.
    + constructor; [now apply IH|].
      rewrite Forall_forall in *. intros y Hy.
      apply (Permutation_in _ (Permutation_sym (insert_desc_Permutation r l))) in Hy.
      destruct Hy as [<- | Hy]; auto.
Qed.

Lemma order_by_sorted (l : list expense_view) :
  newest_first (order_by_timestamp_desc l).
Proof.
  induction l as [|r l IH]; cbn [order_by_timestamp_desc fold_right].
  - constructor.
  - now apply insert_desc_sorted.
Qed.

Lemma get_expenses_scope (u : Z) (m : string) (d : db) :
  get_expenses u m d = order_by_timestamp_desc (scope_expenses u m d).
Proof. reflexivity. Qed.

(** Listing commutes with a change that keeps the timestamps. *)
Lemma insert_desc_map (f : expense_view -> expense_view) (r : expense_view)
    (l : list expense_view) :
  (forall v, ev_timestamp (f v) = ev_timestamp v) ->
  insert_desc (f r) (map f l) = map f (insert_desc r l).
Proof.
  intros Hts. induction l as [|x l IH]; cbn [insert_desc map]; [reflexivity|].
  rewrite !Hts. destruct (String.ltb (ev_timestamp x) (ev_timestamp r)).
  - reflexivity.
  - cbn [map]. now rewrite IH.
Qed.

Lemma order_by_map (f : expense_view -> expense_view) (l : list expense_view) :
  (forall v, ev_timestamp (f v) = ev_timestamp v) ->
  order_by_timestamp_desc (map f l) = map f (order_by_timestamp_desc l).
Proof.
  intros Hts. induction l as [|r l IH]; cbn [order_by_timestamp_desc fold_right map];
    [reflexivity|].
  fold (order_by_timestamp_desc (map f l)). fold (order_by_timestamp_desc l).
  rewrite IH. now apply insert_desc_map.
Qed.

(** Listing commutes with dropping rows. *)
Lemma insert_desc_filter (p : expense_view -> bool) (r : expense_view)
    (l : list expense_view) :
  newest_first l ->
  filter p (insert_desc r l)
  = if p r then insert_desc r (filter p l) else filter p l.
Proof.
  unfold newest_first.
  induction l as [|x l IH]; cbn [insert_desc filter]; intros Hs.
  - destruct (p r); reflexivity.
  - apply StronglySorted_inv in Hs. destruct Hs as [Hl Hx].
    destruct (String.ltb (ev_timestamp x) (ev_timestamp r)) eqn:E.
    + cbn [filter]. destruct (p r) eqn:Er; [|reflexivity].
      destruct (p x) eqn:Ex.
      * cbn [insert_desc]. now rewrite E.
      * destruct (filter p l) as [|y rest] eqn:Hf; [reflexivity|].
        cbn [insert_desc].
        assert (Hy : In y l).
        { assert (H : In y (filter p l)) by (rewrite Hf; now left).
          apply filter_In in H. tauto. }
        rewrite Forall_forall in Hx.
        now rewrite (ltb_le_lt _ _ _ E (Hx y Hy)).
    + cbn [filter]. rewrite (IH Hl).
      destruct (p x) eqn:Ex; destruct (p r) eqn:Er; try reflexivity.
      cbn [insert_desc]. now rewrite E.
Qed.

Lemma order_by_filter (p : expense_view -> bool) (l : list expense_view) :
  order_by_timestamp_desc (filter p l) = filter p (order_by_timestamp_desc l).
Proof.
  induction l as [|r l IH]; [reflexivity|].
  cbn [filter]. change (order_by_timestamp_desc (r :: l))
    with (insert_desc r (order_by_timestamp_desc l)).
  rewrite (insert_desc_filter p r _ (order_by_sorted l)), <- IH.
  destruct (p r); reflexivity.
Qed.

Lemma filter_map_commute {X Y : Type} (f : X -> Y) (p : Y -> bool) (l : list X) :
  filter p (map f l) = map f (filter (fun x => p (f x)) l).
Proof.
  induction l as [|x l IH]; cbn [map filter]; [reflexivity|].
  destruct (p (f x)); cbn [map]; now rewrite IH.
Qed.

Lemma filter_comm {X : Type} (p q : X -> bool) (l : list X) :
  filter p (filter q l) = filter q (filter p l).
Proof.
  induction l as [|x l IH]; cbn [filter]; [reflexivity|].
  destruct (p x) eqn:Ep, (q x) eqn:Eq; cbn [filter];
    rewrite ?Ep, ?Eq, IH; reflexivity.
Qed.

(** X2.  [get_expenses] lists exactly the expense rows of the given user and
    month, each once, and no listed row is followed by one with a later
    timestamp. *)
Theorem get_expenses_newest_first (u : Z) (m : string) (d : db) :
  Permutation (scope_expenses u m d) (get_expenses u m d) /\
  newest_first (get_expenses u m d) /\
  (forall v, In v (get_expenses u m d) <->
             exists r, In r (expenses d) /\ e_user_id r = u /\ e_month r = m /\
                       v = view_of r).
Proof.
  rewrite get_expenses_scope.
  split; [apply order_by_Permutation|]. split; [apply order_by_sorted|].
  intros v. split.
  - intros Hin.
    apply (Permutation_in _ (Permutation_sym (order_by_Permutation _))) in Hin.
    unfold scope_expenses in Hin. apply in_map_iff in Hin.
    destruct Hin as (r & <- & Hr). apply filter_In in Hr. destruct Hr as [Hr Hs].
    unfold in_scope in Hs. apply andb_true_iff in Hs. destruct Hs as [Hu Hm].
    apply Z.eqb_eq in Hu. apply String.eqb_eq in Hm. exists r. auto.
  - intros (r & Hr & Hu & Hm & ->).
    apply (Permutation_in _ (order_by_Permutation _)).
    unfold scope_expenses. apply in_map. apply filter_In. split; [exact Hr|].
    unfold in_scope. rewrite Hu, Hm, Z.eqb_refl, String.eqb_refl. reflexivity.
Qed.

End Listing.

Section StoreRoundTrips.

Import Database.

Lemma get_budget_category (u : Z) (m c : string) (d : db) :
  filter (fun v => String.eqb (bv_category v) c) (get_budget u m d)
  = map (fun r => {| bv_category := b_category r; bv_amount := b_amount r |})
        (entries_for (u, m, c) d).
Proof.
  unfold get_budget, entries_for.
  rewrite filter_map_commute, filter_filter_andb. f_equal.
  apply filter_ext. intros r. cbn [bv_category].
  unfold conflicts, key_eqb, budget_key.
  destruct (b_user_id r =? u)%Z, (String.eqb (b_month r) m),
    (String.eqb (b_category r) c); reflexivity.
Qed.

Lemma entries_for_category (k : Z * string * string) (d : db) (r : budget_row) :
  In r (entries_for k d) -> budget_key r = k.
Proof.
  unfold entries_for. intros Hin. apply filter_In in Hin.
  now apply conflicts_key.
Qed.

(** X1.  After [save_budget] on a store whose budget keys are distinct,
    [get_budget] for that user and month lists the category exactly once,
    with the amount just saved; its rows for the other categories, and the
    whole listing of any other user or month, are as before. *)
Theorem get_budget_after_save (d : db) (u : Z) (m c : string) (a : Q) :
  unique_budget_keys d ->
  let d1 := snd (save_budget u m c a d) in
  filter (fun v => String.eqb (bv_category v) c) (get_budget u m d1)
  = [{| bv_category := c; bv_amount := a |}] /\
  (forall c', c' <> c ->
     filter (fun v => String.eqb (bv_category v) c') (get_budget u m d1)
     = filter (fun v => String.eqb (bv_category v) c') (get_budget u m d)) /\
  (forall u' m', u' <> u \/ m' <> m -> get_budget u' m' d1 = get_budget u' m' d).
Proof.
  intros Hnd d1.
  assert (Hother : forall (other : budget_row -> bool),
             (forall r, conflicts (u, m, c) r = true -> other r = false) ->
             filter other (budgets d1) = filter other (budgets d)).
  { intros other Hexcl. subst d1. rewrite save_budget_budgets.
    apply filter_other_upsert.
    - intros r Hr. split; [now apply Hexcl|]. apply Hexcl. exact Hr.
    - apply Hexcl. now apply key_eqb_eq. }
  split; [|split].
  - rewrite get_budget_category.
    pose proof (save_budget_entries u m c a d Hnd) as Hamt. fold d1 in Hamt.
    destruct (entries_for (u, m, c) d1) as [|r [|r' rest]] eqn:He;
      try discriminate Hamt.
    assert (Hk : budget_key r = (u, m, c)).
    { apply (entries_for_category _ d1). rewrite He. now left. }
    cbn [map] in *. injection Hamt as ->.
    unfold budget_key in Hk. injection Hk as _ _ ->. reflexivity.
  - intros c' Hc'. rewrite !get_budget_category. unfold entries_for.
    rewrite Hother; [reflexivity|].
    intros r Hr. apply (conflicts_other (u, m, c)); [congruence|exact Hr].
  - intros u' m' Hne. unfold get_budget. rewrite Hother; [reflexivity|].
    intros r Hr. apply conflicts_key in Hr. unfold budget_key in Hr.
    injection Hr as Hu Hm _.
    destruct ((b_user_id r =? u')%Z && String.eqb (b_month r) m') eqn:E;
      [|reflexivity].
    apply andb_true_iff in E. destruct E as [E1 E2].
    apply Z.eqb_eq in E1. apply String.eqb_eq in E2.
    exfalso. destruct Hne; congruence.
Qed.

Lemma scope_expenses_app (u : Z) (m : string) (d : db) (rows : list expense_row)
    (s : Z) :
  scope_expenses u m (with_expenses d (expenses d ++ rows) s)
  = (scope_expenses u m d ++ map view_of (filter (in_scope u m) rows))%list.
Proof.
  unfold scope_expenses. cbn [expenses with_expenses].
  now rewrite filter_app, map_app.
Qed.

Lemma add_expense_listing (d : db) (u : Z) (m c : string) (a : Q) (now : string) :
  Permutation
    ({| ev_id := expenses_seq d + 1; ev_category := c; ev_amount := a;
        ev_timestamp := now |} :: get_expenses u m d)
    (get_expenses u m (snd (add_expense u m c a now d))).
Proof.
  rewrite !get_expenses_scope. unfold add_expense. cbn [snd].
  rewrite scope_expenses_app. cbn [filter]. unfold in_scope.
  cbn [e_user_id e_month].
  rewrite Z.eqb_refl, String.eqb_refl. cbn [andb map].
  eapply Permutation_trans; [|apply order_by_Permutation].
  eapply Permutation_trans; [|apply Permutation_cons_append].
  constructor. apply Permutation_sym, order_by_Permutation.
Qed.

(** X3.  In a state the application can reach, [add_expense] gives the new row
    an id greater than every id in the store, so ids stay unique; the listing
    of its user and month gains exactly that row, the listings of every other
    user or month and the budget rows are unchanged. *)
Theorem add_expense_fresh_listed
    (d : db) (u : Z) (m c : string) (a : Q) (now : string) :
  reachable d ->
  let d1 := snd (add_expense u m c a now d) in
  let v := {| ev_id := expenses_seq d + 1; ev_category := c; ev_amount := a;
              ev_timestamp := now |} in
  Forall (fun r => (e_id r < ev_id v)%Z) (expenses d) /\
  present (ev_id v) d = false /\
  unique_expense_ids d1 /\
  Permutation (v :: get_expenses u m d) (get_expenses u m d1) /\
  (forall u' m', u' <> u \/ m' <> m -> get_expenses u' m' d1 = get_expenses u' m' d) /\
  budgets d1 = budgets d.
Proof.
  intros Hreach d1 v.
  destruct (reachable_invariants d Hreach) as (_ & _ & Hseq).
  assert (Hlt : Forall (fun r => (e_id r < ev_id v)%Z) (expenses d)).
  { eapply Forall_impl; [|exact Hseq]. cbn. intros r Hr. lia. }
  split; [exact Hlt|]. split.
  { destruct (present (ev_id v) d) eqn:E; [|reflexivity].
    apply present_In in E. apply in_map_iff in E. destruct E as (r & Hid & Hr).
    rewrite Forall_forall in Hlt. specialize (Hlt r Hr). lia. }
  split.
  { apply (reachable_invariants d1). subst d1. now constructor. }
  split; [|split; [|reflexivity]].
  - apply add_expense_listing.
  - intros u' m' Hne. rewrite !get_expenses_scope. subst d1.
    unfold add_expense. cbn [snd]. rewrite scope_expenses_app.
    cbn [filter]. unfold in_scope. cbn [e_user_id e_month].
    assert (E : (u =? u')%Z && String.eqb m m' = false).
    { destruct ((u =? u')%Z && String.eqb m m') eqn:E; [|reflexivity].
      apply andb_true_iff in E. destruct E as [E1 E2].
      apply Z.eqb_eq in E1. apply String.eqb_eq in E2.
      exfalso. destruct Hne; congruence. }
    rewrite E. cbn [map]. now rewrite app_nil_r.
Qed.

(** X4.  [update_expense] changes the amount of the row with the given id in
    every listing and nothing else: the rows keep their order.  It does not
    add or remove an id, and of two updates of one id the later amount
    stands. *)
Theorem update_expense_listing (d : db) (id : Z) (a a' : Q) (u : Z) (m : string) :
  get_expenses u m (snd (update_expense id a d))
  = map (fun v => if (ev_id v =? id)%Z then set_ev_amount v a else v)
        (get_expenses u m d) /\
  (forall id', present id' (snd (update_expense id a d)) = present id' d) /\
  snd (update_expense id a (snd (update_expense id a' d)))
  = snd (update_expense id a d) /\
  budgets (snd (update_expense id a d)) = budgets d.
Proof.
  split; [|split; [|split; [|reflexivity]]].
  - rewrite !get_expenses_scope.
    rewrite <- order_by_map by (intros v; destruct (ev_id v =? id)%Z; reflexivity).
    f_equal. unfold scope_expenses, update_expense. cbn [snd expenses with_expenses].
    induction (expenses d) as [|r rows IH]; cbn [map filter]; [reflexivity|].
    assert (Hs : in_scope u m (if (e_id r =? id)%Z then set_e_amount r a else r)
                 = in_scope u m r)
      by (destruct (e_id r =? id)%Z; reflexivity).
    rewrite Hs. destruct (in_scope u m r); [|exact IH].
    cbn [map]. rewrite IH. f_equal.
    unfold view_of at 2. cbn [ev_id].
    destruct (e_id r =? id)%Z; reflexivity.
  - intros id'. unfold present, update_expense. cbn [snd expenses with_expenses].
    induction (expenses d) as [|r rows IH]; cbn [map existsb]; [reflexivity|].
    rewrite IH. f_equal. destruct (e_id r =? id)%Z; reflexivity.
  - unfold update_expense, with_expenses. cbn. f_equal.
    rewrite map_map. apply map_ext. intros r.
    destruct (e_id r =? id)%Z eqn:E; cbn [set_e_amount e_id]; rewrite E; reflexivity.
Qed.

(** X5.  After [delete_expense] the id is no longer in the store, every
    listing is the former one without the row of that id, and deleting again
    changes nothing.  In a state the application can reach, an expense added
    after the deletion does not get the deleted id back. *)
Theorem delete_expense_listing (d : db) (id : Z) (u : Z) (m : string) :
  present id (snd (delete_expense id d)) = false /\
  get_expenses u m (snd (delete_expense id d))
  = filter (fun v => negb (ev_id v =? id)%Z) (get_expenses u m d) /\
  snd (delete_expense id (snd (delete_expense id d))) = snd (delete_expense id d) /\
  budgets (snd (delete_expense id d)) = budgets d /\
  (reachable d -> present id d = true ->
   forall u' m' c a now,
     present id (snd (add_expense u' m' c a now (snd (delete_expense id d)))) = false).
Proof.
  assert (Hgone : present id (snd (delete_expense id d)) = false).
  { unfold present, delete_expense. cbn [snd expenses with_expenses].
    induction (expenses d) as [|r rows IH]; cbn [filter existsb]; [reflexivity|].
    destruct (e_id r =? id)%Z eqn:E; cbn [negb]; [exact IH|].
    cbn [existsb]. now rewrite E, IH. }
  split; [exact Hgone|]. split; [|split; [|split; [reflexivity|]]].
  - rewrite !get_expenses_scope, <- order_by_filter. f_equal.
    unfold scope_expenses, delete_expense. cbn [snd expenses with_expenses].
    rewrite filter_map_commute. f_equal. apply filter_comm.
  - unfold delete_expense, with_expenses. cbn. f_equal.
    induction (expenses d) as [|r rows IH]; cbn [filter]; [reflexivity|].
    destruct (negb (e_id r =? id)%Z) eqn:E; [|exact IH].
    cbn [filter]. rewrite E. now f_equal.
  - intros Hreach Hpres u' m' c a now.
    destruct (reachable_invariants d Hreach) as (_ & _ & Hseq).
    apply present_In in Hpres. apply in_map_iff in Hpres.
    destruct Hpres as (r & Hid & Hr).
    rewrite Forall_forall in Hseq. specialize (Hseq r Hr).
    unfold present, add_expense. cbn [snd expenses with_expenses].
    rewrite existsb_app. fold (present id (snd (delete_expense id d))).
    rewrite Hgone. cbn [existsb e_id orb expenses_seq delete_expense snd with_expenses].
    rewrite orb_false_r. apply Z.eqb_neq. lia.
Qed.

End StoreRoundTrips.

(** ** Accounts *)

Section Accounts.

Import Users.

Lemma fetchone_None (email : string) (t : table) :
  fetchone email t = None <->
  existsb (fun r => String.eqb (u_email r) email) (rows t) = false.
Proof.
  unfold fetchone. induction (rows t) as [|r l IH]; cbn [find existsb].
  - tauto.
  - destruct (String.eqb (u_email r) email); cbn [orb]; [|exact IH].
    split; discriminate.
Qed.

Lemma fetchone_email (email : string) (t : table) (row : user_row) :
  fetchone email t = Some row -> In row (rows t) /\ u_email row = email.
Proof.
  unfold fetchone. intros Hf. apply find_some in Hf.
  destruct Hf as [Hin He]. apply String.eqb_eq in He. auto.
Qed.

Lemma get_user_id_None (email : string) (t : table) :
  get_user_id email t = None <-> fetchone email t = None.
Proof.
  unfold get_user_id. destruct (fetchone email t); split; congruence.
Qed.

Lemma find_app_miss {X : Type} (p : X -> bool) (l l' : list X) :
  find p l = None -> find p (l ++ l') = find p l'.
Proof.
  induction l as [|x l IH]; cbn [find app]; [reflexivity|].
  destruct (p x); [discriminate|exact IH].
Qed.

Lemma find_app_hit {X : Type} (p : X -> bool) (l l' : list X) (x : X) :
  find p l = Some x -> find p (l ++ l') = Some x.
Proof.
  induction l as [|y l IH]; cbn [find app]; [discriminate|].
  destruct (p y); [tauto|exact IH].
Qed.

Lemma create_user_fetch_other (email hashed email' : string) (t : table) :
  email' <> email ->
  fetchone email' (snd (create_user email hashed t)) = fetchone email' t.
Proof.
  intros Hne. unfold create_user.
  destruct (existsb _ (rows t)); [reflexivity|].
  unfold fetchone. cbn [snd rows].
  destruct (find (fun r => String.eqb (u_email r) email') (rows t)) as [row|] eqn:E.
  - now apply find_app_hit.
  - rewrite (find_app_miss _ _ _ E). cbn [find u_email].
    apply String.eqb_neq in Hne. rewrite String.eqb_sym in Hne. now rewrite Hne.
Qed.

Lemma users_invariants (t : table) :
  users_reachable t ->
  NoDup (map u_email (rows t)) /\
  NoDup (map u_id (rows t)) /\
  Forall (fun r => (u_id r <= seq t)%Z) (rows t).
Proof.
  induction 1 as [| t email hashed _ (IHe & IHi & IHs)].
  - repeat split; constructor.
  - unfold create_user.
    destruct (existsb (fun r => String.eqb (u_email r) email) (rows t)) eqn:E;
      cbn [snd rows seq]; [now repeat split|].
    split; [|split].
    + rewrite map_app. cbn [map u_email].
      apply NoDup_app; [exact IHe|repeat constructor; intros []|].
      intros x Hx [<- | []].
      apply in_map_iff in Hx. destruct Hx as (r & Hr & Hin).
      assert (Hex : existsb (fun r => String.eqb (u_email r) email) (rows t) = true).
      { apply existsb_exists. exists r. split; [exact Hin|]. now apply String.eqb_eq. }
      congruence.
    + rewrite map_app. cbn [map u_id].
      apply NoDup_app; [exact IHi|repeat constructor; intros []|].
      intros x Hx [<- | []].
      apply in_map_iff in Hx. destruct Hx as (r & Hr & Hin).
      rewrite Forall_forall in IHs. specialize (IHs r Hin). lia.
    + apply Forall_app. split.
      * eapply Forall_impl; [|exact IHs]. cbn. intros r Hr. lia.
      * repeat constructor. cbn. lia.
Qed.

(** X6.  [create_user] refuses an email that is already registered: it
    returns [False] and leaves the table as it was.  For a new email it
    returns [True] and registers it under an id no other account has; the
    other accounts are found as before.  So no two accounts share an email
    or an id. *)
Theorem create_user_unique_email (t : table) (email hashed : string) :
  users_reachable t ->
  let t1 := snd (create_user email hashed t) in
  (get_user_id email t <> None -> create_user email hashed t = (false, t)) /\
  (get_user_id email t = None ->
   fst (create_user email hashed t) = true /\
   fetchone email t1
   = Some {| u_id := seq t + 1; u_email := email; u_password := hashed |} /\
   forall email' id, get_user_id email' t = Some id -> (id < seq t + 1)%Z) /\
  (forall email', email' <> email -> fetchone email' t1 = fetchone email' t) /\
  NoDup (map u_email (rows t1)) /\
  NoDup (map u_id (rows t1)).
Proof.
  intros Hreach t1.
  split; [|split; [|split]].
  - intros Hsome. unfold create_user.
    destruct (existsb (fun r => String.eqb (u_email r) email) (rows t)) eqn:E;
      [reflexivity|].
    exfalso. apply Hsome. apply get_user_id_None. now apply fetchone_None.
  - intros Hnone. apply get_user_id_None in Hnone.
    pose proof (proj1 (fetchone_None email t) Hnone) as E.
    subst t1. unfold create_user. rewrite E. cbn [fst snd].
    split; [reflexivity|]. split.
    + unfold fetchone in *. cbn [rows]. rewrite (find_app_miss _ _ _ Hnone).
      cbn [find u_email]. now rewrite String.eqb_refl.
    + intros email' id Hid. unfold get_user_id in Hid.
      destruct (fetchone email' t) as [row|] eqn:Hf; [|discriminate].
      injection Hid as <-. apply fetchone_email in Hf.
      destruct (users_invariants t Hreach) as (_ & _ & Hs).
      rewrite Forall_forall in Hs. specialize (Hs row (proj1 Hf)). lia.
  - intros email' Hne. now apply create_user_fetch_other.
  - assert (Hr1 : users_reachable t1) by (subst t1; now constructor).
    destruct (users_invariants t1 Hr1) as (He & Hi & _). now split.
Qed.

(** X7.  Given that [bcrypt.checkpw] accepts a password against its own
    [bcrypt.hashpw] hash: after a sign-up with a new email, logging in with
    that email succeeds exactly for the passwords the stored hash accepts,
    the sign-up password among them; a second sign-up with the same email is
    refused and changes nothing, whatever its password; logins of the other
    emails are as before.  An email that is not registered never logs in. *)
Theorem signup_then_login
    (checkpw : string -> string -> bool) (hashpw : string -> string -> string)
    (salt email password : string) (t : table) :
  (forall p s, checkpw p (hashpw p s) = true) ->
  get_user_id email t = None ->
  let t1 := snd (signup hashpw salt email password t) in
  (forall p, login checkpw email p t = false) /\
  fst (signup hashpw salt email password t) = true /\
  login checkpw email password t1 = true /\
  (forall p, login checkpw email p t1 = checkpw p (hashpw password salt)) /\
  (forall salt' p, signup hashpw salt' email p t1 = (false, t1)) /\
  (forall email' p, email' <> email ->
     login checkpw email' p t1 = login checkpw email' p t).
Proof.
  intros Hbcrypt Hnone t1.
  apply get_user_id_None in Hnone.
  pose proof (proj1 (fetchone_None email t) Hnone) as E.
  assert (Hrow : fetchone email t1
                 = Some {| u_id := seq t + 1; u_email := email;
                           u_password := hashpw password salt |}).
  { subst t1. unfold signup, create_user. rewrite E. cbn [snd].
    unfold fetchone in *. cbn [rows]. rewrite (find_app_miss _ _ _ Hnone).
    cbn [find u_email]. now rewrite String.eqb_refl. }
  assert (Hlogin : forall p, login checkpw email p t1 = checkpw p (hashpw password salt)).
  { intros p. unfold login, authenticate_user. rewrite Hrow. cbn [u_password].
    destruct (checkpw p (hashpw password salt)); reflexivity. }
  split; [|split; [|split; [|split; [|split]]]].
  - intros p. unfold login, authenticate_user. now rewrite Hnone.
  - unfold signup, create_user. now rewrite E.
  - rewrite Hlogin. apply Hbcrypt.
  - exact Hlogin.
  - intros salt' p. unfold signup, create_user.
    assert (E1 : existsb (fun r => String.eqb (u_email r) email) (rows t1) = true).
    { destruct (existsb _ (rows t1)) eqn:E1; [reflexivity|].
      apply fetchone_None in E1. congruence. }
    now rewrite E1.
  - intros email' p Hne. unfold login, authenticate_user. subst t1. unfold signup.
    now rewrite create_user_fetch_other.
Qed.

End Accounts.

(** ** The pages of the SQLite-backed application *)

Section AppPages.

Import Database.

Lemma save_budget_filter_other (u : Z) (m c : string) (a : Q) (d : db)
    (other : budget_row -> bool) :
  (forall r, budget_key r = (u, m, c) -> other r = false) ->
  filter other (budgets (snd (save_budget u m c a d))) = filter other (budgets d).
Proof.
  intros Hexcl. rewrite save_budget_budgets. apply filter_other_upsert.
  - intros r Hr. apply conflicts_key in Hr. split; now apply Hexcl.
  - now apply Hexcl.
Qed.

Lemma set_budget_page_cons (u : Z) (m c : string) (a : Q)
    (rest : list (string * Q)) (d : db) :
  App.set_budget_page u m ((c, a) :: rest) d
  = App.set_budget_page u m rest
      (if Py.gt a 0 then snd (save_budget u m c a d) else d).
Proof. reflexivity. Qed.

Lemma set_budget_page_expenses (u : Z) (m : string) (inputs : list (string * Q))
    (d : db) :
  expenses (App.set_budget_page u m inputs d) = expenses d.
Proof.
  revert d. induction inputs as [|[c a] rest IH]; intros d; [reflexivity|].
  rewrite set_budget_page_cons, IH.
  destruct (Py.gt a 0); [apply save_budget_expenses|reflexivity].
Qed.

Lemma set_budget_page_unique (u : Z) (m : string) (inputs : list (string * Q))
    (d : db) :
  unique_budget_keys d -> unique_budget_keys (App.set_budget_page u m inputs d).
Proof.
  revert d. induction inputs as [|[c a] rest IH]; intros d Hnd; [exact Hnd|].
  rewrite set_budget_page_cons. apply IH.
  destruct (Py.gt a 0); [now apply save_budget_unique|exact Hnd].
Qed.

Lemma set_budget_page_filter_other (u : Z) (m : string)
    (inputs : list (string * Q)) (d : db) (other : budget_row -> bool) :
  (forall c r, In c (map fst inputs) -> budget_key r = (u, m, c) -> other r = false) ->
  filter other (budgets (App.set_budget_page u m inputs d)) = filter other (budgets d).
Proof.
  revert d. induction inputs as [|[c a] rest IH]; intros d Hexcl; [reflexivity|].
  rewrite set_budget_page_cons, IH.
  - destruct (Py.gt a 0); [|reflexivity].
    apply save_budget_filter_other. intros r Hr.
    apply (Hexcl c); [now left|exact Hr].
  - intros c' r Hc'. apply Hexcl. now right.
Qed.

Lemma entries_for_untouched (u : Z) (m : string) (inputs : list (string * Q))
    (d : db) (k : Z * string * string) :
  (forall c, In c (map fst inputs) -> k <> (u, m, c)) ->
  entries_for k (App.set_budget_page u m inputs d) = entries_for k d.
Proof.
  intros Hk. unfold entries_for. apply set_budget_page_filter_other.
  intros c r Hc Hr.
  destruct (conflicts k r) eqn:E; [|reflexivity].
  apply conflicts_key in E. exfalso. apply (Hk c Hc). congruence.
Qed.

(** X8.  The "Set Budget" page saves the amounts that are positive and skips
    the others.  With distinct categories selected, on a store with distinct
    budget keys: a category entered with a positive amount ends with exactly
    that amount; a category entered with zero keeps whatever entry it had, so
    a budget cannot be set back to zero; every other key and all expenses are
    untouched, and the keys stay distinct. *)
Theorem set_budget_page_saves_positive
    (d : db) (u : Z) (m : string) (inputs : list (string * Q)) :
  unique_budget_keys d ->
  NoDup (map fst inputs) ->
  let d1 := App.set_budget_page u m inputs d in
  unique_budget_keys d1 /\
  (forall c a, In (c, a) inputs -> 0 < a ->
     map b_amount (entries_for (u, m, c) d1) = [a]) /\
  (forall c a, In (c, a) inputs -> a <= 0 ->
     entries_for (u, m, c) d1 = entries_for (u, m, c) d) /\
  (forall k, (forall c, In c (map fst inputs) -> k <> (u, m, c)) ->
     entries_for k d1 = entries_for k d) /\
  expenses d1 = expenses d.
Proof.
  intros Hnd Hdistinct d1.
  split; [now apply set_budget_page_unique|].
  split; [|split; [|split; [intros k Hk; now apply entries_for_untouched
                           |apply set_budget_page_expenses]]].
  - subst d1. revert d Hnd.
    induction inputs as [|[c0 a0] rest IH]; intros d Hnd c a Hin Hpos;
      [contradiction|].
    cbn [map fst] in Hdistinct. inversion Hdistinct as [|? ? Hnotin Hrest]; subst.
    rewrite set_budget_page_cons.
    destruct Hin as [Heq | Hin].
    + injection Heq as -> ->.
      apply gt_true in Hpos. rewrite Hpos.
      rewrite entries_for_untouched.
      * now apply save_budget_entries.
      * intros c' Hc' Hk. injection Hk as <-. contradiction.
    + apply IH; try assumption.
      destruct (Py.gt a0 0); [now apply save_budget_unique|exact Hnd].
  - subst d1. revert d Hnd.
    induction inputs as [|[c0 a0] rest IH]; intros d Hnd c a Hin Hle;
      [contradiction|].
    cbn [map fst] in Hdistinct. inversion Hdistinct as [|? ? Hnotin Hrest]; subst.
    rewrite set_budget_page_cons.
    destruct Hin as [Heq | Hin].
    + injection Heq as -> ->.
      apply gt_false in Hle. rewrite Hle.
      apply entries_for_untouched.
      intros c' Hc' Hk. injection Hk as <-. contradiction.
    + assert (Hnd' : unique_budget_keys
                         (if Py.gt a0 0 then snd (save_budget u m c0 a0 d) else d))
        by (destruct (Py.gt a0 0); [now apply save_budget_unique|exact Hnd]).
      rewrite (IH Hrest _ Hnd' c a Hin Hle).
      destruct (Py.gt a0 0); [|reflexivity].
      unfold entries_for. apply save_budget_filter_other.
      intros r Hr. destruct (conflicts (u, m, c) r) eqn:E; [|reflexivity].
      apply conflicts_key in E. exfalso. apply Hnotin.
      assert (Hc : c0 = c) by congruence. subst c0.
      apply in_map_iff. exists (c, a). auto.
Qed.

Lemma get_budget_In (u : Z) (m c : string) (d : db) :
  In c (map bv_category (get_budget u m d)) ->
  exists b, In b (budgets d) /\ b_user_id b = u /\ b_month b = m /\ b_category b = c.
Proof.
  unfold get_budget. rewrite map_map. cbn [bv_category]. intros Hin.
  apply in_map_iff in Hin. destruct Hin as (b & Hc & Hb).
  apply filter_In in Hb. destruct Hb as [Hb Hs].
  apply andb_true_iff in Hs. destruct Hs as [Hu Hm].
  apply Z.eqb_eq in Hu. apply String.eqb_eq in Hm. exists b. auto.
Qed.

Lemma add_expense_page_cases
    (d : db) (u : Z) (m : string) (choice : nat) (amt : Q) (clicked : bool)
    (now : string) :
  (get_budget u m d = [] ->
   App.add_expense_page u m choice amt clicked now d
   = (App.NoBudget "Please set your monthly budget first.", d)) /\
  (get_budget u m d <> [] ->
   exists cat,
     In cat (map bv_category (get_budget u m d)) /\
     App.add_expense_page u m choice amt clicked now d
     = if clicked
       then (App.Form (map bv_category (get_budget u m d)) true,
             snd (add_expense u m cat amt now d))
       else (App.Form (map bv_category (get_budget u m d)) false, d)).
Proof.
  unfold App.add_expense_page. split.
  - intros E. now rewrite E.
  - intros Hne. destruct (get_budget u m d) as [|first rest] eqn:E; [congruence|].
    exists (nth choice (map bv_category (first :: rest)) (bv_category first)).
    split.
    + destruct (nth_in_or_default choice (map bv_category (first :: rest))
                  (bv_category first)) as [Hin | Hdef]; [exact Hin|].
      rewrite Hdef. now left.
    + destruct clicked; reflexivity.
Qed.

(** X9.  The "Add Expense" page stores nothing while the month has no budget
    row and shows the warning instead.  Otherwise it offers the categories of
    the month's budget rows and, once "Add" is pressed, appends one expense
    of that user and month, with the amount entered, in one of these
    categories, and touches neither the other expenses nor the budget rows;
    without the button the store is unchanged. *)
Theorem add_expense_page_needs_budget
    (d : db) (u : Z) (m : string) (choice : nat) (amt : Q) (clicked : bool)
    (now : string) :
  let d1 := snd (App.add_expense_page u m choice amt clicked now d) in
  (get_budget u m d = [] ->
   App.add_expense_page u m choice amt clicked now d
   = (App.NoBudget "Please set your monthly budget first.", d)) /\
  (get_budget u m d <> [] ->
   fst (App.add_expense_page u m choice amt clicked now d)
   = App.Form (map bv_category (get_budget u m d)) clicked /\
   budgets d1 = budgets d /\
   (clicked = false -> d1 = d) /\
   (clicked = true ->
    exists cat,
      In cat (map bv_category (get_budget u m d)) /\
      expenses d1
      = (expenses d ++ [{| e_id := expenses_seq d + 1; e_user_id := u; e_month := m;
                           e_category := cat; e_amount := amt;
                           e_timestamp := now |}])%list)).
Proof.
  intros d1. destruct (add_expense_page_cases d u m choice amt clicked now)
    as [Hempty Hsome].
  split; [exact Hempty|].
  intros Hne. destruct (Hsome Hne) as (cat & Hcat & Hpage).
  subst d1. rewrite Hpage.
  destruct clicked; cbn [fst snd].
  - split; [reflexivity|]. split; [reflexivity|]. split; [discriminate|].
    intros _. exists cat. split; [exact Hcat|reflexivity].
  - split; [reflexivity|]. split; [reflexivity|]. split; [reflexivity|discriminate].
Qed.

Lemma Forall_upsert {X : Type} (P : X -> Prop) (hit : X -> bool) (upd : X -> X)
    (new : X) (rows : list X) :
  Forall P rows -> P new -> (forall r, hit r = true -> P (upd r)) ->
  Forall P (upsert hit upd new rows).
Proof.
  intros Hrows Hnew Hupd. unfold upsert. destruct (existsb hit rows).
  - apply Forall_map. eapply Forall_impl; [|exact Hrows].
    intros r Hr. destruct (hit r) eqn:E; [now apply Hupd|exact Hr].
  - apply Forall_app. split; [exact Hrows|now repeat constructor].
Qed.

Lemma upsert_keeps_keys {X K : Type} (key : X -> K) (hit : X -> bool)
    (upd : X -> X) (new : X) (rows : list X) (r : X) :
  (forall x, key (upd x) = key x) ->
  In r rows -> exists r', In r' (upsert hit upd new rows) /\ key r' = key r.
Proof.
  intros Hkey Hin. unfold upsert. destruct (existsb hit rows).
  - exists (if hit r then upd r else r). split.
    + apply in_map_iff. now exists r.
    + destruct (hit r); [apply Hkey|reflexivity].
  - exists r. split; [apply in_or_app; now left|reflexivity].
Qed.

Lemma covered_save_budget (d : db) (u : Z) (m c : string) (a : Q) (e : expense_row) :
  covered d e -> covered (snd (save_budget u m c a d)) e.
Proof.
  intros (b & Hb & Hu & Hm & Hc). unfold covered. rewrite save_budget_budgets.
  destruct (upsert_keeps_keys budget_key (conflicts (u, m, c))
              (fun r => set_b_amount r a)
              {| b_id := budgets_seq d + 1; b_user_id := u; b_month := m;
                 b_category := c; b_amount := a |}
              (budgets d) b (fun x => eq_refl) Hb) as (b' & Hb' & Hk).
  exists b'. split; [exact Hb'|].
  unfold budget_key in Hk. injection Hk as Hu' Hm' Hc'.
  repeat split; congruence.
Qed.

(** What the pages keep true of the store. *)
Lemma app_invariants_core (d : db) :
  app_reachable d ->
  Forall (fun b => 0 < b_amount b /\ In (b_category b) known_categories) (budgets d) /\
  Forall (covered d) (expenses d) /\
  reachable d.
Proof.
  induction 1 as [| d u m inputs _ (IHb & IHe & IHr) Hinputs
                  | d u m choice amt clicked now _ (IHb & IHe & IHr)
                  | d id a _ (IHb & IHe & IHr) | d id _ (IHb & IHe & IHr)].
  - repeat split; constructor.
  - revert d IHb IHe IHr.
    induction inputs as [|[c a] rest IH]; intros d IHb IHe IHr; [now repeat split|].
    apply Forall_cons_iff in Hinputs. destruct Hinputs as [Hc Hrest].
    rewrite set_budget_page_cons. apply IH; [exact Hrest| | |].
    + destruct (Py.gt a 0) eqn:E; [|exact IHb].
      rewrite save_budget_budgets. apply Forall_upsert; [exact IHb| |].
      * cbn. split; [now apply gt_true|exact Hc].
      * intros r Hr. cbn. split; [now apply gt_true|].
        apply conflicts_key in Hr. unfold budget_key in Hr.
        injection Hr as _ _ ->. exact Hc.
    + destruct (Py.gt a 0); [|exact IHe].
      destruct (save_budget_expenses u m c a d) as [-> _].
      eapply Forall_impl; [|exact IHe].
      intros e He. now apply covered_save_budget.
    + destruct (Py.gt a 0); [now constructor|exact IHr].
  - destruct (add_expense_page_cases d u m choice amt clicked now)
      as [Hempty Hsome].
    destruct (get_budget u m d) as [|first rest] eqn:E.
    + rewrite (Hempty eq_refl). now repeat split.
    + destruct Hsome as (cat & Hcat & ->); [discriminate|].
      destruct clicked; cbn [snd]; [|now repeat split].
      split; [exact IHb|]. split; [|now constructor].
      cbn [add_expense snd expenses with_expenses]. apply Forall_app. split.
      * exact IHe.
      * repeat constructor. rewrite <- E in Hcat.
        destruct (get_budget_In u m cat d Hcat) as (b & Hb & Hu & Hm & Hc).
        exists b. cbn. auto.
  - split; [exact IHb|]. split; [|now constructor].
    cbn [update_expense snd expenses with_expenses]. apply Forall_map.
    eapply Forall_impl; [|exact IHe].
    intros e (b & Hb & Hu & Hm & Hc). exists b.
    destruct (e_id e =? id)%Z; cbn; auto.
  - split; [exact IHb|]. split; [|now constructor].
    cbn [delete_expense snd expenses with_expenses].
    rewrite Forall_forall in *. intros e He. apply filter_In in He.
    destruct (IHe e (proj1 He)) as (b & Hb & Hu & Hm & Hc). exists b. auto.
Qed.

Lemma known_Wants (c : string) :
  In c known_categories -> classify c = "Wants" -> c = "Entertainment".
Proof.
  unfold known_categories. cbn [In]. intros H.
  repeat (destruct H as [<- | H]; [cbv; congruence|]). contradiction.
Qed.

(** X10.  In every state the pages can bring the store to: each budget row
    has a positive amount and one of the ten categories of the form; each
    expense has a budget row of its own user, month and category, hence one
    of the ten categories, so that the report's default branch to Wants is
    never the one that classifies it; budget keys and expense ids are
    unique. *)
Theorem app_store_invariants (d : db) :
  app_reachable d ->
  Forall (fun b => 0 < b_amount b /\ In (b_category b) known_categories) (budgets d) /\
  Forall (covered d) (expenses d) /\
  Forall (fun e => In (e_category e) known_categories) (expenses d) /\
  (forall e, In e (expenses d) -> classify (e_category e) = "Wants" ->
             e_category e = "Entertainment") /\
  unique_budget_keys d /\
  unique_expense_ids d.
Proof.
  intros Happ. destruct (app_invariants_core d Happ) as (Hb & He & Hr).
  assert (Hknown : Forall (fun e => In (e_category e) known_categories) (expenses d)).
  { rewrite Forall_forall in *. intros e Hin.
    destruct (He e Hin) as (b & Hbin & _ & _ & <-). now apply Hb. }
  split; [exact Hb|]. split; [exact He|]. split; [exact Hknown|]. split.
  - intros e Hin. apply known_Wants. rewrite Forall_forall in Hknown. now apply Hknown.
  - destruct (reachable_invariants d Hr) as (Hk & Hi & _). now split.
Qed.

End AppPages.

(** ** More on the flat-file application *)

Section FlatBudgetPage.

Import FlatFile.

Lemma existsb_as_filter {X : Type} (p : X -> bool) (l : list X) :
  existsb p l = match filter p l with [] => false | _ :: _ => true end.
Proof.
  induction l as [|x l IH]; cbn [existsb filter]; [reflexivity|].
  destruct (p x); [reflexivity|exact IH].
Qed.

Lemma flat_hit_other (c c' : string) (r : flat_row) :
  c' <> c -> flat_hit c r = true -> flat_hit c' r = false.
Proof.
  unfold flat_hit. intros Hne Hr. apply andb_true_iff in Hr. destruct Hr as [Hc _].
  apply String.eqb_eq in Hc. apply String.eqb_neq in Hne.
  rewrite Hc, String.eqb_sym, Hne. reflexivity.
Qed.

Lemma flat_filter_other_category (c c' : string) (a : Q) (cur : list flat_row) :
  c' <> c ->
  filter (flat_hit c') (set_monthly_budget [(c, a)] cur) = filter (flat_hit c') cur.
Proof.
  intros Hne. rewrite set_monthly_budget_one. apply filter_other_upsert.
  - intros r Hr. split; now apply (flat_hit_other c).
  - unfold flat_hit. cbn. apply String.eqb_neq in Hne.
    rewrite String.eqb_sym, Hne. reflexivity.
Qed.

Lemma flat_step_as_single (S cur : list flat_row) (c : string) (a : Q) :
  existsb (flat_hit c) S = existsb (flat_hit c) cur ->
  set_budget_step S cur (c, a) = set_monthly_budget [(c, a)] cur.
Proof.
  intros E. rewrite set_monthly_budget_one. unfold set_budget_step, upsert.
  change (fun r : flat_row =>
            (f_category r =? c)%string && (f_type r =? "budget")%string)
    with (flat_hit c).
  rewrite E. reflexivity.
Qed.

(** Submitting distinct categories together is submitting them one after the
    other. *)
Lemma set_monthly_budget_sequential (S : list flat_row) (inputs : list (string * Q))
    (cur : list flat_row) :
  NoDup (map fst inputs) ->
  (forall c, In c (map fst inputs) ->
             existsb (flat_hit c) S = existsb (flat_hit c) cur) ->
  fold_left (set_budget_step S) inputs cur
  = fold_left (fun cur input => set_monthly_budget [input] cur) inputs cur.
Proof.
  revert cur. induction inputs as [|[c a] rest IH]; intros cur Hnd Hagree;
    [reflexivity|].
  cbn [map fst] in Hnd. inversion Hnd as [|? ? Hnotin Hrest]; subst.
  cbn [fold_left]. rewrite flat_step_as_single by (apply Hagree; now left).
  apply IH; [exact Hrest|].
  intros c' Hc'. rewrite (Hagree c') by now right.
  rewrite !existsb_as_filter, flat_filter_other_category; [reflexivity|].
  intros ->. contradiction.
Qed.

(** X14.  On a table with at most one budget row per category, submitting
    several distinct categories on the "Set Monthly Budget" page has the
    effect of submitting them one after the other: afterwards there is still
    at most one budget row per category, each submitted category holds
    exactly the amount entered (zero included), the budget rows of the other
    categories and all expense rows are as before. *)
Theorem set_monthly_budget_distinct
    (df : list flat_row) (inputs : list (string * Q)) :
  NoDup (map f_category (of_type "budget" df)) ->
  NoDup (map fst inputs) ->
  let df1 := set_monthly_budget inputs df in
  df1 = fold_left (fun cur input => set_monthly_budget [input] cur) inputs df /\
  NoDup (map f_category (of_type "budget" df1)) /\
  (forall c a, In (c, a) inputs -> map f_amount (flat_entries_for c df1) = [a]) /\
  (forall c, ~ In c (map fst inputs) -> flat_entries_for c df1 = flat_entries_for c df) /\
  of_type "actual" df1 = of_type "actual" df.
Proof.
  intros Hflat Hnd df1.
  assert (Hseq : df1 = fold_left (fun cur input => set_monthly_budget [input] cur)
                                 inputs df).
  { subst df1. unfold set_monthly_budget at 1.
    apply set_monthly_budget_sequential; [exact Hnd|].
    intros c _. unfold of_type.
    apply existsb_filter_implied. apply flat_hit_budget. }
  split; [exact Hseq|]. rewrite Hseq. clear Hseq df1.
  revert df Hflat. induction inputs as [|[c0 a0] rest IH]; intros df Hflat.
  - cbn [fold_left]. repeat split; auto. intros c a [].
  - cbn [map fst] in Hnd. inversion Hnd as [|? ? Hnotin Hrest]; subst.
    cbn [fold_left].
    pose proof (flat_unique_upsert c0 a0 df Hflat) as Hflat1.
    destruct (IH Hrest _ Hflat1) as (Hu & Hset & Hkeep & Hact).
    split; [exact Hu|]. split; [|split].
    + intros c a [Heq | Hin].
      * injection Heq as -> ->. rewrite (Hkeep c Hnotin).
        now apply flat_entries_upsert.
      * now apply Hset.
    + intros c Hc. rewrite Hkeep by (intros Hin; apply Hc; now right).
      rewrite !flat_entries_hit. apply flat_filter_other_category.
      intros ->. apply Hc. now left.
    + rewrite Hact. apply flat_upsert_actuals.
Qed.

End FlatBudgetPage.

Section FlatSpending.

Import FlatFile FlatPages.

Lemma unique_In (x : string) (l : list string) : In x (unique l) <-> In x l.
Proof.
  induction l as [|y l IH]; cbn [unique]; [tauto|].
  cbn [In]. rewrite filter_In, IH, negb_true_iff, String.eqb_neq. split.
  - tauto.
  - intros [-> | Hin]; [now left|].
    destruct (String.eqb_spec x y) as [-> | Hne]; [now left|right; auto].
Qed.

Lemma Forall2_map_both {X Y Z : Type} (R : Y -> Z -> Prop) (f : X -> Y) (g : X -> Z)
    (l : list X) :
  (forall x, In x l -> R (f x) (g x)) -> Forall2 R (map f l) (map g l).
Proof.
  induction l as [|x l IH]; cbn [map]; intros HR; constructor.
  - apply HR. now left.
  - apply IH. intros y Hy. apply HR. now right.
Qed.

End FlatSpending.

(** ** Further properties in binary64 *)

Section Extras64.

Import Binary64.
Local Open Scope float_scope.

Lemma is_nan_false (x : float) : is_nan x = false -> Prim2SF x <> S754_nan.
Proof.
  unfold is_nan. rewrite negb_false_iff, eqb_spec. intros Heq Hn.
  rewrite Hn in Heq. discriminate.
Qed.

Lemma zero_div_under (l : float) :
  eq l 0 = false -> is_nan l = false -> status_of (0 / l) = "🟢 Under Budget".
Proof.
  intros Hz Hn. apply status_under64. unfold le.
  rewrite leb_spec, div_spec. change (Prim2SF 0) with (S754_zero false).
  change (Prim2SF 0.9) with (S754_finite false 8106479329266893 (-53)).
  apply is_nan_false in Hn.
  destruct (Prim2SF l) as [s|s| |s m e] eqn:E; try congruence.
  - assert (eq l 0 = true) by (apply eq_zero; eauto). congruence.
  - reflexivity.
  - reflexivity.
Qed.

Section Rows.

Context {A B : Type} `{Row A} `{Row B}.
Variable fsum : list float -> float.

(** X12.  With three limits that are non-zero numbers and no expense rows,
    the analysis table shows an actual of 0 and the status Under Budget for
    each of the three buckets. *)
Theorem report_without_expenses (budget : list B) :
  let T := fsum (map amount budget) in
  Forall (fun limit => eq limit 0 = false /\ is_nan limit = false)
         [T * 0.50; T * 0.30; T * 0.20] ->
  report fsum (@nil A) budget
  = Py.Return (Analysis
      [ {| Category := "Needs"; Limit := T * 0.50; Actual := 0;
           Status := "🟢 Under Budget" |};
        {| Category := "Wants"; Limit := T * 0.30; Actual := 0;
           Status := "🟢 Under Budget" |};
        {| Category := "Savings"; Limit := T * 0.20; Actual := 0;
           Status := "🟢 Under Budget" |} ]).
Proof.
  intros T Hl.
  inversion Hl as [|? ? [HN HNn] Hl1]; subst.
  inversion Hl1 as [|? ? [HW HWn] Hl2]; subst.
  inversion Hl2 as [|? ? [HS HSn] _]; subst.
  rewrite (report_runs64 fsum (@nil A) budget HN HW HS). fold T.
  change (bucket_actual "Needs" (@nil A)) with 0.
  change (bucket_actual "Wants" (@nil A)) with 0.
  change (bucket_actual "Savings" (@nil A)) with 0.
  now rewrite !zero_div_under.
Qed.

Lemma bucket_rows_app (b : string) (l l' : list A) :
  bucket_rows b (l ++ l') = (bucket_rows b l ++ bucket_rows b l')%list.
Proof. apply filter_app. Qed.

Lemma bucket_actual_other (b : string) (before after : list A) (row : A) :
  classify (category row) <> b ->
  bucket_actual b (before ++ row :: after) = bucket_actual b (before ++ after).
Proof.
  intros Hne. unfold bucket_actual. rewrite !bucket_rows_app.
  unfold bucket_rows at 2. cbn [filter].
  apply String.eqb_neq in Hne. now rewrite Hne.
Qed.

Lemma bucket_actual_last (before : list A) (row : A) :
  bucket_actual (classify (category row)) (before ++ [row])
  = bucket_actual (classify (category row)) before + amount row.
Proof.
  unfold bucket_actual. rewrite bucket_rows_app.
  unfold bucket_rows at 2. cbn [filter]. rewrite String.eqb_refl.
  unfold sum_left. rewrite map_app, fold_left_app. reflexivity.
Qed.

(** X13.  One more expense row, wherever it comes in the list, changes one
    row of the analysis table: the rows of the other two buckets are the
    same, status included, and no limit changes.  When the row comes last,
    the actual of its bucket is the former actual plus its amount, rounded
    once. *)
Theorem expense_moves_one_bucket
    (before after : list A) (row : A) (budget : list B) (rows : list analysis_row) :
  report fsum (before ++ after) budget = Py.Return (Analysis rows) ->
  exists rows',
    report fsum (before ++ row :: after) budget = Py.Return (Analysis rows') /\
    Forall2
      (fun r r' =>
         Category r' = Category r /\ Limit r' = Limit r /\
         (Category r <> classify (category row) -> r' = r) /\
         (Category r = classify (category row) -> after = [] ->
          Actual r' = Actual r + amount row))
      rows rows'.
Proof.
  intros Hrep.
  destruct (report_analysis_inv64 fsum _ _ _ Hrep) as (HN & HW & HS).
  rewrite (report_runs64 fsum (before ++ after) budget HN HW HS) in Hrep.
  injection Hrep as <-.
  eexists. split; [exact (report_runs64 fsum (before ++ row :: after) budget HN HW HS)|].
  repeat constructor; cbn [Category Limit Actual Status].
  all: try (intros Hne; rewrite bucket_actual_other by congruence; reflexivity).
  all: intros E ->; rewrite app_nil_r, E; apply bucket_actual_last.
Qed.

End Rows.

Section Track.

Variable fsum : list float -> float.

Lemma of_type_app64 (t : string) (df df' : list flat_row) :
  of_type t (df ++ df') = (of_type t df ++ of_type t df')%list.
Proof. apply filter_app. Qed.

(** X15.  "Track Spending" without a budget row shows its warning and writes
    nothing.  Otherwise the expense it records is in one of the budget
    categories and is appended to the table; the comparison shown on that
    run is still the one of the rows loaded.  On the next run every row of
    another category is the same, and the actual of that category is the
    sum of its earlier expenses followed by the new amount. *)
Theorem track_spending_next_run
    (df : list flat_row) (choice : nat) (amt : float) (clicked : bool) :
  (of_type "budget" df = [] ->
   track_spending fsum choice amt clicked df
   = (NoBudget "⚠️ Please set your monthly budget first.", df)) /\
  (of_type "budget" df <> [] ->
   exists cat,
     In cat (map f_category (of_type "budget" df)) /\
     track_spending fsum choice amt false df
     = (Table (display_budget_vs_actual fsum (of_type "budget" df)
                 (of_type "actual" df)),
        df) /\
     track_spending fsum choice amt true df
     = (Table (display_budget_vs_actual fsum (of_type "budget" df)
                 (of_type "actual" df)),
        (df ++ [{| f_type := "actual"; f_category := cat; f_amount := amt |}])%list) /\
     Forall2
       (fun r r' =>
          c_Category r' = c_Category r /\ c_Budgeted r' = c_Budgeted r /\
          (c_Category r <> cat -> r' = r) /\
          (c_Category r = cat ->
           c_Actual r' = fsum (spent_on cat (of_type "actual" df) ++ [amt])))
       (display_budget_vs_actual fsum (of_type "budget" df) (of_type "actual" df))
       (display_budget_vs_actual fsum
          (of_type "budget" (snd (track_spending fsum choice amt true df)))
          (of_type "actual" (snd (track_spending fsum choice amt true df))))).
Proof.
  unfold track_spending. split.
  - intros E. now rewrite E.
  - intros Hne. destruct (of_type "budget" df) as [|first rest] eqn:E; [congruence|].
    set (options := FlatPages.unique (map f_category (first :: rest))).
    exists (nth choice options (f_category first)).
    assert (Hcat : In (nth choice options (f_category first))
                      (map f_category (first :: rest))).
    { destruct (nth_in_or_default choice options (f_category first)) as [Hin | ->].
      - unfold options in Hin. exact (proj1 (unique_In _ _) Hin).
      - now left. }
    split; [exact Hcat|]. split; [reflexivity|]. split; [reflexivity|].
    cbn [snd]. rewrite !of_type_app64, E.
    change (of_type "budget" [{| f_type := "actual";
                                 f_category := nth choice options (f_category first);
                                 f_amount := amt |}]) with (@nil flat_row).
    change (of_type "actual" [{| f_type := "actual";
                                 f_category := nth choice options (f_category first);
                                 f_amount := amt |}])
      with [{| f_type := "actual";
               f_category := nth choice options (f_category first);
               f_amount := amt |}].
    rewrite app_nil_r. unfold display_budget_vs_actual.
    apply Forall2_map_both. intros row _.
    cbn [c_Category c_Budgeted c_Actual c_Status].
    split; [reflexivity|]. split; [reflexivity|].
    rewrite filter_app, map_app. cbn [filter f_category]. split.
    + intros Hother.
      assert (Eo : String.eqb (nth choice options (f_category first)) (f_category row)
                   = false) by (apply String.eqb_neq; congruence).
      rewrite Eo. cbn [map]. rewrite app_nil_r. reflexivity.
    + intros <-. rewrite String.eqb_refl. reflexivity.
Qed.

End Track.

Lemma report_without_expenses_witness :
  report sum_left (@nil entry) Sample64.budget
  = Py.Return (Analysis
      [ {| Category := "Needs"; Limit := 500; Actual := 0;
           Status := "🟢 Under Budget" |};
        {| Category := "Wants"; Limit := 300; Actual := 0;
           Status := "🟢 Under Budget" |};
        {| Category := "Savings"; Limit := 200; Actual := 0;
           Status := "🟢 Under Budget" |} ]).
Proof.
  assert (Hl : Forall (fun limit => eq limit 0 = false /\ is_nan limit = false)
                 [sum_left (map amount Sample64.budget) * 0.50;
                  sum_left (map amount Sample64.budget) * 0.30;
                  sum_left (map amount Sample64.budget) * 0.20])
    by (repeat constructor).
  exact (report_without_expenses (A := entry) sum_left Sample64.budget Hl).
Defined.

Lemma expense_moves_one_bucket_witness :
  exists rows',
    report sum_left
      (Sample64.actuals ++ [{| e_category := "Groceries"; e_amount := 25.5 |}])
      Sample64.budget
    = Py.Return (Analysis rows') /\
    map Actual rows' = [475.5; 300; 200.01].
Proof.
  destruct (expense_moves_one_bucket sum_left Sample64.actuals []
              {| e_category := "Groceries"; e_amount := 25.5 |}
              Sample64.budget Sample64.analysis)
    as (rows' & Hrep & _).
  { vm_compute. reflexivity. }
  exists rows'. split; [exact Hrep|].
  assert (Hrun : report sum_left
            (Sample64.actuals ++ [{| e_category := "Groceries"; e_amount := 25.5 |}])
            Sample64.budget
          = Py.Return (Analysis
              [ {| Category := "Needs"; Limit := 500; Actual := 475.5;
                   Status := "🟡 At Limit" |};
                {| Category := "Wants"; Limit := 300; Actual := 300;
                   Status := "🟡 At Limit" |};
                {| Category := "Savings"; Limit := 200; Actual := 200.01;
                   Status := "🔴 Over Budget" |} ]))
    by (vm_compute; reflexivity).
  rewrite Hrun in Hrep. injection Hrep as <-. reflexivity.
Defined.

Lemma track_spending_next_run_witness :
  track_spending sum_left 0 5 true (of_type "actual" Sample64.df)
  = (NoBudget "⚠️ Please set your monthly budget first.",
     of_type "actual" Sample64.df) /\
  exists cat,
    In cat (map f_category (of_type "budget" Sample64.df)) /\
    snd (track_spending sum_left 1 5 true Sample64.df)
    = (Sample64.df ++ [{| f_type := "actual"; f_category := cat; f_amount := 5 |}])%list.
Proof.
  split.
  - apply (proj1 (track_spending_next_run sum_left (of_type "actual" Sample64.df)
                    0 5 true)).
    vm_compute. reflexivity.
  - destruct (proj2 (track_spending_next_run sum_left Sample64.df 1 5 true))
      as (cat & Hcat & _ & Hsave & _).
    + vm_compute. discriminate.
    + exists cat. split; [exact Hcat|]. now rewrite Hsave.
Defined.

End Extras64.

(** ** File names of the flat-file application *)

Section FileNames.

Import FlatPages.

Lemma prefix_empty (s : string) : String.prefix "" s = true.
Proof. destruct s; reflexivity. Qed.

Lemma replace_char_cons (c : ascii) (new : string) (ch : ascii) (rest : string) :
  replace (String c "") new (String ch rest)
  = if Ascii.eqb ch c then new ++ replace (String c "") new rest
    else String ch (replace (String c "") new rest).
Proof.
  unfold replace. cbn [replace_from String.prefix String.length Nat.sub].
  destruct (Ascii.ascii_dec c ch) as [<- | Hne].
  - now rewrite prefix_empty, Ascii.eqb_refl.
  - destruct (Ascii.eqb ch c) eqn:E; [|reflexivity].
    apply Ascii.eqb_eq in E. congruence.
Qed.

Lemma append_assoc (a b c : string) : (a ++ b) ++ c = a ++ (b ++ c).
Proof.
  induction a as [|ch a IH]; cbn [append]; [reflexivity|now rewrite IH].
Qed.

Lemma replace_char_app (c : ascii) (new a b : string) :
  replace (String c "") new (a ++ b)
  = replace (String c "") new a ++ replace (String c "") new b.
Proof.
  induction a as [|ch a IH]; cbn [append]; [reflexivity|].
  rewrite !replace_char_cons, IH.
  destruct (Ascii.eqb ch c); [now rewrite append_assoc|reflexivity].
Qed.

Lemma has_char_app (c : ascii) (a b : string) :
  has_char c (a ++ b) = has_char c a || has_char c b.
Proof.
  induction a as [|ch a IH]; cbn [append has_char]; [reflexivity|].
  now rewrite IH, orb_assoc.
Qed.

Lemma replace_char_removes (c : ascii) (new s : string) :
  has_char c new = false -> has_char c (replace (String c "") new s) = false.
Proof.
  intros Hnew. induction s as [|ch s IH]; [reflexivity|].
  rewrite replace_char_cons. destruct (Ascii.eqb ch c) eqn:E.
  - now rewrite has_char_app, Hnew, IH.
  - cbn [has_char]. now rewrite E, IH.
Qed.

Lemma replace_char_keeps_absent (c c' : ascii) (new s : string) :
  has_char c' new = false -> has_char c' s = false ->
  has_char c' (replace (String c "") new s) = false.
Proof.
  intros Hnew. induction s as [|ch s IH]; [reflexivity|].
  cbn [has_char]. intros Hs. apply orb_false_iff in Hs. destruct Hs as [Hch Hs].
  rewrite replace_char_cons. destruct (Ascii.eqb ch c).
  - now rewrite has_char_app, Hnew, IH.
  - cbn [has_char]. now rewrite Hch, IH.
Qed.

Lemma replace_char_absent (c : ascii) (new s : string) :
  has_char c s = false -> replace (String c "") new s = s.
Proof.
  induction s as [|ch s IH]; [reflexivity|].
  cbn [has_char]. intros Hs. apply orb_false_iff in Hs. destruct Hs as [Hch Hs].
  now rewrite replace_char_cons, Hch, IH.
Qed.

Lemma safe_email_app (a b : string) :
  safe_email (a ++ b) = safe_email a ++ safe_email b.
Proof.
  unfold safe_email. now rewrite !replace_char_app.
Qed.

(** X17.  The folder name made from an email contains neither [@] nor a dot,
    and an email without these characters is used as it is.  The renaming
    does not tell emails apart: an email with [@] and the one with [_at_]
    in its place, or with a dot and with [_dot_] in its place, get the same
    data file. *)
Theorem data_path_sanitised (email x y month : string) :
  has_char "@" (safe_email email) = false /\
  has_char "." (safe_email email) = false /\
  (has_char "@" email = false -> has_char "." email = false ->
   get_data_path email month = "data/" ++ email ++ "/" ++ month ++ ".csv") /\
  get_data_path (x ++ "@" ++ y) month = get_data_path (x ++ "_at_" ++ y) month /\
  get_data_path (x ++ "." ++ y) month = get_data_path (x ++ "_dot_" ++ y) month.
Proof.
  split; [|split; [|split; [|split]]].
  - unfold safe_email. apply replace_char_keeps_absent; [reflexivity|].
    now apply replace_char_removes.
  - unfold safe_email. now apply replace_char_removes.
  - intros Hat Hdot. unfold get_data_path, data_folder, safe_email.
    now rewrite (replace_char_absent "@" _ _ Hat), (replace_char_absent "." _ _ Hdot).
  - unfold get_data_path, data_folder. now rewrite !safe_email_app.
  - unfold get_data_path, data_folder. now rewrite !safe_email_app.
Qed.

Lemma length_append (a b : string) :
  String.length (a ++ b) = (String.length a + String.length b)%nat.
Proof.
  induction a as [|ch a IH]; cbn [append String.length plus]; [reflexivity|].
  now rewrite IH.
Qed.

Lemma substring_suffix (a b : string) :
  String.substring (String.length a) (String.length b) (a ++ b) = b.
Proof.
  induction a as [|ch a IH]; cbn [append String.length String.substring].
  - induction b as [|ch b IHb]; cbn [String.length String.substring];
      [reflexivity|now rewrite IHb].
  - exact IH.
Qed.

Lemma endswith_append (month suffix : string) : endswith suffix (month ++ suffix) = true.
Proof.
  unfold endswith. rewrite length_append.
  replace (String.length month + String.length suffix - String.length suffix)%nat
    with (String.length month) by lia.
  rewrite substring_suffix, String.eqb_refl.
  assert (H : (String.length suffix <=? String.length month + String.length suffix)%nat
              = true) by (apply Nat.leb_le; lia).
  now rewrite H.
Qed.

Lemma strip_csv (month : string) :
  has_char "." month = false -> replace ".csv" "" (month ++ ".csv") = month.
Proof.
  unfold replace. induction month as [|ch month IH]; [reflexivity|].
  cbn [has_char]. intros Hm. apply orb_false_iff in Hm. destruct Hm as [Hch Hm].
  cbn [append replace_from String.prefix].
  destruct (Ascii.ascii_dec "." ch) as [<- | Hne]; [discriminate Hch|].
  now rewrite (IH Hm).
Qed.

(** X18.  [get_all_months] answers the empty list when the user's folder
    does not exist.  When the folder holds the files [month.csv] of some
    months whose names have no dot, as the application writes them, and other
    files that do not end in [.csv], it answers exactly these months, in the
    folder's order; [get_data_path] names the file of a month in that
    folder. *)
Theorem get_all_months_round_trip
    (listdir : string -> option (list string)) (email : string)
    (months others : list string) :
  (listdir (data_folder email) = None -> get_all_months listdir email = []) /\
  (Forall (fun month => has_char "." month = false) months ->
   Forall (fun f => endswith ".csv" f = false) others ->
   listdir (data_folder email)
   = Some (map (fun month => (month ++ ".csv")%string) months ++ others)%list ->
   get_all_months listdir email = months) /\
  (forall month,
     get_data_path email month = data_folder email ++ "/" ++ (month ++ ".csv")).
Proof.
  split; [|split; [|reflexivity]].
  - intros E. unfold get_all_months. now rewrite E.
  - intros Hmonths Hothers E. unfold get_all_months. rewrite E.
    rewrite filter_app, map_app.
    replace (filter (endswith ".csv") others) with (@nil string).
    + cbn [map]. rewrite app_nil_r. clear E.
      induction months as [|month rest IH]; [reflexivity|].
      apply Forall_cons_iff in Hmonths. destruct Hmonths as [Hm Hrest].
      cbn [map filter]. rewrite endswith_append. cbn [map].
      rewrite (strip_csv month Hm). f_equal. now apply IH.
    + symmetry. clear E. induction others as [|f rest IH]; [reflexivity|].
      apply Forall_cons_iff in Hothers. destruct Hothers as [Hf Hrest].
      cbn [filter]. rewrite Hf. now apply IH.
Qed.

End FileNames.

Section Coverage.

Import FlatFile.


End Coverage.

(** ** The further properties on the sample data *)

Lemma sample_store_reachable : reachable Sample.store.
Proof. unfold Sample.store. repeat constructor. Qed.

Lemma sample_store_unique : unique_budget_keys Sample.store.
Proof. apply reachable_invariants. apply sample_store_reachable. Qed.

Lemma sample_app_store_reachable : app_reachable Sample.app_store.
Proof.
  unfold Sample.app_store. constructor. constructor; [constructor|].
  repeat constructor; cbn; tauto.
Qed.

Lemma sample_accounts_reachable : users_reachable Sample.accounts.
Proof. unfold Sample.accounts, Users.signup. repeat constructor. Qed.

Lemma get_budget_after_save_witness :
  filter (fun v => String.eqb (Database.bv_category v) "Housing")
         (Database.get_budget 1 "2024-05"
            (snd (Database.save_budget 1 "2024-05" "Housing" 700 Sample.store)))
  = [{| Database.bv_category := "Housing"; Database.bv_amount := 700 |}].
Proof.
  exact (proj1 (get_budget_after_save Sample.store 1 "2024-05" "Housing" 700
                  sample_store_unique)).
Defined.

Lemma get_expenses_newest_first_witness :
  newest_first (Database.get_expenses 1 "2024-05" Sample.store).
Proof.
  exact (proj1 (proj2 (get_expenses_newest_first 1 "2024-05" Sample.store))).
Defined.

Lemma add_expense_fresh_listed_witness :
  present (Database.expenses_seq Sample.store + 1) Sample.store = false.
Proof.
  exact (proj1 (proj2 (add_expense_fresh_listed Sample.store 1 "2024-05" "Housing" 20
                         "2024-05-09T08:00:00" sample_store_reachable))).
Defined.

Lemma delete_expense_listing_witness :
  present 1 (snd (Database.add_expense 1 "2024-05" "Housing" 20 "2024-05-09T08:00:00"
                    (snd (Database.delete_expense 1 Sample.store)))) = false.
Proof.
  destruct (delete_expense_listing Sample.store 1 1 "2024-05")
    as (_ & _ & _ & _ & Hfresh).
  apply (Hfresh sample_store_reachable); vm_compute; reflexivity.
Defined.

Lemma create_user_unique_email_witness :
  Users.create_user "ann@example.com" "other" Sample.accounts
  = (false, Sample.accounts).
Proof.
  apply (proj1 (create_user_unique_email Sample.accounts "ann@example.com" "other"
                  sample_accounts_reachable)).
  vm_compute. discriminate.
Defined.

Lemma signup_then_login_witness :
  Users.login Sample.plain_checkpw "ann@example.com" "s3cret" Sample.accounts = true.
Proof.
  destruct (signup_then_login Sample.plain_checkpw Sample.plain_hashpw "salt"
              "ann@example.com" "s3cret" Users.init
              (fun p _ => String.eqb_refl p) eq_refl)
    as (_ & _ & Hlogin & _).
  exact Hlogin.
Defined.

Lemma set_budget_page_saves_positive_witness :
  map Database.b_amount
      (entries_for (1%Z, "2024-05", "Savings")
         (App.set_budget_page 1 "2024-05" [("Housing", 0); ("Savings", 50)]
            Sample.store))
  = [50] /\
  entries_for (1%Z, "2024-05", "Housing")
    (App.set_budget_page 1 "2024-05" [("Housing", 0); ("Savings", 50)] Sample.store)
  = entries_for (1%Z, "2024-05", "Housing") Sample.store.
Proof.
  assert (Hnd : NoDup (map fst [("Housing", 0); ("Savings", 50)])).
  { cbn. constructor; [intros [H | []]; discriminate H|].
    constructor; [intros []|constructor]. }
  destruct (set_budget_page_saves_positive Sample.store 1 "2024-05"
              [("Housing", 0); ("Savings", 50)] sample_store_unique Hnd)
    as (_ & Hpos & Hzero & _).
  split.
  - apply Hpos; [right; left; reflexivity|vm_compute; reflexivity].
  - apply (Hzero "Housing" 0); [left; reflexivity|vm_compute; discriminate].
Defined.

Lemma add_expense_page_needs_budget_witness :
  App.add_expense_page 1 "2024-05" 0 450 true "2024-05-01T09:00:00" Database.init_db
  = (App.NoBudget "Please set your monthly budget first.", Database.init_db) /\
  Database.budgets
    (snd (App.add_expense_page 1 "2024-05" 0 20 true "2024-05-09T08:00:00" Sample.store))
  = Database.budgets Sample.store.
Proof.
  split.
  - apply (proj1 (add_expense_page_needs_budget Database.init_db 1 "2024-05" 0 450 true
                    "2024-05-01T09:00:00")).
    reflexivity.
  - apply (proj2 (add_expense_page_needs_budget Sample.store 1 "2024-05" 0 20 true
                    "2024-05-09T08:00:00")).
    vm_compute. discriminate.
Defined.

Lemma app_store_invariants_witness :
  Forall (fun e => In (Database.e_category e) known_categories)
         (Database.expenses Sample.app_store).
Proof.
  exact (proj1 (proj2 (proj2 (app_store_invariants Sample.app_store
                                sample_app_store_reachable)))).
Defined.

Lemma sample_df_unique :
  NoDup (map FlatFile.f_category (FlatFile.of_type "budget" Sample.df)).
Proof.
  cbn. constructor; [intros [H | []]; discriminate H|].
  constructor; [intros []|constructor].
Qed.

Lemma set_monthly_budget_distinct_witness :
  map FlatFile.f_amount
      (flat_entries_for "Savings"
         (FlatFile.set_monthly_budget [("Housing", 700); ("Savings", 0)] Sample.df))
  = [0].
Proof.
  assert (Hnd : NoDup (map fst [("Housing", 700); ("Savings", 0)])).
  { cbn. constructor; [intros [H | []]; discriminate H|].
    constructor; [intros []|constructor]. }
  destruct (set_monthly_budget_distinct Sample.df [("Housing", 700); ("Savings", 0)]
              sample_df_unique Hnd) as (_ & _ & Hset & _).
  apply Hset. right. left. reflexivity.
Defined.

Lemma data_path_sanitised_witness :
  FlatPages.get_data_path "ann" "2024-05" = "data/ann/2024-05.csv".
Proof.
  apply (proj1 (proj2 (proj2 (data_path_sanitised "ann" "" "" "2024-05"))));
    reflexivity.
Defined.

Lemma get_all_months_round_trip_witness :
  FlatPages.get_all_months Sample.listdir "ann@example.com" = ["2024-04"; "2024-05"].
Proof.
  apply (proj1 (proj2 (get_all_months_round_trip Sample.listdir "ann@example.com"
                         ["2024-04"; "2024-05"] ["notes.txt"]))).
  - repeat constructor.
  - repeat constructor.
  - vm_compute. reflexivity.
Defined.

